(** * TrendRadar: report orchestration and notification dispatch

  A shallow embedding of the parts of [trendradar/__main__.py] that
  decide when a crawl cycle pushes a notification, of the version check,
  and of the fetchers [trendradar/crawler/crypto_fetcher.py],
  [crypto_fetcher_coingecko.py] and [twitter_fetcher.py], and theorems
  about them.

  Python values are modelled as follows.
  - [str] is [string], the UTF-8 bytes of the text. The helpers of
    [PyStr] that look at white space, digits or letters are Python's
    functions on texts of ASCII characters only. Where the code applies
    [strip], [int] or [lower] to a text it receives, the function is a
    parameter of the model ([py_strip], [py_int], [py_lower]), as the
    floats are, and [PyStr] gives the instance for ASCII texts.
  - [int] is [Z].
  - [dict] is an insertion-ordered association list without duplicate
    keys (module [Dict]).
  - [Optional[T]] is [option T]; a raised exception is [Raise e].
  - Calls into collaborators that are not pure (storage, clock, HTTP,
    notification channels) are nodes of a program tree ([Prog]); a
    handler answers them, and a theorem quantifies over every handler. *)

From Stdlib Require Import List String Ascii ZArith Bool Lia.
From Stdlib Require Import DecimalString.
From Stdlib Require DecimalPos DecimalZ.
Import ListNotations.

Local Open Scope string_scope.
Local Open Scope Z_scope.

(** ** Python strings *)

Module PyStr.

(** [str.isspace] on one ASCII character: tab, line feed, vertical tab,
    form feed, carriage return, the four separators 0x1c..0x1f, space. *)
Definition isspace (c : ascii) : bool :=
  let n := N.to_nat (N_of_ascii c) in
  ((9 <=? n) && (n <=? 13) || (28 <=? n) && (n <=? 32))%nat.

Fixpoint lstrip (s : string) : string :=
  match s with
  | String c rest => if isspace c then lstrip rest else s
  | EmptyString => EmptyString
  end.

(** [rstrip] keeps a character when it is not white space or when
    something that is kept follows it. *)
Fixpoint rstrip (s : string) : string :=
  match s with
  | String c rest =>
      match rstrip rest with
      | EmptyString => if isspace c then EmptyString else String c EmptyString
      | kept => String c kept
      end
  | EmptyString => EmptyString
  end.

(** [s.strip()] for a text of ASCII characters. (On other texts Python
    also strips the white space of Unicode, such as U+00A0 and U+3000.) *)
Definition strip (s : string) : string := rstrip (lstrip s).

(** [s.split(sep)] for a separator of one character. The result is
    never empty: splitting the empty string gives one empty part. *)
Fixpoint split (sep : ascii) (s : string) : list string :=
  match s with
  | EmptyString => [EmptyString]
  | String c rest =>
      if Ascii.eqb c sep then EmptyString :: split sep rest
      else match split sep rest with
           | part :: parts => String c part :: parts
           | [] => [String c EmptyString]
           end
  end.

Definition is_digit (c : ascii) : bool :=
  let n := N.to_nat (N_of_ascii c) in ((48 <=? n) && (n <=? 57))%nat.

Definition digit_value (c : ascii) : Z := Z.of_N (N_of_ascii c) - 48.

(** Digits of a decimal literal, with the single underscores Python
    allows between two digits. [prev_digit] says whether the previous
    character was a digit (an underscore must follow one and be
    followed by one). *)
Fixpoint digits (acc : Z) (prev_digit : bool) (s : string) : option Z :=
  match s with
  | EmptyString => if prev_digit then Some acc else None
  | String c rest =>
      if is_digit c then digits (10 * acc + digit_value c) true rest
      else if Ascii.eqb c "_" then
             if prev_digit then digits acc false rest else None
           else None
  end.

(** [int(s)] in base ten for a text of ASCII characters: surrounding
    white space is dropped, one sign is allowed, then at least one digit.
    [None] stands for the [ValueError] Python raises. (On other texts
    Python also reads the decimal digits and the white space of Unicode;
    and from version 3.11 on it refuses more than 4300 digits.) *)
Definition int (s : string) : option Z :=
  match strip s with
  | String "-" body => option_map Z.opp (digits 0 false body)
  | String "+" body => digits 0 false body
  | body => digits 0 false body
  end.

(** [s.lower()] for a text of ASCII characters. *)
Definition lower_char (c : ascii) : ascii :=
  let n := N_of_ascii c in
  if ((65 <=? n) && (n <=? 90))%N then ascii_of_N (n + 32) else c.

Fixpoint lower (s : string) : string :=
  match s with
  | EmptyString => EmptyString
  | String c rest => String (lower_char c) (lower rest)
  end.

Fixpoint drop (n : nat) (s : string) : string :=
  match n, s with
  | O, _ => s
  | S n', String _ rest => drop n' rest
  | S _, EmptyString => EmptyString
  end.

(** [s.replace(old, new)] for a non-empty [old]: occurrences are taken
    from the left and do not overlap. The fuel is the length of [s],
    which bounds the number of steps. *)
Fixpoint replace_fuel (fuel : nat) (old new s : string) : string :=
  match fuel with
  | O => s
  | S fuel' =>
      match s with
      | EmptyString => EmptyString
      | String c rest =>
          if String.prefix old s
          then new ++ replace_fuel fuel' old new (drop (String.length old) s)
          else String c (replace_fuel fuel' old new rest)
      end
  end.

Definition replace (old new s : string) : string :=
  replace_fuel (String.length s) old new s.

(** Python truthiness of a string. *)
Definition truthy (s : string) : bool :=
  match s with EmptyString => false | _ => true end.

(** [str(n)] for an integer. *)
Definition of_Z (n : Z) : string := NilEmpty.string_of_int (Z.to_int n).

(** [sub in s]. *)
Fixpoint contains (sub s : string) : bool :=
  String.prefix sub s ||
  match s with
  | EmptyString => false
  | String _ rest => contains sub rest
  end.

(** [str(l)] for a list of strings without quotes or escapes in them. *)
Definition repr_list (l : list string) : string :=
  "[" ++ String.concat ", " (map (fun s => "'" ++ s ++ "'") l) ++ "]".

End PyStr.

(** ** Exceptions and outcomes *)

(** The exception classes the modelled code raises or tells apart. *)
Inductive Exn : Type :=
| RequestException (msg : string)
| KeyError (key : string)
| ValueError (msg : string)
| RuntimeError (msg : string)
| OtherException (msg : string).

(** The text [str(e)] that the code interpolates when it prints [e]. *)
Definition exn_text (e : Exn) : string :=
match e with
| RequestException m | ValueError m | RuntimeError m | OtherException m => m
| KeyError k => "'" ++ k ++ "'"
end.

Inductive Outcome (A : Type) : Type :=
| Ret (a : A)
| Raise (e : Exn).
Arguments Ret {A} a.
Arguments Raise {A} e.

Definition raised {A} (r : Outcome A) : bool :=
match r with Ret _ => false | Raise _ => true end.

(** ** Programs over collaborators

  [Prog Op A] is a Python function body that returns an [A] or raises.
  [Say line k] is [print(line)]. [Call op k] calls the collaborator
  operation [op], which returns or raises, and goes on with [k]. *)

Section Programs.

Variable Op : Type -> Type.

Inductive Prog (A : Type) : Type :=
| Done (r : Outcome A)
| Say (line : string) (k : Prog A)
| Call (X : Type) (op : Op X) (k : Outcome X -> Prog A).

Arguments Done {A} r.
Arguments Say {A} line k.
Arguments Call {A X} op k.

Definition ret {A} (a : A) : Prog A := Done (Ret a).
Definition raise {A} (e : Exn) : Prog A := Done (Raise e).

Fixpoint bind {A B} (p : Prog A) (f : A -> Prog B) : Prog B :=
  match p with
  | Done (Ret a) => f a
  | Done (Raise e) => Done (Raise e)
  | Say line k => Say line (bind k f)
  | Call op k => Call op (fun x => bind (k x) f)
  end.

(** A call whose exception, if any, propagates. *)
Definition call {X} (op : Op X) : Prog X := Call op (fun x => Done x).

Definition say (line : string) : Prog unit := Say line (ret tt).

(** [try: p except Exception as e: h e]. *)
Fixpoint try_except {A} (p : Prog A) (h : Exn -> Prog A) : Prog A :=
  match p with
  | Done (Ret a) => Done (Ret a)
  | Done (Raise e) => h e
  | Say line k => Say line (try_except k h)
  | Call op k => Call op (fun x => try_except (k x) h)
  end.

(** What a run leaves behind: the lines printed and the calls made,
    each call with its answer, in order. *)
Inductive Event : Type :=
| Printed (line : string)
| Called (X : Type) (op : Op X) (answer : Outcome X).
Arguments Called {X} op answer.

Definition Trace : Type := list Event.

(** A handler implements the collaborators over a world [W]. *)
Definition Handler (W : Type) : Type := forall X, Op X -> W -> Outcome X * W.

Fixpoint exec {W A} (h : Handler W) (p : Prog A) (w : W) : Trace * Outcome A * W :=
  match p with
  | Done r => ([], r, w)
  | Say line k =>
      let '(tr, r, w') := exec h k w in (Printed line :: tr, r, w')
  | Call op k =>
      let (x, w1) := h _ op w in
      let '(tr, r, w') := exec h (k x) w1 in
      (Called op x :: tr, r, w')
  end.

Definition trace_of {W A} (h : Handler W) (p : Prog A) (w : W) : Trace :=
  fst (fst (exec h p w)).
Definition result_of {W A} (h : Handler W) (p : Prog A) (w : W) : Outcome A :=
  snd (fst (exec h p w)).

(** [always C p Q]: whatever the collaborators answer, as long as each
    answer satisfies [C], the trace and the result of [p] satisfy [Q]. *)
Definition Answers : Type := forall X, Op X -> Outcome X -> Prop.

Fixpoint always (C : Answers) {A} (p : Prog A) (Q : Trace -> Outcome A -> Prop) : Prop :=
  match p with
  | Done r => Q [] r
  | Say line k => always C k (fun tr r => Q (Printed line :: tr) r)
  | Call op k =>
      forall x, C _ op x -> always C (k x) (fun tr r => Q (Called op x :: tr) r)
  end.

Definition any_answer : Answers := fun _ _ _ => True.

(** The handler [h] only gives answers that satisfy [C]. *)
Definition respects {W} (h : Handler W) (C : Answers) : Prop :=
  forall X (op : Op X) (w : W), C X op (fst (h X op w)).

End Programs.

Arguments Done {Op A} r.
Arguments Say {Op A} line k.
Arguments Call {Op A X} op k.
Arguments ret {Op A} a.
Arguments raise {Op A} e.
Arguments call {Op X} op.
Arguments say {Op} line.
Arguments Printed {Op} line.
Arguments Called {Op X} op answer.
Arguments any_answer {Op} X _ _.
Arguments bind {Op A B} p f.
Arguments try_except {Op A} p h.
Arguments exec {Op W A} h p w.
Arguments trace_of {Op W A} h p w.
Arguments result_of {Op W A} h p w.
Arguments always {Op} C {A} p Q.
Arguments respects {Op W} h C.


Declare Scope prog_scope.
Delimit Scope prog_scope with prog.
Notation "x <- p ;; q" := (bind p (fun x => q))
(at level 61, p at next level, right associativity) : prog_scope.
Notation "' pat <- p ;; q" := (bind p (fun x => match x with pat => q end))
(at level 61, pat pattern, p at next level, right associativity) : prog_scope.
Notation "p ;; q" := (bind p (fun _ => q))
(at level 61, right associativity) : prog_scope.
Local Open Scope prog_scope.

(** ** Python dictionaries

    A [dict] keeps its keys in insertion order and holds each key once.
    Assigning to a key that is present keeps the key's position. *)

Module Dict.

Definition t (V : Type) : Type := list (string * V).

Definition empty {V} : t V := [].

Fixpoint get {V} (k : string) (d : t V) : option V :=
  match d with
  | [] => None
  | (k', v) :: rest => if String.eqb k k' then Some v else get k rest
  end.

Definition mem {V} (k : string) (d : t V) : bool :=
  match get k d with Some _ => true | None => false end.

(** [d[k] = v]. *)
Fixpoint set {V} (k : string) (v : V) (d : t V) : t V :=
  match d with
  | [] => [(k, v)]
  | (k', v') :: rest =>
      if String.eqb k k' then (k', v) :: rest else (k', v') :: set k v rest
  end.

Definition keys {V} (d : t V) : list string := map fst d.
Definition values {V} (d : t V) : list V := map snd d.
Definition items {V} (d : t V) : list (string * V) := d.

(** [{**a, **b}]. *)
Definition merge {V} (a b : t V) : t V :=
  fold_left (fun acc kv => set (fst kv) (snd kv) acc) b a.

(** Python truthiness of a dict. *)
Definition truthy {V} (d : t V) : bool :=
  match d with [] => false | _ => true end.

(** Well-formedness: no key occurs twice. *)
Definition wf {V} (d : t V) : Prop := NoDup (keys d).

End Dict.

(** ** Version check ([check_version_update]) *)

Record Response : Type := mkResponse {
  status_code : Z;
  text : string;
  (** [response.json()] when the body is a JSON object whose values are
      strings; [None] when decoding fails. *)
  json : option (Dict.t string)
}.

(** The HTTP layer. [proxies] is the one proxy URL the code installs for
    both schemes, or [None]. *)
Inductive NetOp : Type -> Type :=
| requests_get (url : string) (params : Dict.t string)
               (proxies : option string) (timeout : Z) : NetOp Response.

(** [response.raise_for_status()]: an error status raises [HTTPError],
    a subclass of [RequestException]. *)
Definition http_error (r : Response) : bool :=
  (400 <=? status_code r) && (status_code r <? 600).

Definition raise_for_status (r : Response) : Prog NetOp unit :=
  if http_error r
  then raise (RequestException (PyStr.of_Z (status_code r) ++ " Error"))
  else ret tt.

(** [{"http": proxy_url, "https": proxy_url}] when [proxy_url] is truthy. *)
Definition proxies_of (proxy_url : option string) : option string :=
  match proxy_url with
  | Some u => if PyStr.truthy u then Some u else None
  | None => None
  end.

Section VersionCheck.

(** [s.strip()] and [int(s)] on any text: the white space and the digits
    they know are Unicode's. [None] is the [ValueError] of [int]. *)
Variable py_strip : string -> string.
Variable py_int : string -> option Z.

(** The inner [parse_version]: its bare [except] turns every failure
    into [(0, 0, 0)]. The separator is one ASCII character, so splitting
    the bytes is splitting the text. *)
Definition parse_version_attempt (version_str : string) : Outcome (Z * Z * Z) :=
  match PyStr.split "." (py_strip version_str) with
  | [p0; p1; p2] =>
      match py_int p0, py_int p1, py_int p2 with
      | Some major, Some minor, Some patch => Ret (major, minor, patch)
      | _, _, _ => Raise (ValueError "invalid literal for int() with base 10")
      end
  | _ => Raise (ValueError "版本号格式不正确")
  end.

Definition parse_version (version_str : string) : Z * Z * Z :=
  match parse_version_attempt version_str with
  | Ret triple => triple
  | Raise _ => (0, 0, 0)
  end.

(** [a < b] on tuples of three integers. *)
Definition tuple_lt (a b : Z * Z * Z) : bool :=
  let '(a0, a1, a2) := a in
  let '(b0, b1, b2) := b in
  if a0 =? b0 then (if a1 =? b1 then a2 <? b2 else a1 <? b1) else a0 <? b0.

Definition check_version_update (current_version version_url : string)
    (proxy_url : option string) : Prog NetOp (bool * option string) :=
  try_except
    (let proxies := proxies_of proxy_url in
     response <- call (requests_get version_url [] proxies 10) ;;
     raise_for_status response ;;
     let remote_version := py_strip (text response) in
     say ("当前版本: " ++ current_version ++ ", 远程版本: " ++ remote_version) ;;
     let current_tuple := parse_version current_version in
     let remote_tuple := parse_version remote_version in
     let need_update := tuple_lt current_tuple remote_tuple in
     ret (need_update, if need_update then Some remote_version else None))
    (fun e => say ("版本检查失败: " ++ exn_text e) ;; ret (false, None)).

(** A version string "of the form X.Y.Z with three integer parts": three
    dot-separated parts, each a literal [int()] accepts. *)
Definition is_int_literal (s : string) : bool :=
  match py_int s with Some _ => true | None => false end.

Definition well_formed_version (s : string) : bool :=
  match PyStr.split "." (py_strip s) with
  | [x; y; z] => is_int_literal x && is_int_literal y && is_int_literal z
  | _ => false
  end.

End VersionCheck.

(** A scripted HTTP layer for concrete runs: the world is the list of
    answers still to be given; when it runs out the request fails. *)
Definition scripted_net : Handler NetOp (list (Outcome Response)) :=
  fun X op =>
    match op in NetOp X return list (Outcome Response) -> Outcome X * list (Outcome Response) with
    | requests_get _ _ _ _ => fun w =>
        match w with
        | answer :: rest => (answer, rest)
        | [] => (Raise (RequestException "connection refused"), [])
        end
    end.

Definition ok_response (body : string) : Outcome Response :=
  Ret (mkResponse 200 body None).

(** ** Crypto prices ([CryptoFetcher])

    Prices are Python floats. Their arithmetic is not modelled: the type
    [F] of floats, [float(s)], the sign test and the three number
    formats of the title are parameters. *)

(** One title's entry in a crawl result. *)
Record TitleData : Type := mkTitleData {
  ranks : list Z;
  url : string;
  mobileUrl : string
}.

Section Crypto.

Variable F : Type.
(** [float(s)]; [None] is the [ValueError]. *)
Variable py_float : string -> option F.
(** [Gt] when [x > 0], [Lt] when [x < 0], [Eq] otherwise. *)
Variable float_sign : F -> comparison.
(** The formats [:,.2f], [:+.2f] and [:,.0f]. *)
Variables fmt_money fmt_signed fmt_whole : F -> string.

Record Ticker : Type := mkTicker {
  price : F;
  change_24h : F;
  volume_24h : F;
  high_24h : F;
  low_24h : F
}.

Definition BASE_URL : string := "https://api.binance.com/api/v3".
Definition DEFAULT_SYMBOLS : list string := ["BTCUSDT"; "ETHUSDT"].

(** [float(data[key])]. *)
Definition float_field (data : Dict.t string) (key : string) : Prog NetOp F :=
  match Dict.get key data with
  | None => raise (KeyError key)
  | Some s =>
      match py_float s with
      | Some x => ret x
      | None => raise (ValueError ("could not convert string to float: '" ++ s ++ "'"))
      end
  end.

(** [response.json()]. *)
Definition response_json (r : Response) : Prog NetOp (Dict.t string) :=
  match json r with
  | Some data => ret data
  | None => raise (RequestException "Expecting value: line 1 column 1 (char 0)")
  end.

(** The body of the [for] loop of [fetch_ticker_24h] for one symbol:
    the [try] block and its three [except] clauses. *)
Definition fetch_symbol (proxies : option string) (symbol : string)
    (results : Dict.t (option Ticker)) : Prog NetOp (Dict.t (option Ticker)) :=
  try_except
    (let url := BASE_URL ++ "/ticker/24hr" in
     let params := [("symbol", symbol)] in
     response <- call (requests_get url params proxies 10) ;;
     raise_for_status response ;;
     data <- response_json response ;;
     p <- float_field data "lastPrice" ;;
     c <- float_field data "priceChangePercent" ;;
     v <- float_field data "volume" ;;
     hi <- float_field data "highPrice" ;;
     lo <- float_field data "lowPrice" ;;
     let results := Dict.set symbol (Some (mkTicker p c v hi lo)) results in
     say ("✓ 获取 " ++ symbol ++ " 成功: $" ++ fmt_money p ++ " ("
          ++ fmt_signed c ++ "%)") ;;
     ret results)
    (fun e =>
       match e with
       | RequestException _ =>
           say ("✗ 获取 " ++ symbol ++ " 失败 (网络错误): " ++ exn_text e)
       | KeyError _ | ValueError _ =>
           say ("✗ 获取 " ++ symbol ++ " 失败 (数据格式错误): " ++ exn_text e)
       | _ =>
           say ("✗ 获取 " ++ symbol ++ " 失败 (未知错误): " ++ exn_text e)
       end ;;
       ret (Dict.set symbol None results)).

Fixpoint fetch_symbols (proxies : option string) (symbols : list string)
    (results : Dict.t (option Ticker)) : Prog NetOp (Dict.t (option Ticker)) :=
  match symbols with
  | [] => ret results
  | symbol :: rest =>
      results <- fetch_symbol proxies symbol results ;;
      fetch_symbols proxies rest results
  end.

Definition fetch_ticker_24h (proxies : option string) (symbols : option (list string))
  : Prog NetOp (Dict.t (option Ticker)) :=
  let symbols := match symbols with None => DEFAULT_SYMBOLS | Some l => l end in
  fetch_symbols proxies symbols Dict.empty.

(** The friendly names of a symbol: [(source_id, source_name, short_name)]. *)
Definition source_of (symbol : string) : string * string * string :=
  if String.eqb symbol "BTCUSDT" then ("crypto_btc", "比特币 BTC", "BTC")
  else if String.eqb symbol "ETHUSDT" then ("crypto_eth", "以太坊 ETH", "ETH")
  else if String.eqb symbol "BNBUSDT" then ("crypto_bnb", "币安币 BNB", "BNB")
  else
    let base_symbol := PyStr.replace "USDT" "" symbol in
    ("crypto_" ++ PyStr.lower base_symbol, base_symbol, base_symbol).

Definition source_id_of (symbol : string) : string := fst (fst (source_of symbol)).

Definition crypto_title (short_name : string) (data : Ticker) : string :=
  let emoji :=
    match float_sign (change_24h data) with
    | Gt => "📈"
    | Lt => "📉"
    | Eq => "➡️"
    end in
  short_name ++ " " ++ emoji ++ " $" ++ fmt_money (price data) ++ " ("
  ++ fmt_signed (change_24h data) ++ "%) 24h成交量: " ++ fmt_whole (volume_24h data).

Definition NewsFormat : Type :=
  Dict.t (Dict.t TitleData) * Dict.t string * list string.

(** One turn of the loop of [convert_to_news_format]. *)
Definition convert_item (acc : NewsFormat) (item : string * option Ticker) : NewsFormat :=
  let '(results, id_to_name, failed_ids) := acc in
  let (symbol, data) := item in
  match data with
  | None => (results, id_to_name, failed_ids ++ [symbol])%list
  | Some data =>
      let '(source_id, source_name, short_name) := source_of symbol in
      let id_to_name := Dict.set source_id source_name id_to_name in
      let title := crypto_title short_name data in
      let url := "https://www.binance.com/zh-CN/trade/" ++ symbol in
      let results :=
        Dict.set source_id [(title, mkTitleData [1] url url)] results in
      (results, id_to_name, failed_ids)
  end.

Definition convert_to_news_format (price_data : Dict.t (option Ticker))
    (crawl_time crawl_date : string) : NewsFormat :=
  fold_left convert_item (Dict.items price_data) (Dict.empty, Dict.empty, []).

End Crypto.

Arguments mkTicker {F} _ _ _ _ _.
Arguments price {F} _.
Arguments change_24h {F} _.
Arguments volume_24h {F} _.
Arguments high_24h {F} _.
Arguments low_24h {F} _.
Arguments float_field {F} py_float data key.
Arguments fetch_symbol {F} py_float fmt_money fmt_signed proxies symbol results.
Arguments fetch_symbols {F} py_float fmt_money fmt_signed proxies symbols results.
Arguments fetch_ticker_24h {F} py_float fmt_money fmt_signed proxies symbols.
Arguments crypto_title {F} float_sign fmt_money fmt_signed fmt_whole short_name data.
Arguments convert_item {F} float_sign fmt_money fmt_signed fmt_whole acc item.
Arguments convert_to_news_format {F} float_sign fmt_money fmt_signed fmt_whole
  price_data crawl_time crawl_date.

(** The symbols requested in a trace, in order. *)
Definition requested_symbols (tr : Trace NetOp) : list (option string) :=
  flat_map
    (fun ev =>
       match ev with
       | Printed _ => []
       | Called op _ =>
           match op with
           | requests_get _ params _ _ => [Dict.get "symbol" params]
           end
       end) tr.

(** A stand-in for floats in concrete runs: whole numbers. *)
Definition whole_float (s : string) : option Z := PyStr.int s.
Definition whole_sign (x : Z) : comparison := x ?= 0.

Definition ticker_body (last change volume high low : string) : Outcome Response :=
  Ret (mkResponse 200 ""
         (Some [("lastPrice", last); ("priceChangePercent", change);
                ("volume", volume); ("highPrice", high); ("lowPrice", low)])).

(** The answers the HTTP layer gave in a trace, in order. *)
Definition answers (tr : Trace NetOp) : list (Outcome Response) :=
  flat_map
    (fun ev =>
       match ev with
       | Printed _ => []
       | Called op answer =>
           match op in NetOp X return Outcome X -> list (Outcome Response) with
           | requests_get _ _ _ _ => fun a => [a]
           end answer
       end) tr.

Section CryptoReading.

Variable F : Type.
Variable py_float : string -> option F.

(** What one answer is worth: the ticker when the request succeeded with
    a good status, a JSON body and five readable numbers; else nothing. *)
Definition ticker_of_answer (a : Outcome Response) : option (Ticker F) :=
  match a with
  | Raise _ => None
  | Ret r =>
      if http_error r then None
      else
        match json r with
        | None => None
        | Some data =>
            let field key :=
              match Dict.get key data with Some s => py_float s | None => None end in
            match field "lastPrice", field "priceChangePercent", field "volume",
                  field "highPrice", field "lowPrice" with
            | Some p, Some c, Some v, Some hi, Some lo => Some (mkTicker p c v hi lo)
            | _, _, _, _, _ => None
            end
        end
  end.

(** The dictionary a sequence of (symbol, answer) pairs builds. *)
Definition tickers_of (pairs : list (string * Outcome Response))
    (start : Dict.t (option (Ticker F))) : Dict.t (option (Ticker F)) :=
  fold_left (fun d sa => Dict.set (fst sa) (ticker_of_answer (snd sa)) d) pairs start.

End CryptoReading.

Arguments ticker_of_answer {F} py_float a.
Arguments tickers_of {F} py_float pairs start.

(** ** The analyzer ([NewsAnalyzer])

    *** Data *)

(** A title's data in a crawl result; the code reads every field with
    [.get] and a default, so each may be absent. *)
Record CrawlTitle : Type := mkCrawlTitle {
  crawl_ranks : option (list Z);
  crawl_url : option string;
  crawl_mobileUrl : option string
}.

(** [{source_id: {title: data}}]: a crawl result, the day's history, the
    new titles. *)
Definition Results : Type := Dict.t (Dict.t CrawlTitle).
Definition NewTitles : Type := Results.

Record TitleInfoEntry : Type := mkTitleInfoEntry {
  first_time : string;
  last_time : string;
  seen_count : Z;
  info_ranks : list Z;
  info_url : string;
  info_mobileUrl : string
}.
Definition TitleInfo : Type := Dict.t (Dict.t TitleInfoEntry).

(** One keyword group's statistics; the analyzer only reads ["count"]. *)
Record Stat : Type := mkStat {
  word : string;
  count : Z
}.

Definition WordGroup : Type := Dict.t (list string).

(** [{'crypto': ..., 'stock': ..., 'twitter': ...}]; numbers are kept as
    their text. *)
Record ExtData : Type := mkExtData {
  ext_crypto : Dict.t (Dict.t string);
  ext_stock : Dict.t (Dict.t string);
  ext_twitter : Dict.t (list (Dict.t string))
}.

(** [update_info]: current and remote version. *)
Definition UpdateInfo : Type := (string * string)%type.

(** What [prepare_report] returns, and the two keys the analyzer adds. *)
Record ReportData : Type := mkReportData {
  prepared : Dict.t string;
  extended_data : option ExtData;
  ai_analysis : option string
}.

Record PushWindow : Type := mkPushWindow {
  ENABLED : bool;
  ONCE_PER_DAY : bool;
  TIME_RANGE_START : string;
  TIME_RANGE_END : string
}.

Record Config : Type := mkConfig {
  ENABLE_NOTIFICATION : bool;
  FEISHU_WEBHOOK_URL : string;
  DINGTALK_WEBHOOK_URL : string;
  WEWORK_WEBHOOK_URL : string;
  TELEGRAM_BOT_TOKEN : string;
  TELEGRAM_CHAT_ID : string;
  EMAIL_FROM : string;
  EMAIL_PASSWORD : string;
  EMAIL_TO : string;
  NTFY_SERVER_URL : string;
  NTFY_TOPIC : string;
  BARK_URL : string;
  SLACK_WEBHOOK_URL : string;
  PUSH_WINDOW : PushWindow;
  STORAGE_FORMATS_HTML : bool;
  STORAGE_FORMATS_TXT : bool;
  SHOW_VERSION_UPDATE : bool;
  (** [config.get('STOCK', {}).get('SYMBOLS', {})] *)
  STOCK_SYMBOLS : Dict.t (Dict.t string)
}.

(** The fields of [self] the modelled methods read. *)
Record Analyzer : Type := mkAnalyzer {
  config : Config;
  report_mode : string;
  platform_ids : list string;
  update_info : option UpdateInfo;
  proxy_url : option string;
  is_github_actions : bool;
  is_docker_container : bool
}.

(** *** Mode strategies *)

Record Strategy : Type := mkStrategy {
  mode_name : string;
  description : string;
  realtime_report_type : string;
  summary_report_type : string;
  should_send_realtime : bool;
  should_generate_summary : bool;
  summary_mode : string
}.

Definition MODE_STRATEGIES : Dict.t Strategy :=
  [ ("incremental",
     mkStrategy "增量模式"
                "增量模式（只关注新增新闻，无新增时不推送）"
                "实时增量" "当日汇总" true true "daily");
    ("current",
     mkStrategy "当前榜单模式"
                "当前榜单模式（当前榜单匹配新闻 + 新增新闻区域 + 按时推送）"
                "实时当前榜单" "当前榜单汇总" true true "current");
    ("daily",
     mkStrategy "当日汇总模式"
                "当日汇总模式（所有匹配新闻 + 新增新闻区域 + 按时推送）"
                "" "当日汇总" false true "daily") ].

(** [d.get(key, default)]. *)
Definition dict_get_default {V} (d : Dict.t V) (key : string) (default : V) : V :=
  match Dict.get key d with Some v => v | None => default end.

(** [MODE_STRATEGIES["daily"]]; the key is present, so the fallback of
    this lookup is never used. *)
Definition daily_strategy : Strategy :=
  dict_get_default MODE_STRATEGIES "daily"
    (mkStrategy "" "" "" "" false false "").

(** *** Pure checks *)

(** [a and b] on strings. *)
Definition str_and (a b : string) : string := if PyStr.truthy a then b else a.

Definition _has_notification_configured (self : Analyzer) : bool :=
  let cfg := config self in
  existsb PyStr.truthy
    [ FEISHU_WEBHOOK_URL cfg;
      DINGTALK_WEBHOOK_URL cfg;
      WEWORK_WEBHOOK_URL cfg;
      str_and (TELEGRAM_BOT_TOKEN cfg) (TELEGRAM_CHAT_ID cfg);
      str_and (str_and (EMAIL_FROM cfg) (EMAIL_PASSWORD cfg)) (EMAIL_TO cfg);
      str_and (NTFY_SERVER_URL cfg) (NTFY_TOPIC cfg);
      BARK_URL cfg;
      SLACK_WEBHOOK_URL cfg ].

(** [len(d)]. *)
Definition dict_len {V} (d : Dict.t V) : Z := Z.of_nat (List.length d).

(** [bool(new_titles and any(len(titles) > 0 for titles in new_titles.values()))]. *)
Definition has_new_titles (new_titles : option NewTitles) : bool :=
  match new_titles with
  | None => false
  | Some nt =>
      Dict.truthy nt && existsb (fun titles => dict_len titles >? 0) (Dict.values nt)
  end.

(** [any(stat["count"] > 0 for stat in stats)]. *)
Definition has_matched_news (stats : list Stat) : bool :=
  existsb (fun stat => count stat >? 0) stats.

Definition _has_valid_content (self : Analyzer) (stats : list Stat)
    (new_titles : option NewTitles) : bool :=
  if String.eqb (report_mode self) "incremental" then
    has_new_titles new_titles && has_matched_news stats
  else if String.eqb (report_mode self) "current" then
    has_matched_news stats
  else
    has_matched_news stats || has_new_titles new_titles.

Definition _should_open_browser (self : Analyzer) : bool :=
  negb (is_github_actions self) && negb (is_docker_container self).

(** [title_data.get(key, default)] on the three fields. *)
Definition _prepare_current_title_info (results : Results) (time_info : string) : TitleInfo :=
  map (fun source =>
         (fst source,
          map (fun entry =>
                 let title_data := snd entry in
                 let ranks := match crawl_ranks title_data with Some r => r | None => [] end in
                 let url := match crawl_url title_data with Some u => u | None => "" end in
                 let mobile_url :=
                   match crawl_mobileUrl title_data with Some u => u | None => "" end in
                 (fst entry, mkTitleInfoEntry time_info time_info 1 ranks url mobile_url))
              (Dict.items (snd source))))
      (Dict.items results).

(** The loop that copies configured stock names into the stock data. *)
Definition add_stock_names (stock_config : Dict.t (Dict.t string)) (ext : ExtData) : ExtData :=
  mkExtData (ext_crypto ext)
    (map (fun item =>
            let symbol := fst item in
            match Dict.get symbol stock_config with
            | Some entry =>
                (symbol, Dict.set "name" (dict_get_default entry "name" symbol) (snd item))
            | None => item
            end)
         (ext_stock ext))
    (ext_twitter ext).

(** *** Collaborators of the analyzer

    The application context ([self.ctx]), the push manager and the
    notification dispatcher it creates, the store and the browser. Two
    functions of the repository are taken as one operation each because
    their bodies only talk to the store and to the AI service:
    [get_latest_extended_data_from_storage] and [_run_ai_analysis].
    [get_time] answers with the clock already formatted as [%H:%M]. *)
Inductive CtxOp : Type -> Type :=
| read_today_titles (ids : list string) (quiet : bool)
    : CtxOp (Results * Dict.t string * TitleInfo)
| detect_new_titles (ids : list string) (quiet : bool) : CtxOp NewTitles
| load_frequency_words : CtxOp (list WordGroup * list string * option (list string))
| count_frequency (data_source : Results) (word_groups : list WordGroup)
    (filter_words : list string) (id_to_name : Dict.t string)
    (title_info : TitleInfo) (new_titles : NewTitles) (mode : string)
    (global_filters : option (list string)) (quiet : bool)
    : CtxOp (list Stat * Z)
| get_latest_extended_data_from_storage : CtxOp (option ExtData)
| generate_html (stats : list Stat) (total_titles : Z)
    (failed_ids : option (list string)) (new_titles : NewTitles)
    (id_to_name : Dict.t string) (mode : string) (is_daily_summary : bool)
    (update : option UpdateInfo) (extended : option ExtData)
    : CtxOp string
| save_titles (results : Results) (id_to_name : Dict.t string)
    (failed_ids : list string) : CtxOp string
| format_time : CtxOp string
| get_time : CtxOp string
| create_push_manager : CtxOp unit
| is_in_time_range (start stop : string) : CtxOp bool
| has_pushed_today : CtxOp bool
| record_push (report_type : string) : CtxOp unit
| prepare_report (stats : list Stat) (failed_ids : option (list string))
    (new_titles : option NewTitles) (id_to_name : option (Dict.t string))
    (mode : string) : CtxOp (Dict.t string)
| run_ai_analysis (stats : list Stat) (extended : option ExtData)
    : CtxOp (option (Dict.t string))
| create_notification_dispatcher : CtxOp unit
| dispatch_all (report_data : ReportData) (report_type : string)
    (update : option UpdateInfo) (proxy : option string) (mode : string)
    (html_file_path : option string) : CtxOp (Dict.t bool)
| resolve_path (path : string) : CtxOp string
| webbrowser_open (url : string) : CtxOp unit.

(** What a dispatch returned: one entry per configured channel. *)
Definition DispatchOutcome : Type := Dict.t bool.

(** [any(results.values())]. *)
Definition any_success (results : DispatchOutcome) : bool :=
  existsb (fun ok => ok) (Dict.values results).

(** Truthiness of an [Optional[str]]. *)
Definition truthy_path (p : option string) : bool :=
  match p with Some s => PyStr.truthy s | None => false end.

(** *** Methods *)

Definition _get_mode_strategy (self : Analyzer) : Prog CtxOp Strategy :=
  ret (dict_get_default MODE_STRATEGIES (report_mode self) daily_strategy).

(** The analysis data [_load_analysis_data] returns. *)
Record AnalysisData : Type := mkAnalysisData {
  all_results : Results;
  data_id_to_name : Dict.t string;
  data_title_info : TitleInfo;
  data_new_titles : NewTitles;
  data_word_groups : list WordGroup;
  data_filter_words : list string;
  data_global_filters : option (list string)
}.

Definition when (b : bool) (p : Prog CtxOp unit) : Prog CtxOp unit :=
  if b then p else ret tt.

Definition _load_analysis_data (self : Analyzer) (quiet : bool)
  : Prog CtxOp (option AnalysisData) :=
  try_except
    (let current_platform_ids := platform_ids self in
     when (negb quiet)
          (say ("当前监控平台: " ++ PyStr.repr_list current_platform_ids)) ;;
     ' (all_results, id_to_name, title_info) <-
       call (read_today_titles current_platform_ids quiet) ;;
     if negb (Dict.truthy all_results) then
       say "没有找到当天的数据" ;;
       ret None
     else
       let total_titles :=
         fold_left Z.add (map (fun titles => dict_len titles) (Dict.values all_results)) 0 in
       when (negb quiet)
            (say ("读取到 " ++ PyStr.of_Z total_titles
                  ++ " 个标题（已按当前监控平台过滤）")) ;;
       new_titles <- call (detect_new_titles current_platform_ids quiet) ;;
       ' (word_groups, filter_words, global_filters) <- call load_frequency_words ;;
       ret (Some (mkAnalysisData all_results id_to_name title_info new_titles
                                 word_groups filter_words global_filters)))
    (fun e => say ("数据加载失败: " ++ exn_text e) ;; ret None).

(** The stock names are added when there is extended data with a
    non-empty stock part. *)
Definition with_stock_names (self : Analyzer) (ext : option ExtData) : option ExtData :=
  match ext with
  | Some e =>
      if Dict.truthy (ext_stock e)
      then Some (add_stock_names (STOCK_SYMBOLS (config self)) e)
      else Some e
  | None => None
  end.

Definition _run_analysis_pipeline (self : Analyzer) (data_source : Results)
    (mode : string) (title_info : TitleInfo) (new_titles : NewTitles)
    (word_groups : list WordGroup) (filter_words : list string)
    (id_to_name : Dict.t string) (failed_ids : option (list string))
    (is_daily_summary : bool) (global_filters : option (list string))
    (quiet : bool) : Prog CtxOp (list Stat * option string) :=
  ' (stats, total_titles) <-
    call (count_frequency data_source word_groups filter_words id_to_name
                          title_info new_titles mode global_filters quiet) ;;
  if STORAGE_FORMATS_HTML (config self) then
    extended <- call get_latest_extended_data_from_storage ;;
    let extended := with_stock_names self extended in
    html_file <-
      call (generate_html stats total_titles failed_ids new_titles id_to_name mode
              is_daily_summary
              (if SHOW_VERSION_UPDATE (config self) then update_info self else None)
              extended) ;;
    ret (stats, Some html_file)
  else
    ret (stats, None).

Definition _add_extended_data_to_report (self : Analyzer) (report_data : ReportData)
  : Prog CtxOp ReportData :=
  let store ext := mkReportData (prepared report_data) ext (ai_analysis report_data) in
  try_except
    (extended <- call get_latest_extended_data_from_storage ;;
     match extended with
     | Some _ =>
         say "扩展数据已添加到推送报告" ;;
         ret (store (with_stock_names self extended))
     | None => ret (store None)
     end)
    (fun e => say ("获取扩展数据失败: " ++ exn_text e) ;; ret (store None)).

Definition _add_ai_analysis_to_report (self : Analyzer) (report_data : ReportData)
    (stats : list Stat) : Prog CtxOp ReportData :=
  let store ai := mkReportData (prepared report_data) (extended_data report_data) ai in
  try_except
    (ai_result <- call (run_ai_analysis stats (extended_data report_data)) ;;
     match ai_result with
     | Some result =>
         if Dict.truthy result
         then ret (store (Some (dict_get_default result "analysis" "")))
         else ret (store None)
     | None => ret (store None)
     end)
    (fun e => say ("添加 AI 分析失败: " ++ exn_text e) ;; ret (store None)).

(** The push-window block of [_send_notification_if_needed]: [false]
    when the method returns [False] there, [true] when it goes on. *)
Definition push_window_allows (self : Analyzer) : Prog CtxOp bool :=
  let cfg := config self in
  if ENABLED (PUSH_WINDOW cfg) then
    call create_push_manager ;;
    let time_range_start := TIME_RANGE_START (PUSH_WINDOW cfg) in
    let time_range_end := TIME_RANGE_END (PUSH_WINDOW cfg) in
    in_range <- call (is_in_time_range time_range_start time_range_end) ;;
    if negb in_range then
      now <- call get_time ;;
      say ("推送窗口控制：当前时间 " ++ now ++ " 不在推送时间窗口 "
           ++ time_range_start ++ "-" ++ time_range_end ++ " 内，跳过推送") ;;
      ret false
    else if ONCE_PER_DAY (PUSH_WINDOW cfg) then
      pushed <- call has_pushed_today ;;
      if (pushed : bool) then
        say "推送窗口控制：今天已推送过，跳过本次推送" ;;
        ret false
      else
        say "推送窗口控制：今天首次推送" ;;
        ret true
    else ret true
  else ret true.

Definition _send_notification_if_needed (self : Analyzer) (stats : list Stat)
    (report_type mode : string) (failed_ids : option (list string))
    (new_titles : option NewTitles) (id_to_name : option (Dict.t string))
    (html_file_path : option string) : Prog CtxOp bool :=
  let has_notification := _has_notification_configured self in
  let cfg := config self in
  if ENABLE_NOTIFICATION cfg && has_notification
     && _has_valid_content self stats new_titles then
    allowed <- push_window_allows self ;;
    if negb allowed then ret false
    else
      base <- call (prepare_report stats failed_ids new_titles id_to_name mode) ;;
      let report_data := mkReportData base None None in
      report_data <- _add_extended_data_to_report self report_data ;;
      report_data <- _add_ai_analysis_to_report self report_data stats ;;
      let update_info_to_send :=
        if SHOW_VERSION_UPDATE cfg then update_info self else None in
      call create_notification_dispatcher ;;
      results <- call (dispatch_all report_data report_type update_info_to_send
                                    (proxy_url self) mode html_file_path) ;;
      if negb (Dict.truthy results) then
        say "未配置任何通知渠道，跳过通知发送" ;;
        ret false
      else
        (if ENABLED (PUSH_WINDOW cfg) && ONCE_PER_DAY (PUSH_WINDOW cfg)
            && any_success results
         then call create_push_manager ;; call (record_push report_type)
         else ret tt) ;;
        ret true
  else if ENABLE_NOTIFICATION cfg && negb has_notification then
    say "⚠️ 警告：通知功能已启用但未配置任何通知渠道，将跳过通知发送" ;;
    ret false
  else if negb (ENABLE_NOTIFICATION cfg) then
    say ("跳过" ++ report_type ++ "通知：通知功能已禁用") ;;
    ret false
  else if ENABLE_NOTIFICATION cfg && has_notification
          && negb (_has_valid_content self stats new_titles) then
    mode_strategy <- _get_mode_strategy self ;;
    (if PyStr.contains "实时" report_type then
       if String.eqb (report_mode self) "incremental" then
         if negb (has_new_titles new_titles)
         then say "跳过实时推送通知：增量模式下未检测到新增的新闻"
         else say "跳过实时推送通知：增量模式下新增新闻未匹配到关键词"
       else
         say ("跳过实时推送通知：" ++ mode_name mode_strategy
              ++ "下未检测到匹配的新闻")
     else
       say ("跳过" ++ summary_report_type mode_strategy
            ++ "通知：未匹配到有效的新闻内容")) ;;
    ret false
  else ret false.

Definition summary_title (mode : string) : string :=
  if String.eqb mode "current" then "当前榜单汇总" else "当日汇总".

Definition _generate_summary_report (self : Analyzer) (mode_strategy : Strategy)
  : Prog CtxOp (option string) :=
  let summary_type := summary_title (summary_mode mode_strategy) in
  say ("生成" ++ summary_type ++ "报告...") ;;
  analysis_data <- _load_analysis_data self false ;;
  match analysis_data with
  | None => ret None
  | Some d =>
      ' (stats, html_file) <-
        _run_analysis_pipeline self (all_results d) (summary_mode mode_strategy)
          (data_title_info d) (data_new_titles d) (data_word_groups d)
          (data_filter_words d) (data_id_to_name d) None true
          (data_global_filters d) false ;;
      when (truthy_path html_file)
           (say (summary_type ++ "报告已生成: " ++ match html_file with Some f => f | None => "" end)) ;;
      _send_notification_if_needed self stats (summary_report_type mode_strategy)
        (summary_mode mode_strategy) (Some []) (Some (data_new_titles d))
        (Some (data_id_to_name d)) html_file ;;
      ret html_file
  end.

Definition _generate_summary_html (self : Analyzer) (mode : string)
  : Prog CtxOp (option string) :=
  let summary_type := summary_title mode in
  say ("生成" ++ summary_type ++ "HTML...") ;;
  analysis_data <- _load_analysis_data self true ;;
  match analysis_data with
  | None => ret None
  | Some d =>
      ' (_, html_file) <-
        _run_analysis_pipeline self (all_results d) mode
          (data_title_info d) (data_new_titles d) (data_word_groups d)
          (data_filter_words d) (data_id_to_name d) None true
          (data_global_filters d) true ;;
      when (truthy_path html_file)
           (say (summary_type ++ "HTML已生成: " ++ match html_file with Some f => f | None => "" end)) ;;
      ret html_file
  end.

(** The first half of [_execute_mode_strategy]: the realtime report and,
    when the strategy asks for it, the realtime notification. It returns
    [html_file]; in current mode it raises when the history just written
    cannot be read back. *)
Definition realtime_phase (self : Analyzer) (mode_strategy : Strategy)
    (results : Results) (id_to_name : Dict.t string) (failed_ids : list string)
  : Prog CtxOp (option string) :=
  let current_platform_ids := platform_ids self in
  new_titles <- call (detect_new_titles current_platform_ids false) ;;
  time_info <- call format_time ;;
  (if STORAGE_FORMATS_TXT (config self)
   then call (save_titles results id_to_name failed_ids) ;; ret tt
   else ret tt) ;;
  ' (word_groups, filter_words, global_filters) <- call load_frequency_words ;;
  if String.eqb (report_mode self) "current" then
    analysis_data <- _load_analysis_data self false ;;
    match analysis_data with
    | Some d =>
        say ("current模式：使用过滤后的历史数据，包含平台："
             ++ PyStr.repr_list (Dict.keys (all_results d))) ;;
        ' (stats, html_file) <-
          _run_analysis_pipeline self (all_results d) (report_mode self)
            (data_title_info d) (data_new_titles d) word_groups filter_words
            (data_id_to_name d) (Some failed_ids) false global_filters false ;;
        let combined_id_to_name := Dict.merge (data_id_to_name d) id_to_name in
        when (truthy_path html_file)
             (say ("HTML报告已生成: " ++ match html_file with Some f => f | None => "" end)) ;;
        (if should_send_realtime mode_strategy then
           _send_notification_if_needed self stats
             (realtime_report_type mode_strategy) (report_mode self)
             (Some failed_ids) (Some (data_new_titles d))
             (Some combined_id_to_name) html_file ;;
           ret tt
         else ret tt) ;;
        ret html_file
    | None =>
        say "❌ 严重错误：无法读取刚保存的数据文件" ;;
        raise (RuntimeError "数据一致性检查失败：保存后立即读取失败")
    end
  else
    let title_info := _prepare_current_title_info results time_info in
    ' (stats, html_file) <-
      _run_analysis_pipeline self results (report_mode self) title_info new_titles
        word_groups filter_words id_to_name (Some failed_ids) false
        global_filters false ;;
    when (truthy_path html_file)
         (say ("HTML报告已生成: " ++ match html_file with Some f => f | None => "" end)) ;;
    (if should_send_realtime mode_strategy then
       _send_notification_if_needed self stats
         (realtime_report_type mode_strategy) (report_mode self)
         (Some failed_ids) (Some new_titles) (Some id_to_name) html_file ;;
       ret tt
     else ret tt) ;;
    ret html_file.

(** The second half: the summary. *)
Definition summary_phase (self : Analyzer) (mode_strategy : Strategy)
  : Prog CtxOp (option string) :=
  if should_generate_summary mode_strategy then
    if should_send_realtime mode_strategy then
      _generate_summary_html self (summary_mode mode_strategy)
    else
      _generate_summary_report self mode_strategy
  else ret None.

(** The end of the method: show the report. *)
Definition show_report (self : Analyzer) (html_file summary_html : option string)
  : Prog CtxOp unit :=
  let path p := match p with Some f => f | None => "" end in
  if _should_open_browser self && truthy_path html_file then
    if truthy_path summary_html then
      resolved <- call (resolve_path (path summary_html)) ;;
      let summary_url := "file://" ++ resolved in
      say ("正在打开汇总报告: " ++ summary_url) ;;
      call (webbrowser_open summary_url)
    else
      resolved <- call (resolve_path (path html_file)) ;;
      let file_url := "file://" ++ resolved in
      say ("正在打开HTML报告: " ++ file_url) ;;
      call (webbrowser_open file_url)
  else if is_docker_container self && truthy_path html_file then
    if truthy_path summary_html
    then say ("汇总报告已生成（Docker环境）: " ++ path summary_html)
    else say ("HTML报告已生成（Docker环境）: " ++ path html_file)
  else ret tt.

Definition _execute_mode_strategy (self : Analyzer) (mode_strategy : Strategy)
    (results : Results) (id_to_name : Dict.t string) (failed_ids : list string)
  : Prog CtxOp (option string) :=
  html_file <- realtime_phase self mode_strategy results id_to_name failed_ids ;;
  summary_html <- summary_phase self mode_strategy ;;
  show_report self html_file summary_html ;;
  ret summary_html.

(** One cycle after the crawl, as [run] drives it: the strategy of the
    configured mode, then the mode's logic. *)
Definition cycle (self : Analyzer) (results : Results) (id_to_name : Dict.t string)
    (failed_ids : list string) : Prog CtxOp (option string) :=
  mode_strategy <- _get_mode_strategy self ;;
  _execute_mode_strategy self mode_strategy results id_to_name failed_ids.

(** *** Reading a trace *)

(** The report types dispatched in a trace, each with the dispatcher's
    answer. *)
Definition dispatches (tr : Trace CtxOp) : list (string * Outcome DispatchOutcome) :=
  flat_map
    (fun ev =>
       match ev with
       | Printed _ => []
       | Called op answer =>
           match op in CtxOp X return Outcome X -> list (string * Outcome DispatchOutcome) with
           | dispatch_all _ report_type _ _ _ _ => fun a => [(report_type, a)]
           | _ => fun _ => []
           end answer
       end) tr.

(** The report types recorded as pushed in a trace. *)
Definition recorded (tr : Trace CtxOp) : list string :=
  flat_map
    (fun ev =>
       match ev with
       | Printed _ => []
       | Called op _ =>
           match op with
           | record_push report_type => [report_type]
           | _ => []
           end
       end) tr.

(** A dispatch that reached at least one channel. *)
Definition delivered (answer : Outcome DispatchOutcome) : bool :=
  match answer with
  | Ret results => any_success results
  | Raise _ => false
  end.

(** A scan of the trace for the push record: a [record_push] is
    justified when the latest dispatch before it delivered, to the same
    report type, and nothing was recorded for that dispatch yet. *)
Fixpoint records_justified (pending : option string) (tr : Trace CtxOp) : bool :=
  match tr with
  | [] => true
  | Printed _ :: rest => records_justified pending rest
  | Called op answer :: rest =>
      match op in CtxOp X return Outcome X -> bool with
      | dispatch_all _ report_type _ _ _ _ => fun a =>
          records_justified (if delivered a then Some report_type else None) rest
      | record_push report_type => fun _ =>
          match pending with
          | Some dispatched =>
              String.eqb dispatched report_type && records_justified None rest
          | None => false
          end
      | _ => fun _ => records_justified pending rest
      end answer
  end.

(** The answers of the push manager and the data given to
    [prepare_report], as a trace shows them. *)
Definition time_range_answers (tr : Trace CtxOp) : list (Outcome bool) :=
  flat_map
    (fun ev =>
       match ev with
       | Printed _ => []
       | Called op answer =>
           match op in CtxOp X return Outcome X -> list (Outcome bool) with
           | is_in_time_range _ _ => fun a => [a]
           | _ => fun _ => []
           end answer
       end) tr.

Definition pushed_answers (tr : Trace CtxOp) : list (Outcome bool) :=
  flat_map
    (fun ev =>
       match ev with
       | Printed _ => []
       | Called op answer =>
           match op in CtxOp X return Outcome X -> list (Outcome bool) with
           | has_pushed_today => fun a => [a]
           | _ => fun _ => []
           end answer
       end) tr.

Definition prepared_inputs (tr : Trace CtxOp) : list (list Stat * option NewTitles) :=
  flat_map
    (fun ev =>
       match ev with
       | Printed _ => []
       | Called op _ =>
           match op with
           | prepare_report stats _ new_titles _ _ => [(stats, new_titles)]
           | _ => []
           end
       end) tr.

(** The answers of the classifier and of the history read. *)
Definition frequency_answers (tr : Trace CtxOp) : list (Outcome (list Stat * Z)) :=
  flat_map
    (fun ev =>
       match ev with
       | Printed _ => []
       | Called op answer =>
           match op in CtxOp X return Outcome X -> list (Outcome (list Stat * Z)) with
           | count_frequency _ _ _ _ _ _ _ _ _ => fun a => [a]
           | _ => fun _ => []
           end answer
       end) tr.

Definition history_answers (tr : Trace CtxOp)
  : list (Outcome (Results * Dict.t string * TitleInfo)) :=
  flat_map
    (fun ev =>
       match ev with
       | Printed _ => []
       | Called op answer =>
           match op in CtxOp X
                 return Outcome X -> list (Outcome (Results * Dict.t string * TitleInfo)) with
           | read_today_titles _ _ => fun a => [a]
           | _ => fun _ => []
           end answer
       end) tr.

(** The history read failed or came back empty. *)
Definition unreadable (a : Outcome (Results * Dict.t string * TitleInfo)) : bool :=
  match a with
  | Raise _ => true
  | Ret (all, _, _) => negb (Dict.truthy all)
  end.

(** An event of the push machinery: window, record, report preparation,
    dispatch. *)
Definition touches_push (ev : Event CtxOp) : bool :=
  match ev with
  | Printed _ => false
  | Called op _ =>
      match op with
      | dispatch_all _ _ _ _ _ _ | record_push _ | prepare_report _ _ _ _ _
      | is_in_time_range _ _ | has_pushed_today => true
      | _ => false
      end
  end.

(** A trace without any event of the push machinery. *)
Definition quiet (tr : Trace CtxOp) : Prop :=
  forallb (fun ev => negb (touches_push ev)) tr = true.

(** The throttle let the push through, as the trace shows it. *)
Definition throttle_passed (cfg : Config) (tr : Trace CtxOp) : Prop :=
  ENABLED (PUSH_WINDOW cfg) = false \/
  (time_range_answers tr = [Ret true] /\
   (ONCE_PER_DAY (PUSH_WINDOW cfg) = false \/ pushed_answers tr = [Ret false])).

(** *** A scripted world for concrete runs

    The history, the new titles and the statistics per mode are fixed;
    the push store keeps the report types recorded today, and reports a
    push when there is one (spec, section 4.3). *)
Record World : Type := mkWorld {
  history : Outcome (Results * Dict.t string * TitleInfo);
  new_now : NewTitles;
  stats_for : string -> list Stat;
  in_window : bool;
  pushed_types : list string;
  channels : Outcome DispatchOutcome
}.

Definition scripted_ctx : Handler CtxOp World :=
  fun X op =>
    match op in CtxOp X return World -> Outcome X * World with
    | read_today_titles _ _ => fun w => (history w, w)
    | detect_new_titles _ _ => fun w => (Ret (new_now w), w)
    | load_frequency_words => fun w => (Ret ([], [], None), w)
    | count_frequency _ _ _ _ _ _ mode _ _ => fun w => (Ret (stats_for w mode, 2), w)
    | get_latest_extended_data_from_storage => fun w => (Ret None, w)
    | generate_html _ _ _ _ _ _ _ _ _ => fun w => (Ret "output/report.html", w)
    | save_titles _ _ _ => fun w => (Ret "output/titles.txt", w)
    | format_time => fun w => (Ret "09:00", w)
    | get_time => fun w => (Ret "09:00", w)
    | create_push_manager => fun w => (Ret tt, w)
    | is_in_time_range _ _ => fun w => (Ret (in_window w), w)
    | has_pushed_today => fun w =>
        (Ret (match pushed_types w with [] => false | _ => true end), w)
    | record_push report_type => fun w =>
        (Ret tt,
         mkWorld (history w) (new_now w) (stats_for w) (in_window w)
                 (pushed_types w ++ [report_type])%list (channels w))
    | prepare_report _ _ _ _ _ => fun w => (Ret [], w)
    | run_ai_analysis _ _ => fun w => (Ret None, w)
    | create_notification_dispatcher => fun w => (Ret tt, w)
    | dispatch_all _ _ _ _ _ _ => fun w => (channels w, w)
    | resolve_path path => fun w => (Ret path, w)
    | webbrowser_open _ => fun w => (Ret tt, w)
    end.

(** Sample data: one source with two titles, one of them matched. *)
Definition sample_titles : Results :=
  [("s1", [("t1", mkCrawlTitle (Some [1]) None None);
           ("t2", mkCrawlTitle (Some [2]) None None)])].

Definition one_match : list Stat := [mkStat "ai" 1].
Definition no_match : list Stat := [mkStat "ai" 0].

Definition quiet_window : PushWindow := mkPushWindow false false "08:00" "20:00".

Definition sample_config (window : PushWindow) : Config :=
  mkConfig true "https://open.feishu.cn/hook/x" "" "" "" "" "" "" "" "" "" "" ""
           window true false false [].

Definition sample_analyzer (mode : string) (window : PushWindow) : Analyzer :=
  mkAnalyzer (sample_config window) mode ["s1"] None None true false.

Definition sample_world (stats : string -> list Stat) (pushed : list string)
    (answer : Outcome DispatchOutcome) : World :=
  mkWorld (Ret (sample_titles, [("s1", "Source One")], [])) sample_titles
          stats true pushed answer.

(** *** The truth table of section 4.2, in the spec's words *)

(** [newTitles] contains at least one source with at least one title. *)
Definition some_source_has_title (new_titles : option NewTitles) : Prop :=
  exists nt source titles,
    new_titles = Some nt /\ In (source, titles) (Dict.items nt) /\ titles <> [].

(** At least one MatchStat has [count > 0]. *)
Definition some_stat_matched (stats : list Stat) : Prop :=
  exists stat, In stat stats /\ count stat > 0.

(** *** Channels, in the spec's words *)

Definition non_empty (s : string) : Prop := s <> "".

Definition some_channel_configured (cfg : Config) : Prop :=
  non_empty (FEISHU_WEBHOOK_URL cfg) \/
  non_empty (DINGTALK_WEBHOOK_URL cfg) \/
  non_empty (WEWORK_WEBHOOK_URL cfg) \/
  (non_empty (TELEGRAM_BOT_TOKEN cfg) /\ non_empty (TELEGRAM_CHAT_ID cfg)) \/
  (non_empty (EMAIL_FROM cfg) /\ non_empty (EMAIL_PASSWORD cfg) /\ non_empty (EMAIL_TO cfg)) \/
  (non_empty (NTFY_SERVER_URL cfg) /\ non_empty (NTFY_TOPIC cfg)) \/
  non_empty (BARK_URL cfg) \/
  non_empty (SLACK_WEBHOOK_URL cfg).

(** No collaborator raised in this trace. *)
Definition clean (tr : Trace CtxOp) : bool :=
  forallb (fun ev =>
             match ev with
             | Printed _ => true
             | Called _ answer => negb (raised answer)
             end) tr.

(** A piece of trace whose push records are justified whatever comes
    before it, and which leaves a justified continuation justified. *)
Definition robustly_justified (tr : Trace CtxOp) : Prop :=
  forall pending rest,
    (forall p, records_justified p rest = true) ->
    records_justified pending (tr ++ rest)%list = true.

(** The content gate together with the two switches before it. *)
Definition send_gate (self : Analyzer) (stats : list Stat)
    (new_titles : option NewTitles) : bool :=
  ENABLE_NOTIFICATION (config self) && _has_notification_configured self
  && _has_valid_content self stats new_titles.

(** What every run of [_send_notification_if_needed] looks like. *)
Definition send_post (self : Analyzer) (stats : list Stat) (report_type : string)
    (new_titles : option NewTitles) (tr : Trace CtxOp) (r : Outcome bool) : Prop :=
  let cfg := config self in
  let gate := send_gate self stats new_titles in
  (gate = false -> quiet tr /\ r = Ret false) /\
  (prepared_inputs tr = [] \/
   (prepared_inputs tr = [(stats, new_titles)] /\ gate = true /\ throttle_passed cfg tr)) /\
  (dispatches tr = [] \/
   exists a, dispatches tr = [(report_type, a)] /\
             prepared_inputs tr = [(stats, new_titles)]) /\
  (recorded tr = [] \/
   (recorded tr = [report_type] /\
    ENABLED (PUSH_WINDOW cfg) = true /\ ONCE_PER_DAY (PUSH_WINDOW cfg) = true /\
    exists a, dispatches tr = [(report_type, a)] /\ delivered a = true)) /\
  robustly_justified tr /\
  (ENABLED (PUSH_WINDOW cfg) = true -> ONCE_PER_DAY (PUSH_WINDOW cfg) = true ->
   (forall a, In a (pushed_answers tr) -> a = Ret true) ->
   prepared_inputs tr = [] /\ dispatches tr = [] /\
   (r = Ret false \/ exists e, r = Raise e)) /\
  (clean tr = true -> gate = true -> throttle_passed cfg tr ->
   exists a, dispatches tr = [(report_type, a)]) /\
  (clean tr = true ->
   ENABLED (PUSH_WINDOW cfg) = true -> ONCE_PER_DAY (PUSH_WINDOW cfg) = true ->
   forall a, dispatches tr = [(report_type, a)] -> delivered a = true ->
             recorded tr = [report_type]) /\
  (r = Ret true ->
   exists results, dispatches tr = [(report_type, Ret results)] /\
                   Dict.truthy results = true) /\
  (clean tr = true -> exists b, r = Ret b) /\
  frequency_answers tr = [] /\ history_answers tr = [].

(** What a stretch of a cycle with at most one notification step, for
    report type [report_type], looks like. *)
Definition one_push_of (self : Analyzer) (report_type : string) (tr : Trace CtxOp) : Prop :=
  let cfg := config self in
  (dispatches tr = [] \/ exists a, dispatches tr = [(report_type, a)]) /\
  (recorded tr = [] \/
   (recorded tr = [report_type] /\
    ENABLED (PUSH_WINDOW cfg) = true /\ ONCE_PER_DAY (PUSH_WINDOW cfg) = true /\
    exists a, dispatches tr = [(report_type, a)] /\ delivered a = true)) /\
  robustly_justified tr /\
  (ENABLED (PUSH_WINDOW cfg) = true -> ONCE_PER_DAY (PUSH_WINDOW cfg) = true ->
   (forall a, In a (pushed_answers tr) -> a = Ret true) ->
   prepared_inputs tr = [] /\ dispatches tr = []) /\
  (clean tr = true ->
   ENABLED (PUSH_WINDOW cfg) = true -> ONCE_PER_DAY (PUSH_WINDOW cfg) = true ->
   forall a, dispatches tr = [(report_type, a)] -> delivered a = true ->
             recorded tr = [report_type]) /\
  (forall stats new_titles, In (stats, new_titles) (prepared_inputs tr) ->
     send_gate self stats new_titles = true /\ throttle_passed cfg tr) /\
  (dispatches tr <> [] -> prepared_inputs tr <> []).

(** The report type a cycle can push: the realtime one when the strategy
    sends realtime, the summary one otherwise. *)
Definition pushed_report_type (strategy : Strategy) : string :=
  if should_send_realtime strategy
  then realtime_report_type strategy
  else summary_report_type strategy.

Definition once_a_day : PushWindow := mkPushWindow true true "08:00" "20:00".

(** *** Named values used in the statements *)

(** The error of the consistency check in current mode. *)
Definition consistency_error : Exn :=
  RuntimeError "数据一致性检查失败：保存后立即读取失败".

(** A configuration in which every channel lacks a required field. *)
Definition no_channel_config : Config :=
  mkConfig true "" "" "" "123:token" "" "bot@example.org" "secret" "" "" "alerts" "" ""
           quiet_window true false false [].

(** A run with whole numbers for floats: BTCUSDT answers, DOGEUSDT fails. *)
Definition sample_prices : Outcome (Dict.t (option (Ticker Z))) :=
  result_of scripted_net
    (fetch_ticker_24h whole_float PyStr.of_Z PyStr.of_Z None
                      (Some ["BTCUSDT"; "DOGEUSDT"]))
    [ticker_body "97000" "2" "1200" "98000" "95000";
     Raise (RequestException "HTTPSConnectionPool: read timed out")].

(** ** More of the analyzer: start-up

    [_check_version_update], the method. [version] stands for the
    package's [__version__] and [version_check_url] for
    [config["VERSION_CHECK_URL"]]; the method returns [self] with
    [update_info] possibly set. *)
Definition _check_version_update (py_strip : string -> string)
    (py_int : string -> option Z) (version version_check_url : string)
    (self : Analyzer) : Prog NetOp Analyzer :=
  try_except
    (' (need_update, remote_version) <-
       check_version_update py_strip py_int version version_check_url
                            (proxy_url self) ;;
     match remote_version with
     | Some remote =>
         if (need_update : bool) && PyStr.truthy remote then
           say ("发现新版本: " ++ remote ++ " (当前: " ++ version ++ ")") ;;
           ret (mkAnalyzer (config self) (report_mode self) (platform_ids self)
                           (Some (version, remote)) (proxy_url self)
                           (is_github_actions self) (is_docker_container self))
         else
           say "版本检查完成，当前为最新版本" ;;
           ret self
     | None =>
         say "版本检查完成，当前为最新版本" ;;
         ret self
     end)
    (fun e => say ("版本检查出错: " ++ exn_text e) ;; ret self).


(** Every character of [s] satisfies [p]. *)
Fixpoint all_chars (p : ascii -> bool) (s : string) : bool :=
  match s with
  | EmptyString => true
  | String c rest => p c && all_chars p rest
  end.

(** Characters of the decimal text of an integer. *)
Definition version_char (c : ascii) : bool := PyStr.is_digit c || Ascii.eqb c "-".



(** *** More readers of a trace *)

(** The report data handed to the dispatcher. *)
Definition dispatched_reports (tr : Trace CtxOp) : list ReportData :=
  flat_map
    (fun ev =>
       match ev with
       | Printed _ => []
       | Called op _ =>
           match op with
           | dispatch_all report_data _ _ _ _ _ => [report_data]
           | _ => []
           end
       end) tr.

(** The answers of the store to the extended-data query and of the AI
    analysis. *)
Definition extended_answers (tr : Trace CtxOp) : list (Outcome (option ExtData)) :=
  flat_map
    (fun ev =>
       match ev with
       | Printed _ => []
       | Called op answer =>
           match op in CtxOp X return Outcome X -> list (Outcome (option ExtData)) with
           | get_latest_extended_data_from_storage => fun a => [a]
           | _ => fun _ => []
           end answer
       end) tr.

Definition ai_answers (tr : Trace CtxOp) : list (Outcome (option (Dict.t string))) :=
  flat_map
    (fun ev =>
       match ev with
       | Printed _ => []
       | Called op answer =>
           match op in CtxOp X return Outcome X -> list (Outcome (option (Dict.t string))) with
           | run_ai_analysis _ _ => fun a => [a]
           | _ => fun _ => []
           end answer
       end) tr.

(** The reports [prepare_report] answered with. *)
Definition prepared_answers (tr : Trace CtxOp) : list (Outcome (Dict.t string)) :=
  flat_map
    (fun ev =>
       match ev with
       | Printed _ => []
       | Called op answer =>
           match op in CtxOp X return Outcome X -> list (Outcome (Dict.t string)) with
           | prepare_report _ _ _ _ _ => fun a => [a]
           | _ => fun _ => []
           end answer
       end) tr.

(** The URLs given to the browser. *)
Definition opened (tr : Trace CtxOp) : list string :=
  flat_map
    (fun ev =>
       match ev with
       | Printed _ => []
       | Called op _ =>
           match op with
           | webbrowser_open url => [url]
           | _ => []
           end
       end) tr.

(** No collaborator raised, the extended-data query and the AI analysis
    apart. *)
Definition clean_but_extras (tr : Trace CtxOp) : bool :=
  forallb (fun ev =>
             match ev with
             | Printed _ => true
             | Called op answer =>
                 match op with
                 | get_latest_extended_data_from_storage | run_ai_analysis _ _ => true
                 | _ => negb (raised answer)
                 end
             end) tr.

(** What [_add_extended_data_to_report] and [_add_ai_analysis_to_report]
    leave in the report for an answer of the store and of the analysis. *)
Definition extended_of (self : Analyzer) (answer : Outcome (option ExtData))
  : option ExtData :=
  match answer with
  | Ret extended => with_stock_names self extended
  | Raise _ => None
  end.

Definition analysis_of (answer : Outcome (option (Dict.t string))) : option string :=
  match answer with
  | Ret (Some result) =>
      if Dict.truthy result then Some (dict_get_default result "analysis" "") else None
  | _ => None
  end.

(** A world whose store and AI analysis raise, everything else as in
    [scripted_ctx]. *)
Definition failing_extras_ctx : Handler CtxOp World :=
  fun X op =>
    match op in CtxOp X return World -> Outcome X * World with
    | get_latest_extended_data_from_storage => fun w =>
        (Raise (OtherException "database is locked"), w)
    | run_ai_analysis _ _ => fun w => (Raise (OtherException "overloaded"), w)
    | other => scripted_ctx _ other
    end.

(** What every run of [_send_notification_if_needed] returns and hands
    to the dispatcher. *)
Definition send_result_post (self : Analyzer) (stats : list Stat) (report_type : string)
    (new_titles : option NewTitles) (tr : Trace CtxOp) (r : Outcome bool) : Prop :=
  let cfg := config self in
  (clean tr = true ->
   (r = Ret true <->
    exists results, dispatches tr = [(report_type, Ret results)] /\ results <> [])) /\
  (forall a, time_range_answers tr = [a] -> a <> Ret true ->
     prepared_inputs tr = [] /\ dispatches tr = [] /\ recorded tr = [] /\
     pushed_answers tr = [] /\ r <> Ret true) /\
  (clean_but_extras tr = true -> send_gate self stats new_titles = true ->
   throttle_passed cfg tr ->
   exists base stored analysed,
     prepared_inputs tr = [(stats, new_titles)] /\
     prepared_answers tr = [Ret base] /\
     extended_answers tr = [stored] /\ ai_answers tr = [analysed] /\
     dispatched_reports tr =
       [mkReportData base (extended_of self stored) (analysis_of analysed)]).

(** ** Tweets ([TwitterFetcher])

    A tweet's title and content are cut with [s[:n]], which counts code
    points, and the summary is cleaned with a regular expression and a
    split on Unicode white space: the cut and the cleaning are
    parameters. *)

(** [list(enumerate(l, start))]. *)
Fixpoint enumerate {A} (start : Z) (l : list A) : list (Z * A) :=
  match l with
  | [] => []
  | x :: rest => (start, x) :: enumerate (start + 1) rest
  end.

(** [l[:n]]: a negative [n] counts from the end. *)
Definition py_take {A} (n : Z) (l : list A) : list A :=
  if 0 <=? n then firstn (Z.to_nat n) l
  else firstn (List.length l - Z.to_nat (- n)) l.

Module TwitterFetcher.

Record Tweet : Type := mkTweet {
  title : string;
  content : string;
  url : string;
  published : string
}.

(** An entry of a parsed feed; an attribute the feed did not give is
    absent, and reading it raises [AttributeError]. *)
Record FeedEntry : Type := mkFeedEntry {
  entry_title : option string;
  entry_summary : option string;
  entry_link : option string;
  entry_published : option string
}.

(** [import feedparser] answers whether the library is there ([false] is
    the [ImportError]); [rss_get] is [requests.get] with the ten-second
    timeout, and answers [None] for [requests.exceptions.Timeout];
    [feedparser_parse] gives the entries of the parsed content. *)
Inductive FeedOp : Type -> Type :=
| import_feedparser : FeedOp bool
| rss_get (rss_url : string) (proxies : option string) (timeout : Z)
    : FeedOp (option Response)
| feedparser_parse (content : string) : FeedOp (list FeedEntry).

Definition NITTER_INSTANCES : list string :=
  [ "https://nitter.net";
    "https://nitter.privacydev.net";
    "https://nitter.poast.org";
    "https://nitter.cz";
    "https://nitter.nl";
    "https://nitter.mint.lgbt";
    "https://nitter.unixfox.eu" ].

Definition raise_for_status (r : Response) : Prog FeedOp unit :=
  if http_error r
  then raise (RequestException (PyStr.of_Z (status_code r) ++ " Error"))
  else ret tt.

Section Fetch.

(** [' '.join(re.sub(r'<[^>]+>', '', summary).split())]. *)
Variable clean_summary : string -> string.
(** [s[:n]]. *)
Variable prefix : nat -> string -> string.

Definition attribute_error (name : string) : Exn :=
  OtherException ("object has no attribute '" ++ name ++ "'").

(** The dictionary appended for one entry, in the order Python reads the
    attributes: [summary], [title], [link], [published]. *)
Definition tweet_of_entry (entry : FeedEntry) : Outcome Tweet :=
  match entry_summary entry with
  | None => Raise (attribute_error "summary")
  | Some summary =>
      let content := clean_summary summary in
      match entry_title entry with
      | None => Raise (attribute_error "title")
      | Some title =>
          match entry_link entry with
          | None => Raise (attribute_error "link")
          | Some link =>
              Ret (mkTweet (prefix 100 title) (prefix 200 content) link
                           (match entry_published entry with
                            | Some p => p
                            | None => ""
                            end))
          end
      end
  end.

(** The [for entry in feed.entries[:limit]] loop on the list [tweets]:
    the list as the loop leaves it, and the exception that ended the
    loop, if any. What was appended before an exception stays. *)
Fixpoint append_entries (entries : list FeedEntry) (tweets : list Tweet)
  : list Tweet * option Exn :=
  match entries with
  | [] => (tweets, None)
  | entry :: rest =>
      match tweet_of_entry entry with
      | Ret tweet => append_entries rest (tweets ++ [tweet])%list
      | Raise e => (tweets, Some e)
      end
  end.

(** One turn of the loop over the instances: the list [tweets] after the
    turn, and whether the loop stops ([break]). *)
Definition try_instance (proxies : option string) (username : string) (limit : Z)
    (instance : string) (tweets : list Tweet) : Prog FeedOp (list Tweet * bool) :=
  try_except
    (let rss_url := instance ++ "/" ++ username ++ "/rss" in
     say ("尝试获取 @" ++ username ++ " 的推文: " ++ rss_url) ;;
     answered <- call (rss_get rss_url proxies 10) ;;
     match answered with
     | None =>
         say ("  从 " ++ instance ++ " 获取超时 (10秒)") ;;
         ret (tweets, false)
     | Some response =>
         raise_for_status response ;;
         entries <- call (feedparser_parse (text response)) ;;
         match entries with
         | [] =>
             say ("  从 " ++ instance ++ " 获取失败: 无数据") ;;
             ret (tweets, false)
         | _ =>
             let (tweets, stopped) := append_entries (py_take limit entries) tweets in
             match stopped with
             | Some e =>
                 say ("  从 " ++ instance ++ " 获取失败: " ++ prefix 50 (exn_text e)) ;;
                 ret (tweets, false)
             | None =>
                 say ("✓ 成功从 " ++ instance ++ " 获取 "
                      ++ PyStr.of_Z (Z.of_nat (List.length tweets)) ++ " 条推文") ;;
                 ret (tweets, true)
             end
         end
     end)
    (fun e =>
       match e with
       | RequestException _ =>
           say ("  从 " ++ instance ++ " 获取失败 (网络错误): " ++ prefix 50 (exn_text e))
       | _ =>
           say ("  从 " ++ instance ++ " 获取失败: " ++ prefix 50 (exn_text e))
       end ;;
       ret (tweets, false)).

Fixpoint try_instances (proxies : option string) (username : string) (limit : Z)
    (instances : list string) (tweets : list Tweet) : Prog FeedOp (list Tweet) :=
  match instances with
  | [] => ret tweets
  | instance :: rest =>
      ' (tweets, stop) <- try_instance proxies username limit instance tweets ;;
      if (stop : bool) then ret tweets
      else try_instances proxies username limit rest tweets
  end.

Definition fetch_user_tweets (proxy_url : option string) (username : string) (limit : Z)
  : Prog FeedOp (list Tweet) :=
  available <- call import_feedparser ;;
  if negb available then
    say "✗ feedparser 库未安装，请运行: pip install feedparser" ;;
    ret []
  else
    tweets <- try_instances (proxies_of proxy_url) username limit NITTER_INSTANCES [] ;;
    match tweets with
    | [] =>
        say ("✗ 所有 Nitter 实例都失败，无法获取 @" ++ username ++ " 的推文") ;;
        ret tweets
    | _ => ret tweets
    end.

End Fetch.

(** One turn of the loop of [convert_to_news_format]. *)
Definition convert_item (titles : Dict.t TitleData) (item : Z * Tweet) : Dict.t TitleData :=
  let (idx, tweet) := item in
  let title := "[" ++ PyStr.of_Z idx ++ "] " ++ content tweet in
  Dict.set title (mkTitleData [idx] (url tweet) (url tweet)) titles.

(** [py_lower] is [str.lower], which lowers the capitals of every
    script. *)
Definition convert_to_news_format (py_lower : string -> string)
    (tweets : list Tweet) (username : string)
    (crawl_time crawl_date : string) : NewsFormat :=
  let source_id := "twitter_" ++ py_lower username in
  let source_name := "Twitter @" ++ username in
  let id_to_name := [(source_id, source_name)] in
  match tweets with
  | [] => (Dict.empty, id_to_name, [source_id])
  | _ =>
      (Dict.set source_id
                (fold_left convert_item (enumerate 1 tweets) Dict.empty)
                Dict.empty,
       id_to_name, [])
  end.

(** What the loop enters for the tweet at position [idx]: the title
    and its data. *)
Definition title_entry (item : Z * Tweet) : string * TitleData :=
  ("[" ++ PyStr.of_Z (fst item) ++ "] " ++ content (snd item),
   mkTitleData [fst item] (url (snd item)) (url (snd item))).






(** A scripted world: the answers to the requests, and the feed behind
    each body. *)
Definition scripted_feeds (feeds : string -> list FeedEntry)
  : Handler FeedOp (list (option Response)) :=
  fun X op =>
    match op in FeedOp X return list (option Response) -> Outcome X * list (option Response) with
    | import_feedparser => fun w => (Ret true, w)
    | rss_get _ _ _ => fun w =>
        match w with
        | answer :: rest => (Ret answer, rest)
        | [] => (Raise (RequestException "connection refused"), [])
        end
    | feedparser_parse content => fun w => (Ret (feeds content), w)
    end.


End TwitterFetcher.

(** ** Crypto prices from CoinGecko ([CryptoFetcherCoinGecko])

    One batch request answers with a JSON object of objects. The values
    of a decoded JSON document are kept as Python has them, since
    [float(...)] and [x["usd"]] raise differently on each. *)

Module CoinGecko.

#[warnings="-register-all"] Inductive Json : Type :=
| JNull
| JBool (b : bool)
| JInt (n : Z)
(** A number with a fraction or an exponent, as its literal; the
    decoder has applied [float] to it. *)
| JFloat (text : string)
| JString (s : string)
| JArray (items : list Json)
| JObject (fields : list (string * Json)).

Record JsonResponse : Type := mkJsonResponse {
  json_status : Z;
  (** [response.json()]; [None] when the body does not decode. *)
  json_body : option Json
}.

Inductive GeckoOp : Type -> Type :=
| gecko_get (url : string) (params : Dict.t string)
            (proxies : option string) (timeout : Z) : GeckoOp JsonResponse.

Definition BASE_URL : string := "https://api.coingecko.com/api/v3".

Definition SYMBOL_MAP : Dict.t string :=
  [ ("BTCUSDT", "bitcoin");
    ("ETHUSDT", "ethereum");
    ("BNBUSDT", "binancecoin");
    ("SOLUSDT", "solana");
    ("ADAUSDT", "cardano");
    ("DOGEUSDT", "dogecoin") ].

Definition raise_for_status (r : JsonResponse) : Prog GeckoOp unit :=
  if (400 <=? json_status r) && (json_status r <? 600)
  then raise (RequestException (PyStr.of_Z (json_status r) ++ " Error"))
  else ret tt.

Definition response_json (r : JsonResponse) : Prog GeckoOp Json :=
  match json_body r with
  | Some data => ret data
  | None => raise (RequestException "Expecting value: line 1 column 1 (char 0)")
  end.

(** [TypeError] and [AttributeError] have no class of their own in
    [Exn]: no [except] clause of the fetcher names them. *)
Definition type_error (msg : string) : Exn := OtherException msg.

(** [data.items()]. *)
Definition items_of (data : Json) : Prog GeckoOp (list (string * Json)) :=
  match data with
  | JObject fields => ret fields
  | _ => raise (type_error "object has no attribute 'items'")
  end.

(** [coin_data[key]]. *)
Definition subscript (coin_data : Json) (key : string) : Prog GeckoOp Json :=
  match coin_data with
  | JObject fields =>
      match Dict.get key fields with
      | Some v => ret v
      | None => raise (KeyError key)
      end
  | _ => raise (type_error "object is not subscriptable")
  end.

(** [coin_data.get(key, 0)]. *)
Definition get_or_zero (coin_data : Json) (key : string) : Prog GeckoOp Json :=
  match coin_data with
  | JObject fields =>
      match Dict.get key fields with
      | Some v => ret v
      | None => ret (JInt 0)
      end
  | _ => raise (type_error "object has no attribute 'get'")
  end.

(** The loop that maps the symbols to coin ids: [coin_ids] and
    [symbol_to_id], which maps a coin id back to its symbol. *)
Fixpoint known_symbols (symbols : list string) (coin_ids : list string)
    (symbol_to_id : Dict.t string) : Prog GeckoOp (list string * Dict.t string) :=
  match symbols with
  | [] => ret (coin_ids, symbol_to_id)
  | symbol :: rest =>
      match Dict.get symbol SYMBOL_MAP with
      | Some coin_id =>
          known_symbols rest (coin_ids ++ [coin_id])%list
                        (Dict.set coin_id symbol symbol_to_id)
      | None =>
          say ("⚠️  未知符号: " ++ symbol ++ "，跳过") ;;
          known_symbols rest coin_ids symbol_to_id
      end
  end.

(** [for symbol in symbols: results[symbol] = None]. *)
Definition all_failed {V} (symbols : list string) (results : Dict.t (option V))
  : Dict.t (option V) :=
  fold_left (fun results symbol => Dict.set symbol None results) symbols results.

(** [for symbol in symbols: if symbol not in results: results[symbol] = None]. *)
Definition fill_missing {V} (symbols : list string) (results : Dict.t (option V))
  : Dict.t (option V) :=
  fold_left (fun results symbol =>
               if Dict.mem symbol results then results
               else Dict.set symbol None results)
            symbols results.

Section Fetch.

Variable F : Type.
(** [float(s)] on a string; [None] is the [ValueError]. *)
Variable py_float : string -> option F.
(** [float(n)] on an integer; [None] is the [OverflowError]. *)
Variable float_of_int : Z -> option F.
(** The integer [0] the fetcher stores for the two prices the API does
    not give. *)
Variable int_zero : F.
(** The formats [:,.2f] and [:+.2f]. *)
Variables fmt_money fmt_signed : F -> string.

(** [float(v)]. *)
Definition to_float (v : Json) : Prog GeckoOp F :=
  match v with
  | JFloat s | JString s =>
      match py_float s with
      | Some x => ret x
      | None => raise (ValueError ("could not convert string to float: '" ++ s ++ "'"))
      end
  | JInt n =>
      match float_of_int n with
      | Some x => ret x
      | None => raise (OtherException "int too large to convert to float")
      end
  | JBool b =>
      match float_of_int (if b then 1 else 0) with
      | Some x => ret x
      | None => raise (OtherException "int too large to convert to float")
      end
  | _ => raise (type_error "float() argument must be a string or a real number")
  end.

(** The body of the loop over [data.items()] for one coin. *)
Definition process_coin (symbol_to_id : Dict.t string) (coin_id : string)
    (coin_data : Json) (results : Dict.t (option (Ticker F)))
  : Prog GeckoOp (Dict.t (option (Ticker F))) :=
  match Dict.get coin_id symbol_to_id with
  | None => ret results
  | Some symbol =>
      if negb (PyStr.truthy symbol) then ret results
      else
        try_except
          (usd <- subscript coin_data "usd" ;;
           p <- to_float usd ;;
           change <- get_or_zero coin_data "usd_24h_change" ;;
           c <- to_float change ;;
           vol <- get_or_zero coin_data "usd_24h_vol" ;;
           v <- to_float vol ;;
           let results :=
             Dict.set symbol (Some (mkTicker p c v int_zero int_zero)) results in
           say ("✓ 获取 " ++ symbol ++ " 成功: $" ++ fmt_money p ++ " ("
                ++ fmt_signed c ++ "%)") ;;
           ret results)
          (fun e =>
             match e with
             | KeyError _ | ValueError _ =>
                 say ("✗ 解析 " ++ symbol ++ " 数据失败: " ++ exn_text e) ;;
                 ret (Dict.set symbol None results)
             | _ => raise e
             end)
  end.

Fixpoint process_coins (symbol_to_id : Dict.t string) (items : list (string * Json))
    (results : Dict.t (option (Ticker F))) : Prog GeckoOp (Dict.t (option (Ticker F))) :=
  match items with
  | [] => ret results
  | (coin_id, coin_data) :: rest =>
      results <- process_coin symbol_to_id coin_id coin_data results ;;
      process_coins symbol_to_id rest results
  end.

(** The [try] block of [fetch_ticker_24h] with its [except] clause: the
    batch request and the loop over the coins of the answer. A
    [RequestException] can only come from the request, the status check
    or the decoding, before anything is put into [results]. *)
Definition request_prices (proxies : option string) (symbols coin_ids : list string)
    (symbol_to_id : Dict.t string) : Prog GeckoOp (Dict.t (option (Ticker F))) :=
  try_except
    (let url := BASE_URL ++ "/simple/price" in
     let params :=
       [ ("ids", String.concat "," coin_ids);
         ("vs_currencies", "usd");
         ("include_24hr_change", "true");
         ("include_24hr_vol", "true") ] in
     response <- call (gecko_get url params proxies 10) ;;
     raise_for_status response ;;
     data <- response_json response ;;
     items <- items_of data ;;
     process_coins symbol_to_id items Dict.empty)
    (fun e =>
       match e with
       | RequestException _ =>
           say ("✗ CoinGecko API 请求失败: " ++ exn_text e) ;;
           ret (all_failed symbols Dict.empty)
       | _ => raise e
       end).

Definition fetch_ticker_24h (proxies : option string) (symbols : option (list string))
  : Prog GeckoOp (Dict.t (option (Ticker F))) :=
  let symbols := match symbols with None => ["BTCUSDT"; "ETHUSDT"] | Some l => l end in
  ' (coin_ids, symbol_to_id) <- known_symbols symbols [] Dict.empty ;;
  match coin_ids with
  | [] => ret Dict.empty
  | _ =>
      results <- request_prices proxies symbols coin_ids symbol_to_id ;;
      ret (fill_missing symbols results)
  end.

End Fetch.

Section Format.

Variable F : Type.
Variable float_sign : F -> comparison.
Variables fmt_money fmt_signed fmt_whole : F -> string.

(** One turn of the loop of [convert_to_news_format]. *)
Definition convert_item (acc : NewsFormat) (item : string * option (Ticker F))
  : NewsFormat :=
  let '(results, id_to_name, failed_ids) := acc in
  let (symbol, data) := item in
  match data with
  | None => (results, id_to_name, failed_ids ++ [symbol])%list
  | Some data =>
      let '(source_id, source_name, short_name) := source_of symbol in
      let id_to_name := Dict.set source_id source_name id_to_name in
      let title := crypto_title float_sign fmt_money fmt_signed fmt_whole short_name data in
      let url := "https://www.coingecko.com/zh/数字货币/"
                 ++ dict_get_default SYMBOL_MAP symbol "" in
      let results :=
        Dict.set source_id [(title, mkTitleData [1] url url)] results in
      (results, id_to_name, failed_ids)
  end.

Definition convert_to_news_format (price_data : Dict.t (option (Ticker F)))
    (crawl_time crawl_date : string) : NewsFormat :=
  fold_left convert_item (Dict.items price_data) (Dict.empty, Dict.empty, []).

End Format.

(** The batch requests of a trace: the [ids] parameter of each. *)
Definition requested_ids (tr : Trace GeckoOp) : list (option string) :=
  flat_map
    (fun ev =>
       match ev with
       | Printed _ => []
       | Called op _ =>
           match op with
           | gecko_get _ params _ _ => [Dict.get "ids" params]
           end
       end) tr.

(** The answers to the batch requests of a trace. *)
Definition gecko_answers (tr : Trace GeckoOp) : list (Outcome JsonResponse) :=
  flat_map
    (fun ev =>
       match ev with
       | Printed _ => []
       | Called op answer =>
           match op in GeckoOp X return Outcome X -> list (Outcome JsonResponse) with
           | gecko_get _ _ _ _ => fun a => [a]
           end answer
       end) tr.

(** The coin ids of the symbols the map knows, in order. *)
Definition known_ids (symbols : list string) : list string :=
  flat_map (fun symbol =>
              match Dict.get symbol SYMBOL_MAP with
              | Some coin_id => [coin_id]
              | None => []
              end) symbols.

(** An exception that no [except] clause of the fetcher catches. *)
Definition uncaught (e : Exn) : bool :=
  match e with
  | RequestException _ | KeyError _ | ValueError _ => false
  | _ => true
  end.

(** What the loop over the coins does to [results]: every key it adds
    is a symbol of [symbol_to_id], and an exception it lets through is
    one that no clause catches. *)
Definition coin_post {V} (symbol_to_id : Dict.t string) (results : Dict.t V)
    (tr : Trace GeckoOp) (r : Outcome (Dict.t V)) : Prop :=
  requested_ids tr = [] /\ gecko_answers tr = [] /\
  match r with
  | Ret results' =>
      forall k, In k (Dict.keys results') ->
        In k (Dict.keys results) \/ exists coin_id, Dict.get coin_id symbol_to_id = Some k
  | Raise e => uncaught e = true
  end.

(** The request failed: it raised a [RequestException], or answered with
    an error status or a body that is not JSON. *)
Definition request_failed (answer : Outcome JsonResponse) : bool :=
  match answer with
  | Raise (RequestException _) => true
  | Raise _ => false
  | Ret r =>
      (400 <=? json_status r) && (json_status r <? 600)
      || match json_body r with None => true | Some _ => false end
  end.

(** What every run of [fetch_ticker_24h] for [symbols] looks like. *)
Definition fetch_post {V} (symbols : list string)
    (tr : Trace GeckoOp) (r : Outcome (Dict.t (option V))) : Prop :=
  let known := known_ids symbols in
  (known = [] -> requested_ids tr = [] /\ r = Ret []) /\
  (known <> [] -> requested_ids tr = [Some (String.concat "," known)]) /\
  (forall results, r = Ret results -> known <> [] ->
     (forall s, In s (Dict.keys results) <-> In s symbols) /\
     (forall s, In s symbols -> Dict.mem s SYMBOL_MAP = false ->
        Dict.get s results = Some None)) /\
  (forall a, gecko_answers tr = [a] -> request_failed a = true ->
     exists results,
       r = Ret results /\ forall s, In s symbols -> Dict.get s results = Some None) /\
  (forall e, r = Raise e -> uncaught e = true \/ gecko_answers tr = [Raise e]).

(** A scripted HTTP layer: one answer for every request. *)
Definition scripted_gecko : Handler GeckoOp (Outcome JsonResponse) :=
  fun X op =>
    match op in GeckoOp X return Outcome JsonResponse -> Outcome X * Outcome JsonResponse with
    | gecko_get _ _ _ _ => fun w => (w, w)
    end.

End CoinGecko.

(** The sources of a converted crawl with the title and the ranks of
    each entry, the links left out. *)
Definition titles_and_ranks (results : Dict.t (Dict.t TitleData))
  : Dict.t (Dict.t (list Z)) :=
  map (fun source => (fst source, map (fun entry => (fst entry, ranks (snd entry)))
                                      (snd source)))
      results.

(** The answers to [detect_new_titles] and to [load_frequency_words],
    and the modes of the reports [generate_html] was asked to write. *)
Definition new_title_answers (tr : Trace CtxOp) : list (Outcome NewTitles) :=
  flat_map
    (fun ev =>
       match ev with
       | Printed _ => []
       | Called op answer =>
           match op in CtxOp X return Outcome X -> list (Outcome NewTitles) with
           | detect_new_titles _ _ => fun a => [a]
           | _ => fun _ => []
           end answer
       end) tr.

Definition word_answers (tr : Trace CtxOp)
  : list (Outcome (list WordGroup * list string * option (list string))) :=
  flat_map
    (fun ev =>
       match ev with
       | Printed _ => []
       | Called op answer =>
           match op in CtxOp X
                 return Outcome X ->
                        list (Outcome (list WordGroup * list string * option (list string)))
           with
           | load_frequency_words => fun a => [a]
           | _ => fun _ => []
           end answer
       end) tr.

Definition generated (tr : Trace CtxOp) : list string :=
  flat_map
    (fun ev =>
       match ev with
       | Printed _ => []
       | Called op _ =>
           match op with
           | generate_html _ _ _ _ _ mode _ _ _ => [mode]
           | _ => []
           end
       end) tr.

(** The analysis-data load of the realtime phase yields nothing: the
    history it reads raised or came back empty, or one of the two reads
    that follow raised. In current mode the phase asks for the new titles
    and for the frequency words once before the load, so the answers to
    the load are the second of each. *)
Definition second_raised {A} (answers : list (Outcome A)) : bool :=
  match answers with
  | _ :: Raise _ :: _ => true
  | _ => false
  end.

Definition first_load_failed (tr : Trace CtxOp) : bool :=
  match history_answers tr with
  | [] => false
  | a :: _ =>
      unreadable a || second_raised (new_title_answers tr)
      || second_raised (word_answers tr)
  end.

(** The scripted world with a detector of new titles that answers once
    and raises from then on; the world counts its answers. *)
Definition flaky_detector_ctx : Handler CtxOp (nat * World) :=
  fun X op =>
    match op in CtxOp X return nat * World -> Outcome X * (nat * World) with
    | detect_new_titles _ _ => fun s =>
        match fst s with
        | O => (Ret (new_now (snd s)), (1%nat, snd s))
        | _ => (Raise (OtherException "database is locked"), s)
        end
    | other => fun s =>
        let (x, w') := scripted_ctx _ other (snd s) in (x, (fst s, w'))
    end.

(** The answers to [create_push_manager]. *)
Definition manager_answers (tr : Trace CtxOp) : list (Outcome unit) :=
  flat_map
    (fun ev =>
       match ev with
       | Printed _ => []
       | Called op answer =>
           match op in CtxOp X return Outcome X -> list (Outcome unit) with
           | create_push_manager => fun a => [a]
           | _ => fun _ => []
           end answer
       end) tr.

(** No creation of a push manager raised. *)
Definition managers_created (tr : Trace CtxOp) : bool :=
  forallb (fun a => negb (raised a)) (manager_answers tr).

(** The push store is asked about today only under both switches of the
    push window. *)
Definition asked_under_switches (cfg : Config) (tr : Trace CtxOp) : Prop :=
  pushed_answers tr <> [] ->
  ENABLED (PUSH_WINDOW cfg) = true /\ ONCE_PER_DAY (PUSH_WINDOW cfg) = true.

(** Under both switches every dispatch that reached a channel has its
    report type recorded, unless the creation of a push manager raised. *)
Definition delivered_is_recorded (cfg : Config) (tr : Trace CtxOp) : Prop :=
  ENABLED (PUSH_WINDOW cfg) = true -> ONCE_PER_DAY (PUSH_WINDOW cfg) = true ->
  managers_created tr = true ->
  forall rt a, In (rt, a) (dispatches tr) -> delivered a = true -> In rt (recorded tr).

Definition push_store_used (cfg : Config) (tr : Trace CtxOp) : Prop :=
  asked_under_switches cfg tr /\ delivered_is_recorded cfg tr.

(** What the push store sees of a run of [_send_notification_if_needed]. *)
Definition send_store_post (self : Analyzer) (tr : Trace CtxOp) (r : Outcome bool) : Prop :=
  push_store_used (config self) tr /\
  (In (Ret true) (pushed_answers tr) ->
   prepared_inputs tr = [] /\ dispatches tr = [] /\ recorded tr = [] /\ r = Ret false) /\
  (forall e, In (Raise e) (manager_answers tr) -> recorded tr = [] /\ r = Raise e).

(** The scripted world with a push manager that can be created once and
    raises from then on; the world counts the creations. *)
Definition flaky_manager_ctx : Handler CtxOp (nat * World) :=
  fun X op =>
    match op in CtxOp X return nat * World -> Outcome X * (nat * World) with
    | create_push_manager => fun s =>
        match fst s with
        | O => (Ret tt, (1%nat, snd s))
        | _ => (Raise (OtherException "disk full"), s)
        end
    | other => fun s =>
        let (x, w') := scripted_ctx _ other (snd s) in (x, (fst s, w'))
    end.

(* ================================================================= *)
(** * Properties *)
(* ================================================================= *)

(** ** Python strings: sample evaluations *)

Example strip_ex : PyStr.strip "  3.5.0
" = "3.5.0".
Proof. reflexivity. Qed.

Example split_ex : PyStr.split "." "3.5.0" = ["3"; "5"; "0"].
Proof. reflexivity. Qed.

Example split_empty_ex : PyStr.split "." "" = [""].
Proof. reflexivity. Qed.

Example int_ex :
  PyStr.int " 12 " = Some 12 /\ PyStr.int "-1" = Some (-1) /\
  PyStr.int "1_0" = Some 10 /\ PyStr.int "" = None /\
  PyStr.int "0b1" = None /\ PyStr.int "1__0" = None /\ PyStr.int "+ 1" = None.
Proof. repeat split; reflexivity. Qed.

Example replace_ex :
  PyStr.replace "USDT" "" "SOLUSDT" = "SOL" /\ PyStr.replace "USDT" "" "BTC" = "BTC".
Proof. split; reflexivity. Qed.

(** *** Reasoning about programs *)

Section ProgramLemmas.

Context {Op : Type -> Type}.
Implicit Types C : Answers Op.

Lemma always_weaken C {A} (p : Prog Op A) (Q Q' : Trace Op -> Outcome A -> Prop) :
  (forall tr r, Q tr r -> Q' tr r) -> always C p Q -> always C p Q'.
Proof.
  revert Q Q'. induction p as [r | line k IH | X op k IH]; simpl; intros Q Q' HQ Hp.
  - auto.
  - eapply IH; [|exact Hp]. simpl. auto.
  - intros x Hx. eapply IH; [|exact (Hp x Hx)]. simpl. auto.
Qed.

Lemma always_bind C {A B} (p : Prog Op A) (f : A -> Prog Op B)
      (Q : Trace Op -> Outcome B -> Prop) :
  always C p (fun tr1 r1 =>
    match r1 with
    | Ret a => always C (f a) (fun tr2 r2 => Q (tr1 ++ tr2)%list r2)
    | Raise e => Q tr1 (Raise e)
    end) ->
  always C (bind p f) Q.
Proof.
  revert Q. induction p as [r | line k IH | X op k IH]; simpl; intros Q Hp.
  - destruct r; simpl in *; auto.
  - apply IH. eapply always_weaken; [|exact Hp].
    intros tr [a|e]; simpl; auto.
  - intros x Hx. apply IH. eapply always_weaken; [|exact (Hp x Hx)].
    intros tr [a|e]; simpl; auto.
Qed.

Lemma always_try_except C {A} (p : Prog Op A) (h : Exn -> Prog Op A)
      (Q : Trace Op -> Outcome A -> Prop) :
  always C p (fun tr1 r1 =>
    match r1 with
    | Ret a => Q tr1 (Ret a)
    | Raise e => always C (h e) (fun tr2 r2 => Q (tr1 ++ tr2)%list r2)
    end) ->
  always C (try_except p h) Q.
Proof.
  revert Q. induction p as [r | line k IH | X op k IH]; simpl; intros Q Hp.
  - destruct r; simpl in *; auto.
  - apply IH. eapply always_weaken; [|exact Hp].
    intros tr [a|e]; simpl; auto.
  - intros x Hx. apply IH. eapply always_weaken; [|exact (Hp x Hx)].
    intros tr [a|e]; simpl; auto.
Qed.

(** Every run under a handler that respects [C] is covered by [always]. *)
Lemma exec_always C {W A} (h : Handler Op W) (p : Prog Op A) (w : W)
      (Q : Trace Op -> Outcome A -> Prop) :
  respects h C -> always C p Q -> Q (trace_of h p w) (result_of h p w).
Proof.
  intros Hh. unfold trace_of, result_of.
  revert w Q. induction p as [r | line k IH | X op k IH]; simpl; intros w Q Hp.
  - exact Hp.
  - specialize (IH w _ Hp). destruct (exec h k w) as [[tr r] w']. exact IH.
  - pose proof (Hh X op w) as Hx. destruct (h X op w) as [x w1]. simpl in Hx.
    specialize (IH x w1 _ (Hp x Hx)).
    destruct (exec h (k x) w1) as [[tr r] w']. exact IH.
Qed.

Lemma always_true C {A} (p : Prog Op A) : always C p (fun _ _ => True).
Proof.
  induction p as [r | line k IH | X op k IH]; simpl; auto.
Qed.

(** Sequencing for properties of the trace alone: [P1] for the first
    part and [P2] for the second give [P] for both. *)
Lemma always_seq C (P1 P2 P : Trace Op -> Prop) {A B}
      (p : Prog Op A) (f : A -> Prog Op B) :
  (forall t1, P1 t1 -> P t1) ->
  (forall t1 t2, P1 t1 -> P2 t2 -> P (t1 ++ t2)%list) ->
  always C p (fun tr _ => P1 tr) ->
  (forall a, always C (f a) (fun tr _ => P2 tr)) ->
  always C (bind p f) (fun tr _ => P tr).
Proof.
  intros Hone Hboth Hp Hf. apply always_bind.
  eapply always_weaken; [|exact Hp].
  intros tr1 [a|e] H1; simpl.
  - eapply always_weaken; [|apply Hf]. simpl. auto.
  - auto.
Qed.

Lemma always_try_seq C (P1 P2 P : Trace Op -> Prop) {A}
      (p : Prog Op A) (h : Exn -> Prog Op A) :
  (forall t1, P1 t1 -> P t1) ->
  (forall t1 t2, P1 t1 -> P2 t2 -> P (t1 ++ t2)%list) ->
  always C p (fun tr _ => P1 tr) ->
  (forall e, always C (h e) (fun tr _ => P2 tr)) ->
  always C (try_except p h) (fun tr _ => P tr).
Proof.
  intros Hone Hboth Hp Hh. apply always_try_except.
  eapply always_weaken; [|exact Hp].
  intros tr1 [a|e] H1; simpl.
  - auto.
  - eapply always_weaken; [|apply Hh]. simpl. auto.
Qed.

Lemma always_call C (P : Trace Op -> Prop) {X} (op : Op X) :
  (forall x, C X op x -> P [Called op x]) ->
  always C (call op) (fun tr _ => P tr).
Proof. intros H. simpl. exact H. Qed.

Lemma always_say C (P : Trace Op -> Prop) (line : string) :
  P [Printed line] -> always C (say line) (fun tr _ => P tr).
Proof. intros H. simpl. exact H. Qed.

Lemma always_done C (P : Trace Op -> Prop) {A} (r : Outcome A) :
  P [] -> always C (Done r) (fun tr _ => P tr).
Proof. intros H. simpl. exact H. Qed.


Lemma respects_any {W} (h : Handler Op W) : respects h any_answer.
Proof. intros X op w. exact I. Qed.

End ProgramLemmas.

(** ** Version check *)

(** The texts of these examples are of ASCII characters: on them
    Python's [strip] and [int] are [PyStr.strip] and [PyStr.int]. *)
Example parse_version_ex :
  let parse := parse_version PyStr.strip PyStr.int in
  parse "3.5.0" = (3, 5, 0) /\ parse " 3.10.2 " = (3, 10, 2) /\
  parse "3.5" = (0, 0, 0) /\ parse "3.5.0b1" = (0, 0, 0) /\
  parse "-1.0.0" = (-1, 0, 0).
Proof. intros parse. repeat split; reflexivity. Qed.

Example tuple_lt_ex :
  tuple_lt (3, 5, 0) (3, 10, 0) = true /\ tuple_lt (3, 5, 0) (3, 5, 0) = false /\
  tuple_lt (4, 0, 0) (3, 9, 9) = false.
Proof. repeat split; reflexivity. Qed.

Section VersionLemmas.

Variable py_strip : string -> string.
Variable py_int : string -> option Z.

Local Abbreviation parse_version := (parse_version py_strip py_int).
Local Abbreviation well_formed_version := (well_formed_version py_strip py_int).
Local Abbreviation check_version_update := (check_version_update py_strip py_int).

Lemma parse_version_malformed (s : string) :
  well_formed_version s = false -> parse_version s = (0, 0, 0).
Proof.
  unfold well_formed_version, parse_version, parse_version_attempt, is_int_literal.
  destruct (PyStr.split "." (py_strip s)) as [|x [|y [|z [|? ?]]]]; try reflexivity.
  destruct (py_int x), (py_int y), (py_int z); simpl; try reflexivity.
  discriminate.
Qed.

(** C10 (as the code has it). [check_version_update] never raises. When
    the request raises or answers with an error status the result is
    [(False, None)]. Otherwise an update is reported exactly when the
    parsed triple of the current version is lexicographically below the
    parsed triple of the remote one, and the remote text is returned only
    then. A string that is not three dot-separated integer literals
    parses as [(0, 0, 0)], so a malformed remote version is reported as
    an update only when the current triple is itself below [(0, 0, 0)];
    with a current triple at or above [(0, 0, 0)] it never is. This
    holds whatever [strip] and [int] do: [py_strip] and [py_int] stand
    for Python's, on every text. *)
Theorem check_version_update_verdict
    (W : Type) (h : Handler NetOp W) (w : W)
    (current_version version_url : string) (proxy_url : option string) :
  let answer := fst (h _ (requests_get version_url [] (proxies_of proxy_url) 10) w) in
  let result := result_of h (check_version_update current_version version_url proxy_url) w in
  raised result = false /\
  (forall s, well_formed_version s = false -> parse_version s = (0, 0, 0)) /\
  match answer with
  | Raise _ => result = Ret (false, None)
  | Ret response =>
      if http_error response then result = Ret (false, None)
      else
        let remote := py_strip (text response) in
        let need := tuple_lt (parse_version current_version) (parse_version remote) in
        result = Ret (need, if need then Some remote else None) /\
        (well_formed_version remote = false ->
         tuple_lt (parse_version current_version) (0, 0, 0) = false ->
         result = Ret (false, None))
  end.
Proof.
  unfold result_of, check_version_update. simpl.
  destruct (h Response (requests_get version_url [] (proxies_of proxy_url) 10) w)
    as [[response|e] w1]; simpl.
  - unfold raise_for_status. destruct (http_error response) eqn:Herr; simpl.
    + split; [reflexivity|]. split; [exact parse_version_malformed|reflexivity].
    + split; [reflexivity|]. split; [exact parse_version_malformed|].
      split; [reflexivity|].
      intros Hbad Hcur. rewrite (parse_version_malformed _ Hbad), Hcur. reflexivity.
  - split; [reflexivity|]. split; [exact parse_version_malformed|reflexivity].
Qed.

End VersionLemmas.

(** A current version without a negative part and a remote text that is
    not a version: no update is reported. *)
Lemma check_version_update_verdict_witness :
  result_of scripted_net
            (check_version_update PyStr.strip PyStr.int
               "3.5.0" "https://example.org/version" None)
            [ok_response "<html>moved</html>"]
  = Ret (false, None).
Proof.
  pose proof (@check_version_update_verdict PyStr.strip PyStr.int _ scripted_net
                [ok_response "<html>moved</html>"]
                "3.5.0" "https://example.org/version" None) as H.
  simpl in H. destruct H as [_ [_ [_ H]]]. apply H; reflexivity.
Defined.

(** C10 as stated fails: with a current version whose first part is
    negative, a remote text that is not a version is reported as an
    update. Both texts are of ASCII characters, where [strip] and [int]
    are [PyStr.strip] and [PyStr.int]. *)
Lemma check_version_update_malformed_remote_counterexample :
  well_formed_version PyStr.strip PyStr.int "not-a-version" = false /\
  result_of scripted_net
            (check_version_update PyStr.strip PyStr.int
               "-1.0.0" "https://example.org/version" None)
            [ok_response "not-a-version"]
  = Ret (true, Some "not-a-version").
Proof. split; reflexivity. Qed.

(** ** Dictionaries *)

Section DictLemmas.

Context {V : Type}.
Implicit Types (d : Dict.t V) (k : string) (v : V).

Lemma dict_get_set_same k v d : Dict.get k (Dict.set k v d) = Some v.
Proof.
  induction d as [|[k' v'] d IH]; simpl.
  - rewrite String.eqb_refl. reflexivity.
  - destruct (String.eqb k k') eqn:E; simpl; rewrite E; auto.
Qed.

Lemma dict_get_set_other k k' v d :
  k' <> k -> Dict.get k' (Dict.set k v d) = Dict.get k' d.
Proof.
  intros Hne. induction d as [|[k0 v0] d IH]; simpl.
  - destruct (String.eqb k' k) eqn:E; [apply String.eqb_eq in E; contradiction|reflexivity].
  - destruct (String.eqb k k0) eqn:E; simpl.
    + apply String.eqb_eq in E. subst k0.
      destruct (String.eqb k' k) eqn:E'; [apply String.eqb_eq in E'; contradiction|reflexivity].
    + rewrite IH. reflexivity.
Qed.

Lemma dict_keys_set k v d k' :
  In k' (Dict.keys (Dict.set k v d)) <-> k' = k \/ In k' (Dict.keys d).
Proof.
  induction d as [|[k0 v0] d IH]; simpl.
  - intuition.
  - destruct (String.eqb k k0) eqn:E; simpl.
    + apply String.eqb_eq in E. subst. intuition.
    + rewrite IH. intuition.
Qed.

Lemma dict_wf_set k v d : Dict.wf d -> Dict.wf (Dict.set k v d).
Proof.
  unfold Dict.wf. induction d as [|[k0 v0] d IH]; simpl; intros Hnd.
  - constructor; [simpl; tauto|constructor].
  - inversion Hnd as [|? ? Hnotin Hnd']; subst.
    destruct (String.eqb k k0) eqn:E; simpl.
    + constructor; assumption.
    + constructor; [|auto].
      intros Hin. apply (dict_keys_set k v d k0) in Hin. destruct Hin as [->|Hin].
      * rewrite String.eqb_refl in E. discriminate.
      * contradiction.
Qed.

Lemma dict_mem_keys k d : Dict.mem k d = true <-> In k (Dict.keys d).
Proof.
  unfold Dict.mem. induction d as [|[k0 v0] d IH]; simpl.
  - split; [discriminate|tauto].
  - destruct (String.eqb k k0) eqn:E.
    + apply String.eqb_eq in E. subst. intuition.
    + rewrite IH. split; [tauto|]. intros [->|H]; [|exact H].
      rewrite String.eqb_refl in E. discriminate.
Qed.

Lemma dict_get_in k v d : Dict.get k d = Some v -> In (k, v) (Dict.items d).
Proof.
  unfold Dict.items. induction d as [|[k0 v0] d IH]; simpl; [discriminate|].
  destruct (String.eqb k k0) eqn:E.
  - apply String.eqb_eq in E. intros [= ->]. subst. auto.
  - auto.
Qed.

Lemma dict_in_get k v d : Dict.wf d -> In (k, v) (Dict.items d) -> Dict.get k d = Some v.
Proof.
  unfold Dict.items, Dict.wf. induction d as [|[k0 v0] d IH]; simpl; [tauto|].
  intros Hnd [Heq|Hin].
  - injection Heq as -> ->. rewrite String.eqb_refl. reflexivity.
  - inversion Hnd as [|? ? Hnotin Hnd']; subst.
    destruct (String.eqb k k0) eqn:E.
    + apply String.eqb_eq in E. subst. exfalso. apply Hnotin.
      change (In k0 (map fst d)). apply in_map_iff. exists (k0, v). auto.
    + auto.
Qed.

End DictLemmas.

Lemma dict_keys_get {V} (k : string) (d : Dict.t V) :
  In k (Dict.keys d) -> exists v, Dict.get k d = Some v.
Proof.
  intros Hin. apply dict_mem_keys in Hin. unfold Dict.mem in Hin.
  destruct (Dict.get k d) as [v|]; [eauto|discriminate].
Qed.

Lemma dict_get_keys {V} (k : string) (v : V) (d : Dict.t V) :
  Dict.get k d = Some v -> In k (Dict.keys d).
Proof.
  intros Hget. apply dict_mem_keys. unfold Dict.mem. rewrite Hget. reflexivity.
Qed.

Lemma dict_mem_false_keys {V} (k : string) (d : Dict.t V) :
  ~ In k (Dict.keys d) -> Dict.mem k d = false.
Proof.
  intros Hnot. destruct (Dict.mem k d) eqn:E; [|reflexivity].
  apply dict_mem_keys in E. contradiction.
Qed.

(** ** Crypto prices *)

Section CryptoLemmas.

Variable F : Type.
Variable py_float : string -> option F.
Variable float_sign : F -> comparison.
Variables fmt_money fmt_signed fmt_whole : F -> string.

Abbreviation fetch_symbol := (fetch_symbol py_float fmt_money fmt_signed).
Abbreviation fetch_symbols := (fetch_symbols py_float fmt_money fmt_signed).
Abbreviation fetch_ticker_24h := (fetch_ticker_24h py_float fmt_money fmt_signed).
Abbreviation ticker_of_answer := (ticker_of_answer py_float).
Abbreviation tickers_of := (tickers_of py_float).
Abbreviation convert_item := (convert_item float_sign fmt_money fmt_signed fmt_whole).
Abbreviation convert_to_news_format :=
  (convert_to_news_format float_sign fmt_money fmt_signed fmt_whole).

Local Ltac leaf :=
  eexists; split; [reflexivity|split; [reflexivity|]];
  f_equal; f_equal; unfold ticker_of_answer; simpl.

(** One turn of the loop never raises: it makes one request, for its
    symbol, and stores what the answer is worth under the symbol. *)
Lemma fetch_symbol_always proxies symbol results :
  always any_answer (fetch_symbol proxies symbol results)
    (fun tr r => exists a,
       answers tr = [a] /\ requested_symbols tr = [Some symbol] /\
       r = Ret (Dict.set symbol (ticker_of_answer a) results)).
Proof.
  unfold fetch_symbol. simpl. intros a _.
  destruct a as [response|e]; simpl.
  - unfold raise_for_status, response_json.
    destruct (http_error response) eqn:Herr; simpl.
    { leaf; rewrite Herr; reflexivity. }
    destruct (json response) as [data|] eqn:Hjson; simpl.
    2: { leaf; rewrite Herr, Hjson; reflexivity. }
    unfold float_field.
    destruct (Dict.get "lastPrice" data) as [s1|] eqn:G1; simpl.
    2: { leaf; rewrite Herr, Hjson, G1; reflexivity. }
    destruct (py_float s1) as [p|] eqn:P1; simpl.
    2: { leaf; rewrite Herr, Hjson, G1, P1; reflexivity. }
    destruct (Dict.get "priceChangePercent" data) as [s2|] eqn:G2; simpl.
    2: { leaf; rewrite Herr, Hjson, G1, P1, G2; reflexivity. }
    destruct (py_float s2) as [c|] eqn:P2; simpl.
    2: { leaf; rewrite Herr, Hjson, G1, P1, G2, P2; reflexivity. }
    destruct (Dict.get "volume" data) as [s3|] eqn:G3; simpl.
    2: { leaf; rewrite Herr, Hjson, G1, P1, G2, P2, G3; reflexivity. }
    destruct (py_float s3) as [v|] eqn:P3; simpl.
    2: { leaf; rewrite Herr, Hjson, G1, P1, G2, P2, G3, P3; reflexivity. }
    destruct (Dict.get "highPrice" data) as [s4|] eqn:G4; simpl.
    2: { leaf; rewrite Herr, Hjson, G1, P1, G2, P2, G3, P3, G4; reflexivity. }
    destruct (py_float s4) as [hi|] eqn:P4; simpl.
    2: { leaf; rewrite Herr, Hjson, G1, P1, G2, P2, G3, P3, G4, P4; reflexivity. }
    destruct (Dict.get "lowPrice" data) as [s5|] eqn:G5; simpl.
    2: { leaf; rewrite Herr, Hjson, G1, P1, G2, P2, G3, P3, G4, P4, G5; reflexivity. }
    destruct (py_float s5) as [lo|] eqn:P5; simpl.
    2: { leaf; rewrite Herr, Hjson, G1, P1, G2, P2, G3, P3, G4, P4, G5, P5; reflexivity. }
    leaf; rewrite Herr, Hjson, G1, P1, G2, P2, G3, P3, G4, P4, G5, P5; reflexivity.
  - destruct e; simpl; leaf; reflexivity.
Qed.

Lemma answers_app (tr1 tr2 : Trace NetOp) :
  answers (tr1 ++ tr2)%list = (answers tr1 ++ answers tr2)%list.
Proof. unfold answers. apply flat_map_app. Qed.

Lemma requested_symbols_app (tr1 tr2 : Trace NetOp) :
  requested_symbols (tr1 ++ tr2)%list
  = (requested_symbols tr1 ++ requested_symbols tr2)%list.
Proof. unfold requested_symbols. apply flat_map_app. Qed.

(** The whole loop never raises, requests every symbol in order, and
    builds the dictionary of what the answers are worth. *)
Lemma fetch_symbols_always proxies symbols results :
  always any_answer (fetch_symbols proxies symbols results)
    (fun tr r =>
       List.length (answers tr) = List.length symbols /\
       requested_symbols tr = map Some symbols /\
       r = Ret (tickers_of (combine symbols (answers tr)) results)).
Proof.
  revert results. induction symbols as [|symbol rest IH]; intros results.
  - simpl. auto.
  - change (fetch_symbols proxies (symbol :: rest) results)
      with (bind (fetch_symbol proxies symbol results)
                 (fun results' => fetch_symbols proxies rest results')).
    apply always_bind.
    eapply always_weaken; [|apply fetch_symbol_always].
    intros tr1 r1 [a [Ha [Hreq ->]]].
    eapply always_weaken; [|apply IH].
    intros tr2 r2 [Hlen [Hreq2 ->]].
    rewrite answers_app, requested_symbols_app, Ha, Hreq, Hreq2. simpl.
    rewrite Hlen. auto.
Qed.

Lemma tickers_of_keys pairs (start : Dict.t (option (Ticker F))) s :
  In s (Dict.keys (tickers_of pairs start))
  <-> In s (map fst pairs) \/ In s (Dict.keys start).
Proof.
  unfold tickers_of. revert start.
  induction pairs as [|[s0 a0] pairs IH]; intros start; simpl.
  - tauto.
  - rewrite IH, dict_keys_set. intuition.
Qed.

Lemma tickers_of_wf pairs (start : Dict.t (option (Ticker F))) :
  Dict.wf start -> Dict.wf (tickers_of pairs start).
Proof.
  unfold tickers_of. revert start.
  induction pairs as [|[s0 a0] pairs IH]; intros start Hwf; simpl.
  - exact Hwf.
  - apply IH. apply dict_wf_set. exact Hwf.
Qed.

(** A value in the final dictionary is the starting one or what some
    answer to that very symbol was worth. *)
Lemma tickers_of_get pairs (start : Dict.t (option (Ticker F))) s v :
  Dict.get s (tickers_of pairs start) = Some v ->
  Dict.get s start = Some v \/ exists a, In (s, a) pairs /\ v = ticker_of_answer a.
Proof.
  unfold tickers_of. revert start.
  induction pairs as [|[s0 a0] pairs IH]; intros start; simpl.
  - auto.
  - intros Hget. destruct (IH _ Hget) as [Hstart|[a [Hin Hv]]].
    + destruct (string_dec s s0) as [->|Hne].
      * rewrite dict_get_set_same in Hstart. injection Hstart as <-.
        right. exists a0. auto.
      * rewrite dict_get_set_other in Hstart by exact Hne. auto.
    + right. exists a. auto.
Qed.

Lemma fold_convert_item (items : list (string * option (Ticker F))) results id_to_name failed_ids :
  let '(results', id_to_name', failed_ids') :=
    fold_left convert_item items (results, id_to_name, failed_ids) in
  failed_ids' = (failed_ids ++ map fst (filter (fun kv => match snd kv with None => true | Some _ => false end) items))%list /\
  (forall sid, In sid (Dict.keys results') <->
     In sid (Dict.keys results) \/
     exists s t, In (s, Some t) items /\ source_id_of s = sid) /\
  (forall sid, In sid (Dict.keys id_to_name') <->
     In sid (Dict.keys id_to_name) \/
     exists s t, In (s, Some t) items /\ source_id_of s = sid) /\
  (forall sid titles, Dict.get sid results' = Some titles ->
     Dict.get sid results = Some titles \/ exists title entry, titles = [(title, entry)]).
Proof.
  revert results id_to_name failed_ids.
  induction items as [|[symbol [data|]] items IH]; intros results id_to_name failed_ids; simpl.
  - rewrite app_nil_r. repeat split; intros; tauto || auto.
    + destruct H as [H|[s [t [[] _]]]]. exact H.
    + destruct H as [H|[s [t [[] _]]]]. exact H.
  - unfold source_id_of.
    destruct (source_of symbol) as [[source_id source_name] short_name] eqn:Hsrc.
    specialize (IH (Dict.set source_id
                      [(crypto_title float_sign fmt_money fmt_signed fmt_whole short_name data,
                        mkTitleData [1] ("https://www.binance.com/zh-CN/trade/" ++ symbol)
                                    ("https://www.binance.com/zh-CN/trade/" ++ symbol))]
                      results)
                   (Dict.set source_id source_name id_to_name) failed_ids).
    destruct (fold_left convert_item items _) as [[results' id_to_name'] failed_ids'].
    destruct IH as [Hf [Hr [Hn Hs]]].
    split; [exact Hf|]. split; [|split].
    + intros sid. rewrite Hr, dict_keys_set. split.
      * intros [[->|H]|[s [t [Hin Hsid]]]]; auto.
        -- right. exists symbol, data. split; [auto|]. rewrite Hsrc. reflexivity.
        -- right. exists s, t. auto.
      * intros [H|[s [t [[Heq|Hin] Hsid]]]]; auto.
        -- injection Heq as <- <-. rewrite Hsrc in Hsid. simpl in Hsid. auto.
        -- right. exists s, t. auto.
    + intros sid. rewrite Hn, dict_keys_set. split.
      * intros [[->|H]|[s [t [Hin Hsid]]]]; auto.
        -- right. exists symbol, data. split; [auto|]. rewrite Hsrc. reflexivity.
        -- right. exists s, t. auto.
      * intros [H|[s [t [[Heq|Hin] Hsid]]]]; auto.
        -- injection Heq as <- <-. rewrite Hsrc in Hsid. simpl in Hsid. auto.
        -- right. exists s, t. auto.
    + intros sid titles Hget. destruct (Hs _ _ Hget) as [Hprev|Hone]; [|auto].
      destruct (string_dec sid source_id) as [->|Hne].
      * rewrite dict_get_set_same in Hprev. injection Hprev as <-. right. eauto.
      * rewrite dict_get_set_other in Hprev by exact Hne. auto.
  - specialize (IH results id_to_name (failed_ids ++ [symbol])%list).
    destruct (fold_left convert_item items _) as [[results' id_to_name'] failed_ids'].
    destruct IH as [Hf [Hr [Hn Hs]]].
    split; [rewrite Hf, <- app_assoc; reflexivity|]. split; [|split].
    + intros sid. rewrite Hr. split.
      * intros [H|[s [t [Hin Hsid]]]]; auto. right. exists s, t. auto.
      * intros [H|[s [t [[Heq|Hin] Hsid]]]]; auto; [discriminate|]. right. exists s, t. auto.
    + intros sid. rewrite Hn. split.
      * intros [H|[s [t [Hin Hsid]]]]; auto. right. exists s, t. auto.
      * intros [H|[s [t [[Heq|Hin] Hsid]]]]; auto; [discriminate|]. right. exists s, t. auto.
    + exact Hs.
Qed.

(** [fetch_ticker_24h] on a list of symbols. *)
Lemma fetch_ticker_24h_spec (W : Type) (h : Handler NetOp W) (w : W)
    (proxies : option string) (symbols : list string) :
  let tr := trace_of h (fetch_ticker_24h proxies (Some symbols)) w in
  exists price_data,
    result_of h (fetch_ticker_24h proxies (Some symbols)) w = Ret price_data /\
    requested_symbols tr = map Some symbols /\
    Dict.wf price_data /\
    (forall s, In s (Dict.keys price_data) <-> In s symbols) /\
    (forall s v, Dict.get s price_data = Some v ->
       exists a, In (s, a) (combine symbols (answers tr)) /\
                 v = ticker_of_answer a) /\
    (forall s, In s symbols ->
       (forall a, In (s, a) (combine symbols (answers tr)) ->
                  ticker_of_answer a = None) ->
       Dict.get s price_data = Some None).
Proof.
  intros tr.
  pose proof (exec_always any_answer h
                (fetch_ticker_24h proxies (Some symbols)) w _
                (respects_any h)
                (fetch_symbols_always proxies symbols Dict.empty)) as H.
  simpl in H. fold tr in H. destruct H as [Hlen [Hreq Hres]].
  exists (tickers_of (combine symbols (answers tr)) Dict.empty).
  assert (Hkeys : forall s,
             In s (Dict.keys (tickers_of (combine symbols (answers tr)) Dict.empty))
             <-> In s symbols).
  { intros s. rewrite tickers_of_keys. simpl.
    assert (Hfst : map fst (combine symbols (answers tr)) = symbols).
    { clear - Hlen. revert Hlen. generalize (answers tr) as l.
      induction symbols as [|x xs IH]; intros [|a l] Hl; simpl in *; try discriminate; auto.
      injection Hl as Hl. rewrite (IH l); auto. }
    rewrite Hfst. tauto. }
  assert (Hget : forall s v,
             Dict.get s (tickers_of (combine symbols (answers tr)) Dict.empty) = Some v ->
             exists a, In (s, a) (combine symbols (answers tr)) /\
                       v = ticker_of_answer a).
  { intros s v Hg. apply tickers_of_get in Hg. destruct Hg as [Hg|Hg]; [discriminate|exact Hg]. }
  split; [exact Hres|]. split; [exact Hreq|].
  split; [apply tickers_of_wf; constructor|].
  split; [exact Hkeys|]. split; [exact Hget|].
  intros s Hin Hfail. apply Hkeys in Hin. apply dict_keys_get in Hin.
  destruct Hin as [v Hv]. rewrite Hv. f_equal.
  destruct (Hget _ _ Hv) as [a [Ha ->]]. auto.
Qed.

(** [convert_to_news_format] on a dictionary of prices. *)
Lemma convert_to_news_format_spec (price_data : Dict.t (option (Ticker F)))
    (crawl_time crawl_date : string) :
  Dict.wf price_data ->
  let '(results, id_to_name, failed_ids) :=
    convert_to_news_format price_data crawl_time crawl_date in
  (forall s, In s failed_ids <-> Dict.get s price_data = Some None) /\
  (forall s t, Dict.get s price_data = Some (Some t) ->
     Dict.mem (source_id_of s) id_to_name = true /\
     exists title entry, Dict.get (source_id_of s) results = Some [(title, entry)]) /\
  (forall sid, Dict.mem sid results = true \/ Dict.mem sid id_to_name = true ->
     exists s t, Dict.get s price_data = Some (Some t) /\ source_id_of s = sid) /\
  (forall s, Dict.get s price_data = Some None ->
     (forall s' t, Dict.get s' price_data = Some (Some t) ->
                   source_id_of s' <> source_id_of s) ->
     Dict.mem (source_id_of s) results = false /\
     Dict.mem (source_id_of s) id_to_name = false).
Proof.
  intros Hwf. unfold convert_to_news_format.
  pose proof (fold_convert_item (Dict.items price_data) Dict.empty Dict.empty []) as H.
  destruct (fold_left _ (Dict.items price_data) _) as [[results id_to_name] failed_ids].
  destruct H as [Hf [Hr [Hn Hs]]]. simpl in Hf.
  assert (Hfailed : forall s, In s failed_ids <-> Dict.get s price_data = Some None).
  { intros s. rewrite Hf. rewrite in_map_iff. split.
    - intros [[s' v] [Hfst Hin]]. simpl in Hfst. subst s'.
      apply filter_In in Hin. destruct Hin as [Hin Hnone]. simpl in Hnone.
      destruct v; [discriminate|]. apply dict_in_get; assumption.
    - intros Hget. exists (s, None). split; [reflexivity|].
      apply filter_In. split; [apply dict_get_in; exact Hget|reflexivity]. }
  assert (Hsrc : forall sid,
             (exists s t, In (s, Some t) (Dict.items price_data) /\ source_id_of s = sid)
             <-> (exists s t, Dict.get s price_data = Some (Some t) /\ source_id_of s = sid)).
  { intros sid. split; intros [s [t [H1 H2]]]; exists s, t; split; auto.
    - apply dict_in_get; assumption.
    - apply dict_get_in; assumption. }
  split; [exact Hfailed|]. split; [|split].
  - intros s t Hget.
    assert (Hex : exists s0 t0, In (s0, Some t0) (Dict.items price_data)
                                /\ source_id_of s0 = source_id_of s).
    { exists s, t. split; [apply dict_get_in; exact Hget|reflexivity]. }
    split.
    + apply dict_mem_keys. apply Hn. right. exact Hex.
    + assert (Hin : In (source_id_of s) (Dict.keys results)) by (apply Hr; right; exact Hex).
      apply dict_keys_get in Hin. destruct Hin as [titles Ht].
      destruct (Hs _ _ Ht) as [Hempty|[title [entry ->]]]; [discriminate|].
      exists title, entry. exact Ht.
  - intros sid [Hm|Hm]; apply dict_mem_keys in Hm.
    + apply Hr in Hm. destruct Hm as [[]|Hm]. apply Hsrc. exact Hm.
    + apply Hn in Hm. destruct Hm as [[]|Hm]. apply Hsrc. exact Hm.
  - intros s Hnone Hfree. split; apply dict_mem_false_keys; intros Hin.
    + apply Hr in Hin. destruct Hin as [[]|Hin]. apply Hsrc in Hin.
      destruct Hin as [s' [t [Hget Hsid]]]. exact (Hfree _ _ Hget Hsid).
    + apply Hn in Hin. destruct Hin as [[]|Hin]. apply Hsrc in Hin.
      destruct Hin as [s' [t [Hget Hsid]]]. exact (Hfree _ _ Hget Hsid).
Qed.

(** C9 (as the code has it). Whatever the HTTP layer answers,
    [fetch_ticker_24h] returns a dictionary and does not raise; it
    requests every symbol of the list, in order, and the dictionary has
    exactly the requested symbols as keys, each once; a symbol all of
    whose requests failed maps to [None]. [convert_to_news_format] then
    splits the symbols: [failed_ids] holds exactly the symbols whose data
    is [None]; a symbol with data has its source id in [id_to_name] and in
    [results], there with exactly one title; every key of [results] and
    [id_to_name] is the source id of a symbol with data; and the source id
    of a failed symbol is in neither, provided no symbol with data has the
    same source id. *)
Theorem fetch_then_convert_partition (W : Type) (h : Handler NetOp W) (w : W)
    (proxies : option string) (symbols : list string) (crawl_time crawl_date : string) :
  let tr := trace_of h (fetch_ticker_24h proxies (Some symbols)) w in
  exists price_data,
    result_of h (fetch_ticker_24h proxies (Some symbols)) w = Ret price_data /\
    requested_symbols tr = map Some symbols /\
    Dict.wf price_data /\
    (forall s, In s (Dict.keys price_data) <-> In s symbols) /\
    (forall s, In s symbols ->
       (forall a, In (s, a) (combine symbols (answers tr)) -> ticker_of_answer a = None) ->
       Dict.get s price_data = Some None) /\
    let '(results, id_to_name, failed_ids) :=
      convert_to_news_format price_data crawl_time crawl_date in
    (forall s, In s failed_ids <-> Dict.get s price_data = Some None) /\
    (forall s t, Dict.get s price_data = Some (Some t) ->
       Dict.mem (source_id_of s) id_to_name = true /\
       exists title entry, Dict.get (source_id_of s) results = Some [(title, entry)]) /\
    (forall sid, Dict.mem sid results = true \/ Dict.mem sid id_to_name = true ->
       exists s t, Dict.get s price_data = Some (Some t) /\ source_id_of s = sid) /\
    (forall s, Dict.get s price_data = Some None ->
       (forall s' t, Dict.get s' price_data = Some (Some t) ->
                     source_id_of s' <> source_id_of s) ->
       Dict.mem (source_id_of s) results = false /\
       Dict.mem (source_id_of s) id_to_name = false).
Proof.
  intros tr.
  destruct (@fetch_ticker_24h_spec W h w proxies symbols)
    as [price_data [Hres [Hreq [Hwf [Hkeys [_ Hnone]]]]]].
  exists price_data.
  split; [exact Hres|]. split; [exact Hreq|]. split; [exact Hwf|].
  split; [exact Hkeys|]. split; [exact Hnone|].
  exact (convert_to_news_format_spec price_data crawl_time crawl_date Hwf).
Qed.

End CryptoLemmas.

Lemma fetch_then_convert_partition_witness :
  exists price_data,
    sample_prices = Ret price_data /\
    Dict.get "DOGEUSDT" price_data = Some None /\
    let '(results, id_to_name, failed_ids) :=
      convert_to_news_format whole_sign PyStr.of_Z PyStr.of_Z PyStr.of_Z
                             price_data "09:00" "2025-01-01" in
    In "DOGEUSDT" failed_ids /\
    Dict.mem (source_id_of "DOGEUSDT") results = false /\
    Dict.mem (source_id_of "DOGEUSDT") id_to_name = false /\
    Dict.mem (source_id_of "BTCUSDT") id_to_name = true.
Proof.
  destruct (@fetch_then_convert_partition Z whole_float whole_sign
              PyStr.of_Z PyStr.of_Z PyStr.of_Z _ scripted_net
              [ticker_body "97000" "2" "1200" "98000" "95000";
               Raise (RequestException "HTTPSConnectionPool: read timed out")]
              None ["BTCUSDT"; "DOGEUSDT"] "09:00" "2025-01-01")
    as [price_data [Hres [_ [_ [_ [_ Hconv]]]]]].
  exists price_data. split; [exact Hres|].
  vm_compute in Hres. injection Hres as <-.
  split; [reflexivity|].
  destruct (convert_to_news_format _ _ _ _ _ _ _) as [[results id_to_name] failed_ids].
  destruct Hconv as [Hfailed [Hdata [_ Habsent]]].
  assert (Hnone : Dict.get "DOGEUSDT"
                    [("BTCUSDT", Some (mkTicker 97000 2 1200 98000 95000));
                     ("DOGEUSDT", None)] = Some None) by reflexivity.
  split; [apply Hfailed; exact Hnone|].
  assert (Hfree : forall s' t,
             Dict.get s' [("BTCUSDT", Some (mkTicker 97000 2 1200 98000 95000));
                          ("DOGEUSDT", None)] = Some (Some t) ->
             source_id_of s' <> source_id_of "DOGEUSDT").
  { intros s' t Hget. simpl in Hget.
    destruct (String.eqb s' "BTCUSDT") eqn:E.
    - apply String.eqb_eq in E. subst s'. vm_compute. discriminate.
    - destruct (String.eqb s' "DOGEUSDT"); discriminate. }
  destruct (Habsent _ Hnone Hfree) as [H1 H2].
  split; [exact H1|]. split; [exact H2|].
  apply (Hdata "BTCUSDT" (mkTicker 97000 2 1200 98000 95000)). reflexivity.
Defined.

(** C9 as stated fails where two symbols share a source id: "BTC" and
    "BTCUSDT" both map to [crypto_btc]. When BTCUSDT answers and BTC
    fails, BTC is in [failed_ids] and its source id is nevertheless in
    [results] and in [id_to_name]. *)
Lemma convert_failed_symbol_counterexample :
  let price_data : Dict.t (option (Ticker Z)) :=
    [("BTCUSDT", Some (mkTicker 97000 2 1200 98000 95000)); ("BTC", None)] in
  result_of scripted_net
    (fetch_ticker_24h whole_float PyStr.of_Z PyStr.of_Z None (Some ["BTCUSDT"; "BTC"]))
    [ticker_body "97000" "2" "1200" "98000" "95000";
     Raise (RequestException "400 Client Error: Bad Request")]
  = Ret price_data /\
  Dict.get "BTC" price_data = Some None /\
  let '(results, id_to_name, failed_ids) :=
    convert_to_news_format whole_sign PyStr.of_Z PyStr.of_Z PyStr.of_Z
                           price_data "09:00" "2025-01-01" in
  failed_ids = ["BTC"] /\
  source_id_of "BTC" = "crypto_btc" /\
  Dict.mem (source_id_of "BTC") results = true /\
  Dict.mem (source_id_of "BTC") id_to_name = true.
Proof. vm_compute. repeat split; reflexivity. Qed.

(** ** The analyzer: pure checks *)

Lemma has_new_titles_true (new_titles : option NewTitles) :
  has_new_titles new_titles = true <-> some_source_has_title new_titles.
Proof.
  unfold has_new_titles, some_source_has_title. destruct new_titles as [nt|].
  - split.
    + intros H. apply andb_true_iff in H. destruct H as [_ H].
      apply existsb_exists in H. destruct H as [titles [Hin Hlen]].
      unfold Dict.values in Hin. apply in_map_iff in Hin.
      destruct Hin as [[source titles'] [Heq Hin]]. simpl in Heq. subst titles'.
      exists nt, source, titles. split; [reflexivity|]. split; [exact Hin|].
      intros ->. discriminate.
    + intros [nt' [source [titles [Heq [Hin Hne]]]]]. injection Heq as <-.
      apply andb_true_iff. split.
      * destruct nt; [destruct Hin|reflexivity].
      * apply existsb_exists. exists titles. split.
        -- unfold Dict.values. apply in_map_iff. exists (source, titles). auto.
        -- destruct titles; [contradiction|]. reflexivity.
  - split; [discriminate|]. intros [nt [_ [_ [H _]]]]. discriminate.
Qed.

Lemma has_matched_news_true (stats : list Stat) :
  has_matched_news stats = true <-> some_stat_matched stats.
Proof.
  unfold has_matched_news, some_stat_matched. rewrite existsb_exists.
  split; intros [stat [Hin Hc]]; exists stat; (split; [exact Hin|]).
  - apply Z.gtb_lt in Hc. lia.
  - apply Z.gtb_lt. lia.
Qed.

(** C1. The content gate follows the truth table of section 4.2. In
    incremental mode it is true exactly when some source has a new title
    and some statistic has a positive count; in current mode exactly when
    some statistic has a positive count; in daily mode, and in any mode
    that is neither of the first two, exactly when some statistic has a
    positive count or some source has a new title. *)
Theorem has_valid_content_truth_table (self : Analyzer) (stats : list Stat)
    (new_titles : option NewTitles) :
  (report_mode self = "incremental" ->
   (_has_valid_content self stats new_titles = true <->
    some_source_has_title new_titles /\ some_stat_matched stats)) /\
  (report_mode self = "current" ->
   (_has_valid_content self stats new_titles = true <-> some_stat_matched stats)) /\
  (report_mode self = "daily" ->
   (_has_valid_content self stats new_titles = true <->
    some_stat_matched stats \/ some_source_has_title new_titles)) /\
  (report_mode self <> "incremental" -> report_mode self <> "current" ->
   (_has_valid_content self stats new_titles = true <->
    some_stat_matched stats \/ some_source_has_title new_titles)).
Proof.
  unfold _has_valid_content.
  repeat split; intros; subst; simpl in *;
    try match goal with H : report_mode self = _ |- _ => rewrite H in *; simpl in * end;
    try (repeat match goal with
                | H : report_mode self <> _ |- _ =>
                    apply String.eqb_neq in H; rewrite H in *; clear H
                end);
    rewrite ?andb_true_iff, ?orb_true_iff, ?has_new_titles_true, ?has_matched_news_true in *;
    tauto.
Qed.

(** Scenario A of the spec: two new titles on [s1], one match. *)
Lemma has_valid_content_truth_table_witness :
  _has_valid_content (sample_analyzer "incremental" quiet_window)
                     one_match (Some sample_titles) = true.
Proof.
  destruct (has_valid_content_truth_table
              (sample_analyzer "incremental" quiet_window) one_match (Some sample_titles))
    as [Hincremental _].
  apply Hincremental.
  - reflexivity.
  - split.
    + exists sample_titles, "s1",
        [("t1", mkCrawlTitle (Some [1]) None None);
         ("t2", mkCrawlTitle (Some [2]) None None)].
      split; [reflexivity|]. split; [simpl; auto|discriminate].
    + exists (mkStat "ai" 1). split; [simpl; auto|simpl; lia].
Defined.

(** All eight rows, evaluated. *)
Example has_valid_content_rows :
  let gate (mode : string) (matched fresh : bool) :=
    _has_valid_content (sample_analyzer mode quiet_window)
      (if matched then one_match else no_match)
      (if fresh then Some sample_titles else Some []) in
  (gate "incremental" true true, gate "incremental" true false,
   gate "incremental" false true, gate "incremental" false false)
  = (true, false, false, false) /\
  (gate "current" true true, gate "current" true false,
   gate "current" false true, gate "current" false false)
  = (true, true, false, false) /\
  (gate "daily" true true, gate "daily" true false,
   gate "daily" false true, gate "daily" false false)
  = (true, true, true, false).
Proof. repeat split; reflexivity. Qed.

(** C7 (as the code has it). The registry holds exactly the three
    strategies incremental, current and daily; incremental and current
    send realtime, daily does not and has an empty realtime report type;
    all three generate a summary. For a mode name that is none of the
    three the lookup returns the daily strategy, and it prints nothing
    and calls nothing: no warning is logged. *)
Theorem mode_strategy_registry :
  Dict.keys MODE_STRATEGIES = ["incremental"; "current"; "daily"] /\
  (forall name strategy, Dict.get name MODE_STRATEGIES = Some strategy ->
     should_generate_summary strategy = true /\
     should_send_realtime strategy = negb (String.eqb name "daily") /\
     (name = "daily" -> realtime_report_type strategy = "")) /\
  Dict.get "daily" MODE_STRATEGIES = Some daily_strategy /\
  (forall (self : Analyzer) (W : Type) (h : Handler CtxOp W) (w : W),
     ~ In (report_mode self) (Dict.keys MODE_STRATEGIES) ->
     result_of h (_get_mode_strategy self) w = Ret daily_strategy /\
     trace_of h (_get_mode_strategy self) w = []).
Proof.
  split; [reflexivity|]. split; [|split; [reflexivity|]].
  - intros name strategy. simpl.
    destruct (String.eqb name "incremental") eqn:E1.
    { apply String.eqb_eq in E1. subst. intros [= <-]. repeat split. discriminate. }
    destruct (String.eqb name "current") eqn:E2.
    { apply String.eqb_eq in E2. subst. intros [= <-]. repeat split. discriminate. }
    destruct (String.eqb name "daily") eqn:E3; [|discriminate].
    intros [= <-]. repeat split.
  - intros self W h w Hnot. unfold _get_mode_strategy, result_of, trace_of. simpl.
    split; [|reflexivity]. f_equal. unfold dict_get_default.
    destruct (Dict.get (report_mode self) MODE_STRATEGIES) as [strategy|] eqn:Hget;
      [|reflexivity].
    exfalso. apply Hnot. eapply dict_get_keys. exact Hget.
Qed.

Lemma mode_strategy_registry_witness :
  result_of scripted_ctx
            (_get_mode_strategy (sample_analyzer "weekly" quiet_window))
            (sample_world (fun _ => one_match) [] (Ret []))
  = Ret daily_strategy.
Proof.
  destruct mode_strategy_registry as [_ [_ [_ Hfallback]]].
  apply Hfallback. simpl. intros [H|[H|[H|[]]]]; discriminate.
Defined.

(** C7 as stated fails on the warning: for the unrecognized mode
    "weekly" the lookup falls back to daily and prints no line at all. *)
Lemma mode_strategy_fallback_counterexample :
  let self := sample_analyzer "weekly" quiet_window in
  let w := sample_world (fun _ => one_match) [] (Ret []) in
  ~ In (report_mode self) (Dict.keys MODE_STRATEGIES) /\
  result_of scripted_ctx (_get_mode_strategy self) w = Ret daily_strategy /\
  trace_of scripted_ctx (_get_mode_strategy self) w = [].
Proof.
  simpl. split; [|split; reflexivity].
  intros [H|[H|[H|[]]]]; discriminate.
Qed.

(** ** The analyzer: traces *)

Lemma dispatches_app (t1 t2 : Trace CtxOp) :
  dispatches (t1 ++ t2)%list = (dispatches t1 ++ dispatches t2)%list.
Proof. apply flat_map_app. Qed.

Lemma recorded_app (t1 t2 : Trace CtxOp) :
  recorded (t1 ++ t2)%list = (recorded t1 ++ recorded t2)%list.
Proof. apply flat_map_app. Qed.

Lemma time_range_answers_app (t1 t2 : Trace CtxOp) :
  time_range_answers (t1 ++ t2)%list
  = (time_range_answers t1 ++ time_range_answers t2)%list.
Proof. apply flat_map_app. Qed.

Lemma pushed_answers_app (t1 t2 : Trace CtxOp) :
  pushed_answers (t1 ++ t2)%list = (pushed_answers t1 ++ pushed_answers t2)%list.
Proof. apply flat_map_app. Qed.

Lemma prepared_inputs_app (t1 t2 : Trace CtxOp) :
  prepared_inputs (t1 ++ t2)%list = (prepared_inputs t1 ++ prepared_inputs t2)%list.
Proof. apply flat_map_app. Qed.


Lemma history_answers_app (t1 t2 : Trace CtxOp) :
  history_answers (t1 ++ t2)%list = (history_answers t1 ++ history_answers t2)%list.
Proof. apply flat_map_app. Qed.

Lemma quiet_app (t1 t2 : Trace CtxOp) : quiet t1 -> quiet t2 -> quiet (t1 ++ t2)%list.
Proof.
  unfold quiet. intros H1 H2. rewrite forallb_app, H1, H2. reflexivity.
Qed.


(** A quiet trace shows nothing to any reader of the push machinery. *)
Lemma quiet_reads_nothing (tr : Trace CtxOp) :
  quiet tr ->
  dispatches tr = [] /\ recorded tr = [] /\ time_range_answers tr = [] /\
  pushed_answers tr = [] /\ prepared_inputs tr = [].
Proof.
  unfold quiet. induction tr as [|ev tr IH]; simpl; [auto|].
  intros H. apply andb_true_iff in H. destruct H as [Hev Htr].
  destruct (IH Htr) as [H1 [H2 [H3 [H4 H5]]]].
  destruct ev as [line|X op answer]; simpl; [auto|].
  destruct op; simpl in *; try discriminate; auto.
Qed.

Local Ltac quiet_step :=
  match goal with
  | |- always _ (let _ := _ in _) _ => cbv zeta
  | |- always _ (bind _ _) _ =>
      apply (always_seq _ quiet quiet quiet);
      [auto | exact quiet_app | | intros ?]
  | |- always _ (try_except _ _) _ =>
      apply (always_try_seq _ quiet quiet quiet);
      [auto | exact quiet_app | | intros ?]
  | |- always _ (call _) _ => apply always_call; intros; reflexivity
  | |- always _ (say _) _ => apply always_say; reflexivity
  | |- always _ (ret _) _ => apply always_done; reflexivity
  | |- always _ (raise _) _ => apply always_done; reflexivity
  | |- always _ (Done _) _ => apply always_done; reflexivity
  | |- always _ (when ?b _) _ => unfold when; destruct b
  | |- always _ (if ?b then _ else _) _ => destruct b
  | |- always _ (match ?x with _ => _ end) _ => destruct x
  end.

Lemma load_analysis_data_quiet C (self : Analyzer) (quiet_flag : bool) :
  always C (_load_analysis_data self quiet_flag) (fun tr _ => quiet tr).
Proof. unfold _load_analysis_data. repeat quiet_step. Qed.

Lemma run_analysis_pipeline_quiet C self data_source mode title_info new_titles
      word_groups filter_words id_to_name failed_ids is_daily_summary global_filters q :
  always C (_run_analysis_pipeline self data_source mode title_info new_titles
              word_groups filter_words id_to_name failed_ids is_daily_summary
              global_filters q)
         (fun tr _ => quiet tr).
Proof. unfold _run_analysis_pipeline. repeat quiet_step. Qed.

Lemma add_extended_data_quiet C self report_data :
  always C (_add_extended_data_to_report self report_data) (fun tr _ => quiet tr).
Proof. unfold _add_extended_data_to_report. repeat quiet_step. Qed.

Lemma add_ai_analysis_quiet C self report_data stats :
  always C (_add_ai_analysis_to_report self report_data stats) (fun tr _ => quiet tr).
Proof. unfold _add_ai_analysis_to_report. repeat quiet_step. Qed.

Lemma generate_summary_html_quiet C self mode :
  always C (_generate_summary_html self mode) (fun tr _ => quiet tr).
Proof.
  unfold _generate_summary_html. cbv zeta.
  repeat first [ apply load_analysis_data_quiet
               | apply run_analysis_pipeline_quiet
               | quiet_step ].
Qed.

Lemma show_report_quiet C self html_file summary_html :
  always C (show_report self html_file summary_html) (fun tr _ => quiet tr).
Proof. unfold show_report. repeat quiet_step. Qed.

(** *** The notification step *)

Local Ltac stuck_on p :=
  lazymatch p with
  | bind ?q _ => stuck_on q
  | try_except ?q _ => stuck_on q
  | (if ?b then _ else _) => destruct b eqn:?
  | (match ?x with _ => _ end) => destruct x eqn:?
  end.

Local Ltac run_step :=
  match goal with
  | |- forall x, _ -> always _ _ _ => intros [?|?] _
  | |- always _ ?p _ => stuck_on p
  end.

Local Ltac run := repeat (simpl; run_step); simpl.

Local Ltac use_pushed :=
  match goal with
  | H : forall a : Outcome bool, ?x = a \/ _ -> a = Ret true |- _ =>
      specialize (H x (or_introl eq_refl)); try discriminate
  end.

Local Ltac split_hyps :=
  repeat match goal with
         | H : _ /\ _ |- _ => destruct H
         | H : _ \/ _ |- _ => destruct H
         | H : False |- _ => destruct H
         end.

Local Ltac close :=
  first [ solve [reflexivity]
        | solve [discriminate]
        | solve [assumption]
        | solve [congruence]
        | solve [left; close]
        | solve [right; close]
        | solve [eexists; close]
        | solve [split; close] ].

Local Ltac fix_bools :=
  repeat match goal with
         | H : negb ?b = true |- _ => apply negb_true_iff in H
         | H : negb ?b = false |- _ => apply negb_false_iff in H
         | H : ?b = true |- _ => is_var b; subst b
         | H : ?b = false |- _ => is_var b; subst b
         | H : ?x = Some _ |- _ => is_var x; subst x
         | H : ?x = None |- _ => is_var x; subst x
         end.

Local Ltac close_leaf :=
  fix_bools;
  repeat (split || intro);
  simpl in *;
  try discriminate;
  try use_pushed;
  split_hyps;
  try discriminate;
  repeat match goal with
         | H : _ :: _ = _ :: _ |- _ => injection H; clear H; intros; subst
         | H : Dict.truthy ?d = false |- _ => is_var d; destruct d; [clear H|discriminate H]
         end;
  simpl in *;
  repeat match goal with
         | H : any_success _ = _ |- _ => rewrite H in *
         | H : Dict.truthy _ = _ |- _ => rewrite H in *
         end;
  rewrite ?String.eqb_refl; simpl;
  try discriminate;
  try close;
  auto.

Lemma send_notification_always (self : Analyzer) (stats : list Stat)
    (report_type mode : string) (failed_ids : option (list string))
    (new_titles : option NewTitles) (id_to_name : option (Dict.t string))
    (html_file_path : option string) :
  always any_answer
    (_send_notification_if_needed self stats report_type mode failed_ids
       new_titles id_to_name html_file_path)
    (send_post self stats report_type new_titles).
Proof.
  unfold _send_notification_if_needed, send_post, send_gate, push_window_allows,
    _add_extended_data_to_report, _add_ai_analysis_to_report, _get_mode_strategy,
    throttle_passed.
  cbv zeta.
  destruct (ENABLE_NOTIFICATION (config self)) eqn:Henable,
           (_has_notification_configured self) eqn:Hconfigured,
           (_has_valid_content self stats new_titles) eqn:Hvalid;
    destruct (ENABLED (PUSH_WINDOW (config self))) eqn:Hwindow,
             (ONCE_PER_DAY (PUSH_WINDOW (config self))) eqn:Honce.
  all: run.
  all: close_leaf.
Qed.

Lemma clean_app (t1 t2 : Trace CtxOp) :
  clean (t1 ++ t2)%list = clean t1 && clean t2.
Proof. apply forallb_app. Qed.

Lemma robustly_justified_nil : robustly_justified [].
Proof. intros pending rest H. simpl. apply H. Qed.

Lemma robustly_justified_app (t1 t2 : Trace CtxOp) :
  robustly_justified t1 -> robustly_justified t2 -> robustly_justified (t1 ++ t2)%list.
Proof.
  intros H1 H2 pending rest Hrest. rewrite <- app_assoc.
  apply H1. intros p. apply H2. exact Hrest.
Qed.

Lemma quiet_robustly_justified (tr : Trace CtxOp) : quiet tr -> robustly_justified tr.
Proof.
  unfold quiet. induction tr as [|ev tr IH]; simpl; intros Hq.
  - apply robustly_justified_nil.
  - apply andb_true_iff in Hq. destruct Hq as [Hev Htr].
    intros pending rest Hrest. simpl.
    destruct ev as [line|X op answer]; [apply (IH Htr); exact Hrest|].
    destruct op; simpl in *; try discriminate; apply (IH Htr); exact Hrest.
Qed.

Lemma robustly_justified_sound (tr : Trace CtxOp) :
  robustly_justified tr -> records_justified None tr = true.
Proof.
  intros H. specialize (H None [] (fun _ => eq_refl)).
  rewrite app_nil_r in H. exact H.
Qed.

(** A justified trace records nothing unless some dispatch delivered. *)
Lemma records_need_delivery (tr : Trace CtxOp) (pending : option string) :
  records_justified pending tr = true ->
  pending = None ->
  (forall d, In d (dispatches tr) -> delivered (snd d) = false) ->
  recorded tr = [].
Proof.
  revert pending. induction tr as [|ev tr IH]; intros pending Hj Hp Hd; [reflexivity|].
  subst pending. destruct ev as [line|X op answer]; simpl in *.
  - eapply IH; eauto.
  - destruct op; simpl in *; try (eapply IH; eauto; fail).
    + discriminate.
    + assert (Ha : delivered answer = false) by (apply (Hd (report_type, answer)); auto).
      rewrite Ha in Hj. eapply IH; eauto.
Qed.

Lemma quiet_one_push (self : Analyzer) (report_type : string) (tr : Trace CtxOp) :
  quiet tr -> one_push_of self report_type tr.
Proof.
  intros Hq. pose proof (quiet_robustly_justified _ Hq) as Hrj.
  destruct (quiet_reads_nothing _ Hq) as [Hd [Hr [Ht [Hp Hi]]]].
  unfold one_push_of. rewrite Hd, Hr, Hi. simpl.
  repeat split; auto; try discriminate; try contradiction.
Qed.

Lemma throttle_passed_quiet_l cfg (t1 t2 : Trace CtxOp) :
  quiet t1 -> throttle_passed cfg t2 -> throttle_passed cfg (t1 ++ t2)%list.
Proof.
  intros Hq. destruct (quiet_reads_nothing _ Hq) as [_ [_ [Ht [Hp _]]]].
  unfold throttle_passed. rewrite time_range_answers_app, pushed_answers_app, Ht, Hp.
  simpl. auto.
Qed.

Lemma throttle_passed_quiet_r cfg (t1 t2 : Trace CtxOp) :
  throttle_passed cfg t1 -> quiet t2 -> throttle_passed cfg (t1 ++ t2)%list.
Proof.
  intros H Hq. destruct (quiet_reads_nothing _ Hq) as [_ [_ [Ht [Hp _]]]].
  unfold throttle_passed. rewrite time_range_answers_app, pushed_answers_app, Ht, Hp.
  rewrite !app_nil_r. exact H.
Qed.

Lemma one_push_quiet_l self report_type (t1 t2 : Trace CtxOp) :
  quiet t1 -> one_push_of self report_type t2 ->
  one_push_of self report_type (t1 ++ t2)%list.
Proof.
  intros Hq H2. pose proof (quiet_robustly_justified _ Hq) as Hrj.
  destruct (quiet_reads_nothing _ Hq) as [Hd [Hr [Ht [Hp Hi]]]].
  destruct H2 as [A [B [C [D [E [G K]]]]]].
  unfold one_push_of.
  rewrite dispatches_app, recorded_app, pushed_answers_app, prepared_inputs_app,
    clean_app, Hd, Hr, Hp, Hi. simpl.
  split; [exact A|]. split; [exact B|].
  split; [apply robustly_justified_app; assumption|].
  split; [exact D|]. split.
  - intros Hc. apply andb_true_iff in Hc. destruct Hc as [_ Hc]. exact (E Hc).
  - split; [|exact K].
    intros stats new_titles Hin. destruct (G _ _ Hin) as [Hg Ht2].
    split; [exact Hg|]. apply throttle_passed_quiet_l; assumption.
Qed.

Lemma one_push_quiet_r self report_type (t1 t2 : Trace CtxOp) :
  one_push_of self report_type t1 -> quiet t2 ->
  one_push_of self report_type (t1 ++ t2)%list.
Proof.
  intros H1 Hq. pose proof (quiet_robustly_justified _ Hq) as Hrj.
  destruct (quiet_reads_nothing _ Hq) as [Hd [Hr [Ht [Hp Hi]]]].
  destruct H1 as [A [B [C [D [E [G K]]]]]].
  unfold one_push_of.
  rewrite dispatches_app, recorded_app, pushed_answers_app, prepared_inputs_app,
    clean_app, Hd, Hr, Hp, Hi. rewrite !app_nil_r.
  split; [exact A|]. split; [exact B|].
  split; [apply robustly_justified_app; assumption|].
  split; [exact D|]. split.
  - intros Hc. apply andb_true_iff in Hc. destruct Hc as [Hc _]. exact (E Hc).
  - split; [|exact K].
    intros stats new_titles Hin. destruct (G _ _ Hin) as [Hg Ht1].
    split; [exact Hg|]. apply throttle_passed_quiet_r; assumption.
Qed.

Lemma send_post_one_push self stats report_type new_titles tr r :
  send_post self stats report_type new_titles tr r ->
  one_push_of self report_type tr.
Proof.
  unfold send_post, one_push_of.
  intros [_ [Hprep [Hdisp [Hrec [Hrj [Hpushed [_ [Hclean _]]]]]]]].
  split. { destruct Hdisp as [H|[a [H _]]]; eauto. }
  split; [exact Hrec|]. split; [exact Hrj|].
  split. { intros H1 H2 H3. destruct (Hpushed H1 H2 H3) as [? [? _]]. auto. }
  split; [exact Hclean|].
  split.
  - intros stats' nt' Hin.
    destruct Hprep as [H|[H [Hg Ht]]]; rewrite H in Hin; simpl in Hin.
    + contradiction.
    + destruct Hin as [Heq|[]]. injection Heq as <- <-. auto.
  - intros Hne. destruct Hdisp as [H|[a [_ H]]]; [contradiction|].
    rewrite H. discriminate.
Qed.

(** *** The phases of a cycle *)

Local Ltac all_quiet :=
  solve [ repeat first [ apply load_analysis_data_quiet
                       | apply run_analysis_pipeline_quiet
                       | apply generate_summary_html_quiet
                       | apply show_report_quiet
                       | quiet_step ] ].

Local Ltac push_step self rt :=
  match goal with
  | |- always _ (let _ := _ in _) _ => cbv zeta
  | |- always _ (_send_notification_if_needed _ _ _ _ _ _ _ _) _ =>
      eapply always_weaken; [|apply send_notification_always];
      intros ? ?; apply send_post_one_push
  | |- always _ (bind _ _) _ =>
      first [ apply (always_seq _ quiet (one_push_of self rt) (one_push_of self rt));
              [ apply quiet_one_push
              | intros; apply one_push_quiet_l; assumption
              | all_quiet
              | intros ? ]
            | apply (always_seq _ (one_push_of self rt) quiet (one_push_of self rt));
              [ auto
              | intros; apply one_push_quiet_r; assumption
              |
              | intros ?; all_quiet ] ]
  | |- always _ (if ?b then _ else _) _ => destruct b
  | |- always _ (match ?x with _ => _ end) _ => destruct x
  | |- always _ _ _ =>
      eapply always_weaken; [intros ? ?; apply quiet_one_push|]; all_quiet
  end.

Lemma realtime_phase_always (self : Analyzer) (strategy : Strategy)
    (results : Results) (id_to_name : Dict.t string) (failed_ids : list string) :
  always any_answer (realtime_phase self strategy results id_to_name failed_ids)
    (fun tr _ =>
       if should_send_realtime strategy
       then one_push_of self (realtime_report_type strategy) tr
       else quiet tr).
Proof.
  unfold realtime_phase. destruct (should_send_realtime strategy) eqn:Hrealtime.
  - cbv beta iota zeta.
    repeat push_step self (realtime_report_type strategy).
  - cbv beta iota zeta. all_quiet.
Qed.

Lemma generate_summary_report_always (self : Analyzer) (strategy : Strategy) :
  always any_answer (_generate_summary_report self strategy)
    (fun tr _ => one_push_of self (summary_report_type strategy) tr).
Proof.
  unfold _generate_summary_report. cbv zeta.
  repeat push_step self (summary_report_type strategy).
Qed.

Lemma summary_phase_always (self : Analyzer) (strategy : Strategy) :
  always any_answer (summary_phase self strategy)
    (fun tr _ =>
       if should_send_realtime strategy
       then quiet tr
       else one_push_of self (summary_report_type strategy) tr).
Proof.
  unfold summary_phase.
  destruct (should_generate_summary strategy), (should_send_realtime strategy).
  - apply generate_summary_html_quiet.
  - apply generate_summary_report_always.
  - apply always_done. reflexivity.
  - apply always_done. apply quiet_one_push. reflexivity.
Qed.

Lemma execute_mode_strategy_always (self : Analyzer) (strategy : Strategy)
    (results : Results) (id_to_name : Dict.t string) (failed_ids : list string) :
  always any_answer
    (_execute_mode_strategy self strategy results id_to_name failed_ids)
    (fun tr _ => one_push_of self (pushed_report_type strategy) tr).
Proof.
  unfold _execute_mode_strategy, pushed_report_type.
  pose proof (realtime_phase_always self strategy results id_to_name failed_ids) as Hreal.
  pose proof (summary_phase_always self strategy) as Hsum.
  destruct (should_send_realtime strategy).
  - apply (always_seq _ (one_push_of self (realtime_report_type strategy)) quiet
                      (one_push_of self (realtime_report_type strategy)));
      [ auto | intros; apply one_push_quiet_r; assumption | exact Hreal | intros html_file ].
    apply (always_seq _ quiet quiet quiet);
      [ auto | exact quiet_app | exact Hsum | intros summary_html ].
    all_quiet.
  - apply (always_seq _ quiet (one_push_of self (summary_report_type strategy))
                      (one_push_of self (summary_report_type strategy)));
      [ apply quiet_one_push | intros; apply one_push_quiet_l; assumption
      | exact Hreal | intros html_file ].
    apply (always_seq _ (one_push_of self (summary_report_type strategy)) quiet
                      (one_push_of self (summary_report_type strategy)));
      [ auto | intros; apply one_push_quiet_r; assumption | exact Hsum
      | intros summary_html ].
    all_quiet.
Qed.

Lemma cycle_always (self : Analyzer) (results : Results) (id_to_name : Dict.t string)
    (failed_ids : list string) :
  always any_answer (cycle self results id_to_name failed_ids)
    (fun tr _ =>
       one_push_of self
         (pushed_report_type
            (dict_get_default MODE_STRATEGIES (report_mode self) daily_strategy)) tr).
Proof.
  unfold cycle, _get_mode_strategy. simpl bind.
  apply execute_mode_strategy_always.
Qed.

(** ** The claims about the notification step *)

(** Every run under any handler is covered by what holds for all answers. *)
Lemma run_covered {A} {p : Prog CtxOp A} {Q : Trace CtxOp -> Outcome A -> Prop}
      {W} (h : Handler CtxOp W) (w : W) :
  always any_answer p Q -> Q (trace_of h p w) (result_of h p w).
Proof. intros H. exact (exec_always any_answer h p w Q (respects_any h) H). Qed.

Lemma truthy_non_empty (s : string) : PyStr.truthy s = true <-> non_empty s.
Proof.
  unfold non_empty. destruct s; simpl; split; intros H; try discriminate; auto.
Qed.

Lemma truthy_str_and (a b : string) :
  PyStr.truthy (str_and a b) = true <-> non_empty a /\ non_empty b.
Proof.
  unfold str_and. destruct (PyStr.truthy a) eqn:Ha.
  - rewrite truthy_non_empty. apply truthy_non_empty in Ha. tauto.
  - rewrite Ha. split; [discriminate|]. intros [H _].
    apply truthy_non_empty in H. congruence.
Qed.

Lemma has_notification_configured_iff (self : Analyzer) :
  _has_notification_configured self = true <-> some_channel_configured (config self).
Proof.
  unfold _has_notification_configured, some_channel_configured. simpl.
  rewrite !orb_true_iff, !truthy_str_and, !truthy_non_empty.
  assert (Hff : false = true <-> False) by (split; [discriminate|tauto]).
  rewrite Hff.
  rewrite <- (truthy_non_empty (str_and _ _)), truthy_str_and. tauto.
Qed.

(** C8. [_has_notification_configured] is true exactly when at least one
    channel has all the fields it needs: a webhook URL for Feishu,
    DingTalk, WeWork, Bark and Slack; bot token and chat id for Telegram;
    from, password and to for email; server URL and topic for ntfy. When
    no channel is configured, the notification step touches neither the
    push window nor the dispatcher and returns [False], and a whole cycle
    dispatches nothing. *)
Theorem notification_needs_a_channel (self : Analyzer) :
  (_has_notification_configured self = true <-> some_channel_configured (config self)) /\
  (_has_notification_configured self = false ->
   forall (W : Type) (h : Handler CtxOp W) (w : W),
     (forall stats report_type mode failed_ids new_titles id_to_name html_file_path,
        let send := _send_notification_if_needed self stats report_type mode failed_ids
                      new_titles id_to_name html_file_path in
        quiet (trace_of h send w) /\ dispatches (trace_of h send w) = [] /\
        result_of h send w = Ret false) /\
     (forall results id_to_name failed_ids,
        dispatches (trace_of h (cycle self results id_to_name failed_ids) w) = [])).
Proof.
  split; [apply has_notification_configured_iff|].
  intros Hnone W h w. split.
  - intros stats report_type mode failed_ids new_titles id_to_name html_file_path send.
    pose proof (run_covered h w
                  (send_notification_always self stats report_type mode failed_ids
                     new_titles id_to_name html_file_path)) as H.
    fold send in H. destruct H as [Hgate _].
    assert (Hg : send_gate self stats new_titles = false).
    { unfold send_gate. rewrite Hnone, andb_false_r. reflexivity. }
    destruct (Hgate Hg) as [Hq Hr].
    split; [exact Hq|]. split; [|exact Hr].
    apply (quiet_reads_nothing _ Hq).
  - intros results id_to_name failed_ids.
    pose proof (run_covered h w (cycle_always self results id_to_name failed_ids)) as H.
    destruct H as [_ [_ [_ [_ [_ [Hprep Hdisp]]]]]].
    destruct (dispatches _) as [|d ds] eqn:Hd; [reflexivity|].
    exfalso. assert (Hne : d :: ds <> []) by discriminate.
    specialize (Hdisp Hne).
    destruct (prepared_inputs _) as [|[stats nt] ps] eqn:Hp; [contradiction|].
    destruct (Hprep stats nt (or_introl eq_refl)) as [Hg _].
    unfold send_gate in Hg. rewrite Hnone, andb_false_r in Hg. discriminate.
Qed.

Lemma notification_needs_a_channel_witness :
  dispatches
    (trace_of scripted_ctx
       (cycle (mkAnalyzer no_channel_config "daily" ["s1"] None None true false)
              sample_titles [("s1", "Source One")] [])
       (sample_world (fun _ => one_match) [] (Ret [("telegram", true)])))
  = [].
Proof.
  destruct (notification_needs_a_channel
              (mkAnalyzer no_channel_config "daily" ["s1"] None None true false))
    as [_ Hnone].
  destruct (Hnone eq_refl World scripted_ctx
                  (sample_world (fun _ => one_match) [] (Ret [("telegram", true)])))
    as [_ Hcycle].
  apply Hcycle.
Defined.

(** C4. In every cycle, and in every run of the notification step, each
    [record_push] follows a dispatch whose outcome has at least one
    successful channel, for that report type, with no other dispatch in
    between. So when every dispatch of the run came back without a
    success (every channel failed, the outcome was empty because no
    channel was configured, or the dispatcher raised), nothing is
    recorded. *)
Theorem record_push_only_after_success
    (W : Type) (h : Handler CtxOp W) (w : W) (self : Analyzer)
    (results : Results) (id_to_name : Dict.t string) (failed_ids : list string)
    (stats : list Stat) (report_type mode : string) (failed : option (list string))
    (new_titles : option NewTitles) (names : option (Dict.t string))
    (html_file_path : option string) :
  let whole := trace_of h (cycle self results id_to_name failed_ids) w in
  let step := trace_of h (_send_notification_if_needed self stats report_type mode
                            failed new_titles names html_file_path) w in
  (records_justified None whole = true /\
   ((forall d, In d (dispatches whole) -> delivered (snd d) = false) ->
    recorded whole = [])) /\
  (records_justified None step = true /\
   ((forall d, In d (dispatches step) -> delivered (snd d) = false) ->
    recorded step = [])).
Proof.
  intros whole step.
  assert (Hwhole : records_justified None whole = true).
  { pose proof (run_covered h w (cycle_always self results id_to_name failed_ids)) as H.
    destruct H as [_ [_ [Hrj _]]]. apply robustly_justified_sound. exact Hrj. }
  assert (Hstep : records_justified None step = true).
  { pose proof (run_covered h w
                  (send_notification_always self stats report_type mode failed
                     new_titles names html_file_path)) as H.
    destruct H as [_ [_ [_ [_ [Hrj _]]]]]. apply robustly_justified_sound. exact Hrj. }
  split; (split; [assumption|]); intros Hd;
    eapply records_need_delivery; eauto.
Qed.

(** Scenario: daily mode, once per day, the only channel fails. *)
Lemma record_push_only_after_success_witness :
  recorded
    (trace_of scripted_ctx
       (cycle (sample_analyzer "daily" once_a_day) sample_titles [("s1", "Source One")] [])
       (sample_world (fun _ => one_match) [] (Ret [("feishu", false)])))
  = [].
Proof.
  destruct (@record_push_only_after_success World scripted_ctx
              (sample_world (fun _ => one_match) [] (Ret [("feishu", false)]))
              (sample_analyzer "daily" once_a_day)
              sample_titles [("s1", "Source One")] []
              one_match "当日汇总" "daily" None None None None)
    as [[_ Hnone] _].
  apply Hnone. vm_compute. intros d [<-|[]]. reflexivity.
Defined.

(** *** The push store *)

Lemma manager_answers_app (t1 t2 : Trace CtxOp) :
  manager_answers (t1 ++ t2)%list = (manager_answers t1 ++ manager_answers t2)%list.
Proof. apply flat_map_app. Qed.

Lemma push_store_used_app cfg (t1 t2 : Trace CtxOp) :
  push_store_used cfg t1 -> push_store_used cfg t2 -> push_store_used cfg (t1 ++ t2)%list.
Proof.
  intros [A1 D1] [A2 D2]. split.
  - unfold asked_under_switches in *. rewrite pushed_answers_app.
    destruct (pushed_answers t1); [exact A2|]. intros _. apply A1. discriminate.
  - unfold delivered_is_recorded, managers_created in *.
    rewrite manager_answers_app, forallb_app, dispatches_app, recorded_app.
    intros Hwin Honce Hm rt a Hin Hdel.
    apply andb_true_iff in Hm. destruct Hm as [Hm1 Hm2].
    apply in_or_app. apply in_app_or in Hin. destruct Hin as [Hin|Hin]; eauto.
Qed.

Lemma quiet_push_store_used cfg (tr : Trace CtxOp) : quiet tr -> push_store_used cfg tr.
Proof.
  intros Hq. destruct (quiet_reads_nothing _ Hq) as [Hd [_ [_ [Hp _]]]]. split.
  - intros H. rewrite Hp in H. contradiction.
  - intros _ _ _ rt a Hin. rewrite Hd in Hin. destruct Hin.
Qed.

Local Ltac store_leaf :=
  fix_bools;
  unfold send_store_post, push_store_used, asked_under_switches, delivered_is_recorded,
    managers_created;
  simpl;
  repeat match goal with
         | |- _ /\ _ => split
         | |- forall _, _ => intro
         end;
  simpl in *;
  repeat match goal with
         | H : False |- _ => destruct H
         | H : _ \/ _ |- _ => destruct H
         | H : (_, _) = (_, _) |- _ => injection H; clear H; intros; subst
         | H : Ret _ = Ret _ |- _ => injection H; clear H; intros; subst
         | H : Raise _ = Raise _ |- _ => injection H; clear H; intros; subst
         | H : Dict.truthy ?d = false |- _ =>
             is_var d; destruct d; [clear H|discriminate H]
         | H : any_success _ = _ |- _ => rewrite H in *
         | H : [] <> [] |- _ => contradiction H; reflexivity
         end;
  simpl in *;
  try discriminate;
  try congruence;
  try solve [left; reflexivity];
  auto.

Lemma send_notification_store_always (self : Analyzer) (stats : list Stat)
    (report_type mode : string) (failed_ids : option (list string))
    (new_titles : option NewTitles) (id_to_name : option (Dict.t string))
    (html_file_path : option string) :
  always any_answer
    (_send_notification_if_needed self stats report_type mode failed_ids
       new_titles id_to_name html_file_path)
    (send_store_post self).
Proof.
  unfold _send_notification_if_needed, push_window_allows,
    _add_extended_data_to_report, _add_ai_analysis_to_report, _get_mode_strategy.
  cbv zeta.
  destruct (ENABLE_NOTIFICATION (config self)) eqn:Henable,
           (_has_notification_configured self) eqn:Hconfigured,
           (_has_valid_content self stats new_titles) eqn:Hvalid;
    destruct (ENABLED (PUSH_WINDOW (config self))) eqn:Hwindow,
             (ONCE_PER_DAY (PUSH_WINDOW (config self))) eqn:Honce.
  all: run.
  all: store_leaf.
Qed.

Local Ltac store_step cfg :=
  match goal with
  | |- always _ (let _ := _ in _) _ => cbv zeta
  | |- always _ (_send_notification_if_needed _ _ _ _ _ _ _ _) _ =>
      eapply always_weaken; [|apply send_notification_store_always];
      intros ? ? [? _]; assumption
  | |- always _ (_load_analysis_data _ _) _ =>
      eapply always_weaken; [|apply load_analysis_data_quiet];
      intros ? ?; apply quiet_push_store_used
  | |- always _ (_run_analysis_pipeline _ _ _ _ _ _ _ _ _ _ _ _) _ =>
      eapply always_weaken; [|apply run_analysis_pipeline_quiet];
      intros ? ?; apply quiet_push_store_used
  | |- always _ (_generate_summary_html _ _) _ =>
      eapply always_weaken; [|apply generate_summary_html_quiet];
      intros ? ?; apply quiet_push_store_used
  | |- always _ (show_report _ _ _) _ =>
      eapply always_weaken; [|apply show_report_quiet];
      intros ? ?; apply quiet_push_store_used
  | |- always _ (bind _ _) _ =>
      apply (always_seq _ (push_store_used cfg) (push_store_used cfg)
                        (push_store_used cfg));
      [auto | apply push_store_used_app | | intros ?]
  | |- always _ (call _) _ =>
      apply (always_call _ (push_store_used cfg)); intros;
      apply quiet_push_store_used; reflexivity
  | |- always _ (say _) _ =>
      apply (always_say _ (push_store_used cfg));
      apply quiet_push_store_used; reflexivity
  | |- always _ (ret _) _ =>
      apply (always_done _ (push_store_used cfg));
      apply quiet_push_store_used; reflexivity
  | |- always _ (raise _) _ =>
      apply (always_done _ (push_store_used cfg));
      apply quiet_push_store_used; reflexivity
  | |- always _ (Done _) _ =>
      apply (always_done _ (push_store_used cfg));
      apply quiet_push_store_used; reflexivity
  | |- always _ (when ?b _) _ => unfold when; destruct b
  | |- always _ (if ?b then _ else _) _ => destruct b
  | |- always _ (match ?x with _ => _ end) _ => destruct x
  end.

Lemma cycle_store_always (self : Analyzer) (results : Results)
    (id_to_name : Dict.t string) (failed_ids : list string) :
  always any_answer (cycle self results id_to_name failed_ids)
    (fun tr _ => push_store_used (config self) tr).
Proof.
  unfold cycle, _get_mode_strategy, _execute_mode_strategy, realtime_phase,
    summary_phase, _generate_summary_report.
  repeat store_step (config self).
Qed.

(** ** The claims about the push store *)



(** With the push window disabled the store is never asked, whatever
    once-per-day says and whatever was pushed today, and the report goes
    out (spec, section 4.3). *)
Example disabled_window_never_asks_the_store :
  let window := mkPushWindow false true "08:00" "20:00" in
  let self := sample_analyzer "daily" window in
  let w := sample_world (fun _ => one_match) ["当日汇总"] (Ret [("feishu", true)]) in
  let tr := trace_of scripted_ctx (cycle self sample_titles [("s1", "Source One")] []) w in
  pushed_answers tr = [] /\
  dispatches tr = [("当日汇总", Ret [("feishu", true)])].
Proof. vm_compute. split; reflexivity. Qed.

(** C6 (as the code has it). With the push window enabled and
    once-per-day set, every dispatch that reached a channel is followed
    by the creation of a push manager and, unless a creation of the push
    manager raised, by the record of the push under the report type of
    that dispatch: the realtime report type when the strategy sends
    realtime, the summary report type otherwise. When the creation
    raises, the step records nothing and raises. Without once-per-day,
    or with the window disabled, nothing is recorded. *)
Theorem success_is_recorded
    (W : Type) (h : Handler CtxOp W) (w : W) (self : Analyzer)
    (results : Results) (id_to_name : Dict.t string) (failed_ids : list string)
    (stats : list Stat) (report_type mode : string) (failed : option (list string))
    (new_titles : option NewTitles) (names : option (Dict.t string))
    (html_file_path : option string) :
  let strategy := dict_get_default MODE_STRATEGIES (report_mode self) daily_strategy in
  let send := _send_notification_if_needed self stats report_type mode
                failed new_titles names html_file_path in
  let whole := trace_of h (cycle self results id_to_name failed_ids) w in
  let step := trace_of h send w in
  (ENABLED (PUSH_WINDOW (config self)) = true ->
   ONCE_PER_DAY (PUSH_WINDOW (config self)) = true ->
   (managers_created step = true ->
    forall rt a, In (rt, a) (dispatches step) -> delivered a = true ->
                 rt = report_type /\ recorded step = [report_type]) /\
   (managers_created whole = true ->
    forall rt a, In (rt, a) (dispatches whole) -> delivered a = true ->
                 rt = pushed_report_type strategy /\
                 recorded whole = [pushed_report_type strategy]) /\
   (forall e, In (Raise e) (manager_answers step) ->
              recorded step = [] /\ result_of h send w = Raise e)) /\
  (ENABLED (PUSH_WINDOW (config self)) && ONCE_PER_DAY (PUSH_WINDOW (config self)) = false ->
   recorded step = [] /\ recorded whole = []).
Proof.
  intros strategy send whole step.
  pose proof (run_covered h w
                (send_notification_always self stats report_type mode failed
                   new_titles names html_file_path)) as Hstep.
  apply send_post_one_push in Hstep. fold send step in Hstep.
  pose proof (run_covered h w (cycle_always self results id_to_name failed_ids)) as Hwhole.
  fold strategy whole in Hwhole.
  destruct (run_covered h w
              (send_notification_store_always self stats report_type mode failed
                 new_titles names html_file_path)) as [[_ Sstep] [_ Sraise]].
  fold send step in Sstep, Sraise.
  destruct (run_covered h w (cycle_store_always self results id_to_name failed_ids))
    as [_ Swhole].
  fold whole in Swhole.
  assert (Hgen : forall rt0 tr,
             one_push_of self rt0 tr -> delivered_is_recorded (config self) tr ->
             (ENABLED (PUSH_WINDOW (config self)) = true ->
              ONCE_PER_DAY (PUSH_WINDOW (config self)) = true ->
              managers_created tr = true ->
              forall rt a, In (rt, a) (dispatches tr) -> delivered a = true ->
                           rt = rt0 /\ recorded tr = [rt0]) /\
             (ENABLED (PUSH_WINDOW (config self))
              && ONCE_PER_DAY (PUSH_WINDOW (config self)) = false ->
              recorded tr = [])).
  { intros rt0 tr [Hd [Hr _]] Hrec. split.
    - intros Hwin Honce Hm rt a Hin Hdel.
      pose proof (Hrec Hwin Honce Hm rt a Hin Hdel) as Hlisted.
      destruct Hd as [Hd|[a0 Hd]]; rewrite Hd in Hin; simpl in Hin; [contradiction|].
      destruct Hin as [Heq|[]]. injection Heq as <- <-.
      split; [reflexivity|].
      destruct Hr as [Hr|[Hr _]]; [rewrite Hr in Hlisted; destruct Hlisted|exact Hr].
    - intros Hoff. destruct Hr as [Hr|[_ [Hwin [Honce _]]]]; [exact Hr|].
      rewrite Hwin, Honce in Hoff. discriminate. }
  destruct (Hgen _ _ Hstep Sstep) as [S1 S2].
  destruct (Hgen _ _ Hwhole Swhole) as [W1 W2].
  split.
  - intros Hwin Honce. split; [|split].
    + intros Hm. apply S1; assumption.
    + intros Hm. apply W1; assumption.
    + exact Sraise.
  - intros Hoff. split; [apply S2|apply W2]; exact Hoff.
Qed.

(** Scenario A of the spec with once-per-day: the incremental push goes
    out and is recorded under the realtime report type. *)
Lemma success_is_recorded_witness :
  recorded
    (trace_of scripted_ctx
       (cycle (sample_analyzer "incremental" once_a_day) sample_titles
              [("s1", "Source One")] [])
       (sample_world (fun _ => one_match) [] (Ret [("feishu", true)])))
  = ["实时增量"].
Proof.
  destruct (@success_is_recorded World scripted_ctx
              (sample_world (fun _ => one_match) [] (Ret [("feishu", true)]))
              (sample_analyzer "incremental" once_a_day)
              sample_titles [("s1", "Source One")] []
              one_match "实时增量" "incremental" None None None None)
    as [Hon _].
  destruct (Hon eq_refl eq_refl) as [_ [Hwhole _]].
  apply (Hwhole eq_refl "实时增量" (Ret [("feishu", true)])).
  - vm_compute. left. reflexivity.
  - reflexivity.
Defined.

(** C6 as stated fails when the window is enabled without once-per-day:
    the dispatch succeeds on a channel and nothing is recorded. *)
Lemma success_not_recorded_counterexample :
  let window := mkPushWindow true false "08:00" "20:00" in
  let self := sample_analyzer "incremental" window in
  let w := sample_world (fun _ => one_match) [] (Ret [("feishu", true)]) in
  let tr := trace_of scripted_ctx (cycle self sample_titles [("s1", "Source One")] []) w in
  ENABLED (PUSH_WINDOW (config self)) = true /\
  clean tr = true /\
  dispatches tr = [("实时增量", Ret [("feishu", true)])] /\
  any_success [("feishu", true)] = true /\
  recorded tr = [].
Proof. vm_compute. repeat split; reflexivity. Qed.

(** The two sides of the exception of C6. The push manager of the record
    cannot be created: the dispatch reached a channel, nothing is
    recorded and the step raises. The AI analysis raises instead, which
    the step catches: the push is recorded. *)
Example record_needs_a_push_manager :
  let self := sample_analyzer "incremental" once_a_day in
  let w := sample_world (fun _ => one_match) [] (Ret [("feishu", true)]) in
  let send := _send_notification_if_needed self one_match "实时增量" "incremental"
                None (Some sample_titles) None None in
  (dispatches (trace_of flaky_manager_ctx send (0%nat, w))
   = [("实时增量", Ret [("feishu", true)])] /\
   recorded (trace_of flaky_manager_ctx send (0%nat, w)) = [] /\
   result_of flaky_manager_ctx send (0%nat, w) = Raise (OtherException "disk full")) /\
  (clean (trace_of failing_extras_ctx send w) = false /\
   managers_created (trace_of failing_extras_ctx send w) = true /\
   recorded (trace_of failing_extras_ctx send w) = ["实时增量"]).
Proof. vm_compute. repeat split; reflexivity. Qed.

(** ** The claims about a whole cycle *)

Lemma current_mode_abort_always (self : Analyzer) (results : Results)
    (id_to_name : Dict.t string) (failed_ids : list string) :
  report_mode self = "current" ->
  always any_answer (cycle self results id_to_name failed_ids)
    (fun tr r =>
       first_load_failed tr = true ->
       r = Raise consistency_error /\
       (exists a, history_answers tr = [a]) /\
       dispatches tr = [] /\ prepared_inputs tr = [] /\ recorded tr = [] /\
       frequency_answers tr = [] /\ generated tr = []).
Proof.
  intros Hmode.
  unfold cycle, _get_mode_strategy, _execute_mode_strategy, realtime_phase,
    _load_analysis_data.
  rewrite Hmode. cbv zeta. simpl.
  intros [nt|e] _; simpl; [|intros Hf; discriminate Hf].
  intros [time_info|e] _; simpl; [|intros Hf; discriminate Hf].
  destruct (STORAGE_FORMATS_TXT (config self)); simpl.
  1: intros [title_file|e] _; simpl; [|intros Hf; discriminate Hf].
  all: intros [[[wg fw] gf]|e] _; simpl; [|intros Hf; discriminate Hf].
  all: intros [[[hist idn] ti]|e] _; simpl.
  all: try (destruct (Dict.truthy hist) eqn:Htruthy; simpl).
  all: try (intros [nt2|e2] _; simpl).
  all: try (intros [[[wg2 fw2] gf2]|e3] _; simpl).
  all: try (intros ? _; eapply always_weaken; [|apply always_true];
            intros tr r _ Hf; unfold first_load_failed in Hf; simpl in Hf;
            rewrite ?Htruthy in Hf; simpl in Hf; discriminate Hf).
  all: intros _; repeat split; try reflexivity; eexists; reflexivity.
Qed.

(** C3. In current mode, when the analysis-data load that reads back the
    history just written yields nothing (the history read raises or
    comes back empty, or the read of the new titles or of the frequency
    words that follows raises), the cycle raises the consistency error
    to its caller. Nothing was classified, no report was written,
    prepared, dispatched or recorded, and the history is not read a
    second time. *)
Theorem current_mode_unreadable_history_aborts
    (W : Type) (h : Handler CtxOp W) (w : W) (self : Analyzer)
    (results : Results) (id_to_name : Dict.t string) (failed_ids : list string) :
  report_mode self = "current" ->
  let tr := trace_of h (cycle self results id_to_name failed_ids) w in
  first_load_failed tr = true ->
  result_of h (cycle self results id_to_name failed_ids) w = Raise consistency_error /\
  (exists a, history_answers tr = [a]) /\
  dispatches tr = [] /\ prepared_inputs tr = [] /\ recorded tr = [] /\
  frequency_answers tr = [] /\ generated tr = [].
Proof.
  intros Hmode tr.
  exact (run_covered h w (current_mode_abort_always self results id_to_name failed_ids Hmode)).
Qed.

(** Scenario C of the spec: the history read-back returns empty. *)
Lemma current_mode_unreadable_history_aborts_witness :
  let w := mkWorld (Ret ([], [], [])) sample_titles (fun _ => one_match) true []
                   (Ret [("feishu", true)]) in
  let run := cycle (sample_analyzer "current" quiet_window) sample_titles
                   [("s1", "Source One")] [] in
  result_of scripted_ctx run w = Raise consistency_error /\
  dispatches (trace_of scripted_ctx run w) = [].
Proof.
  intros w run.
  destruct (@current_mode_unreadable_history_aborts World scripted_ctx w
              (sample_analyzer "current" quiet_window) sample_titles
              [("s1", "Source One")] [] eq_refl eq_refl)
    as [Hr [_ [Hd _]]].
  split; assumption.
Defined.

(** The history is read back, but the read of the new titles inside the
    load raises: the cycle aborts in the same way. *)
Example current_mode_failed_load_aborts :
  let w := sample_world (fun _ => one_match) [] (Ret [("feishu", true)]) in
  let run := cycle (sample_analyzer "current" quiet_window) sample_titles
                   [("s1", "Source One")] [] in
  let tr := trace_of flaky_detector_ctx run (0%nat, w) in
  option_map unreadable (hd_error (history_answers tr)) = Some false /\
  first_load_failed tr = true /\
  result_of flaky_detector_ctx run (0%nat, w) = Raise consistency_error /\
  dispatches tr = [] /\ generated tr = [].
Proof. vm_compute. repeat split; reflexivity. Qed.










(** ** Version texts and the update check *)

(** *** Decimal texts of integers *)

Lemma digits_of_uint_acc (d : Decimal.uint) (p : positive) :
  PyStr.digits (Zpos p) true (NilEmpty.string_of_uint d)
  = Some (Zpos (Pos.of_uint_acc d p)).
Proof.
  revert p. induction d; intros p; [reflexivity| ..];
    cbn [NilEmpty.string_of_uint PyStr.digits Pos.of_uint_acc];
    match goal with
    | |- (if PyStr.is_digit ?c then _ else _) = _ =>
        change (PyStr.is_digit c) with true; cbv iota
    end;
    rewrite <- IHd; f_equal; unfold PyStr.digit_value; simpl Z.of_N; lia.
Qed.

Lemma digits_of_uint (d : Decimal.uint) :
  PyStr.digits 0 true (NilEmpty.string_of_uint d) = Some (Z.of_uint d).
Proof.
  unfold Z.of_uint. induction d; simpl; try reflexivity; try exact IHd;
    apply digits_of_uint_acc.
Qed.

Lemma uint_string_digits (d : Decimal.uint) :
  all_chars PyStr.is_digit (NilEmpty.string_of_uint d) = true.
Proof. induction d; simpl; auto. Qed.

Lemma digit_not_space (c : ascii) : PyStr.is_digit c = true -> PyStr.isspace c = false.
Proof.
  destruct c as [[|] [|] [|] [|] [|] [|] [|] [|]]; vm_compute; congruence.
Qed.

Lemma lstrip_no_space (s : string) :
  all_chars (fun c => negb (PyStr.isspace c)) s = true -> PyStr.lstrip s = s.
Proof.
  destruct s as [|c rest]; simpl; [reflexivity|].
  intros H. apply andb_true_iff in H. destruct H as [Hc _].
  apply negb_true_iff in Hc. rewrite Hc. reflexivity.
Qed.

Lemma rstrip_no_space (s : string) :
  all_chars (fun c => negb (PyStr.isspace c)) s = true -> PyStr.rstrip s = s.
Proof.
  induction s as [|c rest IH]; simpl; [reflexivity|].
  intros H. apply andb_true_iff in H. destruct H as [Hc Hrest].
  apply negb_true_iff in Hc. rewrite (IH Hrest), Hc.
  destruct rest; reflexivity.
Qed.

Lemma strip_no_space (s : string) :
  all_chars (fun c => negb (PyStr.isspace c)) s = true -> PyStr.strip s = s.
Proof.
  intros H. unfold PyStr.strip. rewrite (lstrip_no_space _ H). apply rstrip_no_space, H.
Qed.

Lemma all_chars_weaken (p q : ascii -> bool) (s : string) :
  (forall c, p c = true -> q c = true) -> all_chars p s = true -> all_chars q s = true.
Proof.
  intros Hpq. induction s as [|c rest IH]; simpl; [reflexivity|].
  intros H. apply andb_true_iff in H. destruct H as [Hc Hrest].
  rewrite (Hpq _ Hc), (IH Hrest). reflexivity.
Qed.


(** The characters of [str(n)]: digits after an optional minus sign. *)

Lemma of_Z_chars (n : Z) : all_chars version_char (PyStr.of_Z n) = true.
Proof.
  assert (H : forall d, all_chars version_char (NilEmpty.string_of_uint d) = true).
  { intros d. eapply all_chars_weaken; [|apply uint_string_digits].
    intros c Hc. unfold version_char. rewrite Hc. reflexivity. }
  unfold PyStr.of_Z. destruct n; simpl; auto.
Qed.

Lemma version_char_not_space (c : ascii) :
  version_char c = true -> negb (PyStr.isspace c) = true.
Proof.
  destruct c as [[|] [|] [|] [|] [|] [|] [|] [|]]; vm_compute; congruence.
Qed.


(** [int(str(n)) == n], on the ASCII instance. *)
Lemma int_of_Z (n : Z) : PyStr.int (PyStr.of_Z n) = Some n.
Proof.
  unfold PyStr.int.
  rewrite strip_no_space
    by (eapply all_chars_weaken; [exact version_char_not_space|apply of_Z_chars]).
  assert (Hu : forall p, PyStr.digits 0 false (NilEmpty.string_of_uint (Pos.to_uint p))
                         = Some (Zpos p) /\
                         exists c rest, NilEmpty.string_of_uint (Pos.to_uint p) = String c rest
                                        /\ PyStr.is_digit c = true).
  { intros p. pose proof (digits_of_uint (Pos.to_uint p)) as H.
    pose proof (uint_string_digits (Pos.to_uint p)) as Hd.
    pose proof (DecimalPos.Unsigned.to_uint_nonnil p) as Hnil.
    unfold Z.of_uint in H. rewrite DecimalPos.Unsigned.of_to in H. simpl in H.
    destruct (Pos.to_uint p) eqn:E; try congruence; simpl in *;
      (split; [exact H|eauto]). }
  unfold PyStr.of_Z. destruct n as [|p|p]; simpl.
  - reflexivity.
  - destruct (Hu p) as [H [c [rest [Hs Hc]]]]. rewrite Hs in *.
    destruct c as [[|] [|] [|] [|] [|] [|] [|] [|]]; try discriminate Hc; exact H.
  - destruct (Hu p) as [H _]. rewrite H. reflexivity.
Qed.




(** *** White space around a text *)













Lemma tuple_lt_spec (a b : Z * Z * Z) :
  tuple_lt a b = true <->
  let '(a0, a1, a2) := a in
  let '(b0, b1, b2) := b in
  a0 < b0 \/ (a0 = b0 /\ (a1 < b1 \/ (a1 = b1 /\ a2 < b2))).
Proof.
  destruct a as [[a0 a1] a2], b as [[b0 b1] b2]. unfold tuple_lt.
  destruct (Z.eqb_spec a0 b0), (Z.eqb_spec a1 b1);
    rewrite ?Z.ltb_lt; lia.
Qed.

Section VersionOrder.

Variable py_strip : string -> string.
Variable py_int : string -> option Z.

Local Abbreviation parse_version := (parse_version py_strip py_int).
Local Abbreviation check_version_update := (check_version_update py_strip py_int).

Lemma check_version_update_answered
    (W : Type) (h : Handler NetOp W) (w : W) (current url : string)
    (proxy : option string) (response : Response) :
  fst (h _ (requests_get url [] (proxies_of proxy) 10) w) = Ret response ->
  http_error response = false ->
  result_of h (check_version_update current url proxy) w =
  Ret (tuple_lt (parse_version current) (parse_version (py_strip (text response))),
       if tuple_lt (parse_version current) (parse_version (py_strip (text response)))
       then Some (py_strip (text response)) else None).
Proof.
  unfold result_of, check_version_update. simpl.
  destruct (h Response (requests_get url [] (proxies_of proxy) 10) w)
    as [[r|e] w1]; simpl; [|discriminate].
  intros Hr Herr. injection Hr as ->.
  unfold raise_for_status. rewrite Herr. reflexivity.
Qed.

(** X2. The comparison behind an update report is a strict total order
    on version triples, so [check_version_update] reports no update when
    the remote text parses to the current triple, and never reports an
    update in both directions between two versions. This holds whatever
    [strip] and [int] do on the texts. *)
Theorem version_update_is_strict_order :
  (forall a, tuple_lt a a = false) /\
  (forall a b, tuple_lt a b = true -> tuple_lt b a = false) /\
  (forall a b c, tuple_lt a b = true -> tuple_lt b c = true -> tuple_lt a c = true) /\
  (forall a b, a <> b -> tuple_lt a b = true \/ tuple_lt b a = true) /\
  (forall (W : Type) (h : Handler NetOp W) (w : W) current url proxy response,
     fst (h _ (requests_get url [] (proxies_of proxy) 10) w) = Ret response ->
     http_error response = false ->
     parse_version (py_strip (text response)) = parse_version current ->
     result_of h (check_version_update current url proxy) w = Ret (false, None)) /\
  (forall (W : Type) (h : Handler NetOp W) (w w' : W) old new url proxy r1 r2,
     fst (h _ (requests_get url [] (proxies_of proxy) 10) w) = Ret r1 ->
     fst (h _ (requests_get url [] (proxies_of proxy) 10) w') = Ret r2 ->
     http_error r1 = false -> http_error r2 = false ->
     parse_version (py_strip (text r1)) = parse_version new ->
     parse_version (py_strip (text r2)) = parse_version old ->
     fst (match result_of h (check_version_update old url proxy) w with
          | Ret v => v | Raise _ => (false, None) end) = true ->
     result_of h (check_version_update new url proxy) w' = Ret (false, None)).
Proof.
  assert (Hirr : forall a, tuple_lt a a = false).
  { intros a. destruct (tuple_lt a a) eqn:E; [|reflexivity].
    apply tuple_lt_spec in E. destruct a as [[? ?] ?]. lia. }
  assert (Hasym : forall a b, tuple_lt a b = true -> tuple_lt b a = false).
  { intros a b H. destruct (tuple_lt b a) eqn:E; [|reflexivity].
    apply tuple_lt_spec in H, E. destruct a as [[? ?] ?], b as [[? ?] ?]. lia. }
  split; [exact Hirr|]. split; [exact Hasym|]. split; [|split; [|split]].
  - intros a b c H1 H2. apply tuple_lt_spec in H1, H2. apply tuple_lt_spec.
    destruct a as [[? ?] ?], b as [[? ?] ?], c as [[? ?] ?]. lia.
  - intros a b Hne.
    destruct (tuple_lt a b) eqn:E1; [auto|]. right.
    destruct (tuple_lt b a) eqn:E2; [reflexivity|]. exfalso. apply Hne.
    destruct a as [[a0 a1] a2], b as [[b0 b1] b2]. unfold tuple_lt in E1, E2.
    destruct (Z.eqb_spec a0 b0), (Z.eqb_spec b0 a0), (Z.eqb_spec a1 b1), (Z.eqb_spec b1 a1);
      rewrite ?Z.ltb_ge in *; try lia; f_equal; try f_equal; lia.
  - intros W h w current url proxy response Hans Herr Hsame.
    rewrite (check_version_update_answered W h w current url proxy response Hans Herr).
    rewrite Hsame, Hirr. reflexivity.
  - intros W h w w' old new url proxy r1 r2 H1 H2 E1 E2 P1 P2 Hup.
    rewrite (check_version_update_answered W h w old url proxy r1 H1 E1) in Hup.
    simpl in Hup. rewrite P1 in Hup.
    rewrite (check_version_update_answered W h w' new url proxy r2 H2 E2).
    rewrite P2, (Hasym _ _ Hup). reflexivity.
Qed.

(** X3. [_check_version_update] never raises and changes nothing but
    [update_info]. It sets [update_info] to the pair of the current and
    the remote version exactly when the request succeeded, the remote
    triple is above the current one and the remote text is not empty;
    otherwise [update_info] keeps the value it had. This holds whatever
    [strip] and [int] do on the texts. *)
Theorem check_version_update_method
    (W : Type) (h : Handler NetOp W) (w : W) (version url : string) (self : Analyzer) :
  let answer := fst (h _ (requests_get url [] (proxies_of (proxy_url self)) 10) w) in
  exists self',
    result_of h (_check_version_update py_strip py_int version url self) w = Ret self' /\
    config self' = config self /\ report_mode self' = report_mode self /\
    platform_ids self' = platform_ids self /\ proxy_url self' = proxy_url self /\
    is_github_actions self' = is_github_actions self /\
    is_docker_container self' = is_docker_container self /\
    update_info self' =
    match answer with
    | Raise _ => update_info self
    | Ret response =>
        let remote := py_strip (text response) in
        if negb (http_error response)
           && tuple_lt (parse_version version) (parse_version remote)
           && PyStr.truthy remote
        then Some (version, remote)
        else update_info self
    end.
Proof.
  unfold result_of, _check_version_update, check_version_update. simpl.
  destruct (h Response (requests_get url [] (proxies_of (proxy_url self)) 10) w)
    as [[response|e] w1]; simpl.
  - unfold raise_for_status. destruct (http_error response); simpl.
    + exists self. repeat split; reflexivity.
    + destruct (tuple_lt (parse_version version)
                         (parse_version (py_strip (text response)))); simpl.
      * destruct (PyStr.truthy (py_strip (text response))); simpl;
          eexists; repeat split; reflexivity.
      * exists self. repeat split; reflexivity.
  - exists self. repeat split; reflexivity.
Qed.

End VersionOrder.

Lemma version_update_is_strict_order_witness :
  result_of scripted_net
            (check_version_update PyStr.strip PyStr.int
               "3.5.0" "https://example.org/version" None)
            [ok_response " 3.5.0
"]
  = Ret (false, None).
Proof.
  destruct (version_update_is_strict_order PyStr.strip PyStr.int)
    as [_ [_ [_ [_ [Hsame _]]]]].
  apply (Hsame _ scripted_net
               [ok_response " 3.5.0
"] "3.5.0" "https://example.org/version" None
               (mkResponse 200 " 3.5.0
" None)); reflexivity.
Defined.

(** ** Title info of a crawl and configured stock names *)

Lemma dict_get_map {V U} (g : string * V -> U) (k : string) (d : Dict.t V) :
  Dict.get k (map (fun item => (fst item, g item)) d) =
  match Dict.get k d with Some v => Some (g (k, v)) | None => None end.
Proof.
  induction d as [|[k' v'] d IH]; simpl; [reflexivity|].
  destruct (String.eqb k k') eqn:E; [|exact IH].
  apply String.eqb_eq in E. subst. reflexivity.
Qed.

Lemma dict_keys_map {V U} (g : string * V -> U) (d : Dict.t V) :
  Dict.keys (map (fun item => (fst item, g item)) d) = Dict.keys d.
Proof. unfold Dict.keys. rewrite map_map. reflexivity. Qed.

(** X4. The title info built from a crawl has the crawl's sources and,
    under each source, the crawl's titles, in the same order. Every title
    is entered as seen once, first and last at the crawl time, with the
    ranks and links of the crawl and [[]] or the empty text where the
    crawl has none. *)
Theorem prepare_current_title_info_lookup (results : Results) (time_info : string) :
  let title_info := _prepare_current_title_info results time_info in
  Dict.keys title_info = Dict.keys results /\
  (forall source_id, Dict.get source_id results = None ->
     Dict.get source_id title_info = None) /\
  (forall source_id titles, Dict.get source_id results = Some titles ->
     exists infos,
       Dict.get source_id title_info = Some infos /\
       Dict.keys infos = Dict.keys titles /\
       (forall title, Dict.get title titles = None -> Dict.get title infos = None) /\
       (forall title data, Dict.get title titles = Some data ->
          Dict.get title infos =
          Some (mkTitleInfoEntry time_info time_info 1
                  (match crawl_ranks data with Some r => r | None => [] end)
                  (match crawl_url data with Some u => u | None => "" end)
                  (match crawl_mobileUrl data with Some u => u | None => "" end)))).
Proof.
  cbv zeta. unfold _prepare_current_title_info, Dict.items.
  split; [apply dict_keys_map|]. split.
  - intros source_id Hnone. rewrite dict_get_map, Hnone. reflexivity.
  - intros source_id titles Hget. rewrite dict_get_map, Hget.
    eexists. split; [reflexivity|]. cbn [snd]. split; [apply dict_keys_map|]. split.
    + intros title Hnone. rewrite dict_get_map, Hnone. reflexivity.
    + intros title data Hdata. rewrite dict_get_map, Hdata. reflexivity.
Qed.

Lemma prepare_current_title_info_lookup_witness :
  exists infos,
    Dict.get "s1" (_prepare_current_title_info sample_titles "09:00") = Some infos /\
    Dict.get "t2" infos = Some (mkTitleInfoEntry "09:00" "09:00" 1 [2] "" "").
Proof.
  destruct (prepare_current_title_info_lookup sample_titles "09:00") as [_ [_ H]].
  destruct (H "s1" _ eq_refl) as [infos [Hinfos [_ [_ Hentry]]]].
  exists infos. split; [exact Hinfos|]. apply (Hentry "t2" _ eq_refl).
Defined.

Lemma dict_set_set {V} (k : string) (v v' : V) (d : Dict.t V) :
  Dict.set k v (Dict.set k v' d) = Dict.set k v d.
Proof.
  induction d as [|[k0 v0] d IH]; simpl.
  - rewrite String.eqb_refl. reflexivity.
  - destruct (String.eqb k k0) eqn:E; simpl; rewrite E; [reflexivity|].
    rewrite IH. reflexivity.
Qed.

(** X5. Adding the configured stock names leaves the crypto and Twitter
    data and the list of stock symbols as they are. A symbol that is not
    configured keeps its data; a configured one gets the configured name
    under ["name"] (the symbol itself when the configuration gives no
    name) and keeps every other field. Adding the names twice is the same
    as adding them once. *)
Theorem add_stock_names_effect (stock_config : Dict.t (Dict.t string)) (ext : ExtData) :
  let named := add_stock_names stock_config ext in
  ext_crypto named = ext_crypto ext /\
  ext_twitter named = ext_twitter ext /\
  Dict.keys (ext_stock named) = Dict.keys (ext_stock ext) /\
  (forall symbol data, Dict.get symbol (ext_stock ext) = Some data ->
     exists data',
       Dict.get symbol (ext_stock named) = Some data' /\
       match Dict.get symbol stock_config with
       | None => data' = data
       | Some entry =>
           Dict.get "name" data' = Some (dict_get_default entry "name" symbol) /\
           (forall field, field <> "name" -> Dict.get field data' = Dict.get field data)
       end) /\
  add_stock_names stock_config named = named.
Proof.
  cbv zeta. unfold add_stock_names. cbn [ext_crypto ext_stock ext_twitter].
  split; [reflexivity|]. split; [reflexivity|]. split; [|split].
  - unfold Dict.keys. rewrite map_map. apply map_ext.
    intros [symbol data]. cbn [fst]. destruct (Dict.get symbol stock_config); reflexivity.
  - intros symbol data Hget.
    assert (Hlook : forall d : Dict.t (Dict.t string),
               Dict.get symbol
                 (map (fun item =>
                         match Dict.get (fst item) stock_config with
                         | Some entry =>
                             (fst item,
                              Dict.set "name" (dict_get_default entry "name" (fst item))
                                       (snd item))
                         | None => item
                         end) d) =
               match Dict.get symbol d with
               | Some v =>
                   Some match Dict.get symbol stock_config with
                        | Some entry =>
                            Dict.set "name" (dict_get_default entry "name" symbol) v
                        | None => v
                        end
               | None => None
               end).
    { induction d as [|[k v] d IH]; simpl; [reflexivity|].
      destruct (String.eqb symbol k) eqn:E.
      - apply String.eqb_eq in E. subst k.
        destruct (Dict.get symbol stock_config); simpl;
          rewrite String.eqb_refl; reflexivity.
      - destruct (Dict.get k stock_config); simpl; rewrite E; exact IH. }
    rewrite Hlook, Hget. eexists. split; [reflexivity|].
    destruct (Dict.get symbol stock_config) as [entry|]; [|reflexivity].
    split; [apply dict_get_set_same|].
    intros field Hne. apply dict_get_set_other. exact Hne.
  - f_equal. rewrite map_map. apply map_ext. intros [symbol data]. cbn [fst snd].
    destruct (Dict.get symbol stock_config) as [entry|] eqn:E; cbn [fst snd];
      rewrite E; [|reflexivity].
    rewrite dict_set_set. reflexivity.
Qed.

Lemma add_stock_names_effect_witness :
  exists data',
    Dict.get "AAPL"
      (ext_stock (add_stock_names [("AAPL", [("name", "Apple")])]
                    (mkExtData [] [("AAPL", [("price", "190.5"); ("name", "AAPL")])] [])))
    = Some data' /\
    Dict.get "name" data' = Some "Apple" /\
    Dict.get "price" data' = Some "190.5".
Proof.
  destruct (add_stock_names_effect [("AAPL", [("name", "Apple")])]
              (mkExtData [] [("AAPL", [("price", "190.5"); ("name", "AAPL")])] []))
    as [_ [_ [_ [H _]]]].
  destruct (H "AAPL" _ eq_refl) as [data' [Hget Hdata]].
  exists data'. split; [exact Hget|]. simpl in Hdata. destruct Hdata as [Hname Hother].
  split; [exact Hname|]. rewrite Hother; [reflexivity|discriminate].
Defined.
(** ** More on the notification step *)

Local Ltac finish_send :=
  repeat match goal with
         | H : exists _, _ |- _ => destruct H
         | H : _ /\ _ |- _ => destruct H
         end;
  try discriminate;
  try congruence;
  try solve [ eexists; split; [reflexivity|]; intros ->; discriminate ];
  try solve [ do 3 eexists; repeat split; try reflexivity;
              unfold extended_of, analysis_of, with_stock_names; simpl;
              repeat match goal with H : Dict.truthy _ = _ |- _ => rewrite H end;
              reflexivity ].

Lemma send_notification_result_always (self : Analyzer) (stats : list Stat)
    (report_type mode : string) (failed_ids : option (list string))
    (new_titles : option NewTitles) (id_to_name : option (Dict.t string))
    (html_file_path : option string) :
  always any_answer
    (_send_notification_if_needed self stats report_type mode failed_ids
       new_titles id_to_name html_file_path)
    (send_result_post self stats report_type new_titles).
Proof.
  unfold _send_notification_if_needed, send_result_post, send_gate, push_window_allows,
    _add_extended_data_to_report, _add_ai_analysis_to_report, _get_mode_strategy,
    throttle_passed.
  cbv zeta.
  destruct (ENABLE_NOTIFICATION (config self)) eqn:Henable,
           (_has_notification_configured self) eqn:Hconfigured,
           (_has_valid_content self stats new_titles) eqn:Hvalid;
    destruct (ENABLED (PUSH_WINDOW (config self))) eqn:Hwindow,
             (ONCE_PER_DAY (PUSH_WINDOW (config self))) eqn:Honce.
  all: run.
  all: close_leaf.
  all: finish_send.
Qed.
(** X6. The notification step answers [True] exactly when the dispatcher
    was called and returned a non-empty outcome, whether or not any
    channel in it succeeded (no collaborator raising). *)
Theorem send_notification_true_iff_dispatched
    (W : Type) (h : Handler CtxOp W) (w : W) (self : Analyzer) (stats : list Stat)
    (report_type mode : string) (failed_ids : option (list string))
    (new_titles : option NewTitles) (id_to_name : option (Dict.t string))
    (html_file_path : option string) :
  let send := _send_notification_if_needed self stats report_type mode failed_ids
                new_titles id_to_name html_file_path in
  clean (trace_of h send w) = true ->
  (result_of h send w = Ret true <->
   exists results,
     dispatches (trace_of h send w) = [(report_type, Ret results)] /\ results <> []).
Proof.
  intros send.
  destruct (run_covered h w
              (send_notification_result_always self stats report_type mode failed_ids
                 new_titles id_to_name html_file_path)) as [H _].
  exact H.
Qed.

(** Scenario: the only channel fails; the step still answers [True]. *)
Lemma send_notification_true_iff_dispatched_witness :
  result_of scripted_ctx
    (_send_notification_if_needed (sample_analyzer "daily" quiet_window) one_match
       "当日汇总" "daily" None None None None)
    (sample_world (fun _ => one_match) [] (Ret [("feishu", false)]))
  = Ret true.
Proof.
  apply (send_notification_true_iff_dispatched World scripted_ctx
           (sample_world (fun _ => one_match) [] (Ret [("feishu", false)]))
           (sample_analyzer "daily" quiet_window) one_match
           "当日汇总" "daily" None None None None).
  - reflexivity.
  - exists [("feishu", false)]. split; [reflexivity|discriminate].
Defined.



(** X8. A failure of the extended-data query or of the AI analysis does
    not stop a push. When the gate holds, the throttle lets the push
    through and no other collaborator raises, the step prepares one
    report, from its statistics and new titles, asks the store and the
    analysis once each and dispatches exactly one report: the one
    [prepare_report] answered with, with the stored extended data (stock
    names added) or [None] when the store raised or had none, and with
    the text of the analysis or [None] when the analysis raised or gave
    nothing. *)
Theorem failing_extras_do_not_stop_push
    (W : Type) (h : Handler CtxOp W) (w : W) (self : Analyzer) (stats : list Stat)
    (report_type mode : string) (failed_ids : option (list string))
    (new_titles : option NewTitles) (id_to_name : option (Dict.t string))
    (html_file_path : option string) :
  let send := _send_notification_if_needed self stats report_type mode failed_ids
                new_titles id_to_name html_file_path in
  let tr := trace_of h send w in
  clean_but_extras tr = true ->
  send_gate self stats new_titles = true ->
  throttle_passed (config self) tr ->
  exists base stored analysed,
    prepared_inputs tr = [(stats, new_titles)] /\
    prepared_answers tr = [Ret base] /\
    extended_answers tr = [stored] /\ ai_answers tr = [analysed] /\
    dispatched_reports tr =
      [mkReportData base (extended_of self stored) (analysis_of analysed)].
Proof.
  intros send tr.
  destruct (run_covered h w
              (send_notification_result_always self stats report_type mode failed_ids
                 new_titles id_to_name html_file_path)) as [_ [_ H]].
  exact H.
Qed.

(** Scenario: the store and the AI analysis both raise; the report goes
    out without them. *)
Lemma failing_extras_do_not_stop_push_witness :
  dispatched_reports
    (trace_of failing_extras_ctx
       (_send_notification_if_needed (sample_analyzer "daily" quiet_window) one_match
          "当日汇总" "daily" None None None None)
       (sample_world (fun _ => one_match) [] (Ret [("feishu", true)])))
  = [mkReportData [] None None].
Proof.
  destruct (failing_extras_do_not_stop_push World failing_extras_ctx
              (sample_world (fun _ => one_match) [] (Ret [("feishu", true)]))
              (sample_analyzer "daily" quiet_window) one_match
              "当日汇总" "daily" None None None None)
    as [base [stored [analysed [Hi [Hb [Hs [Ha Hd]]]]]]];
    [reflexivity|reflexivity|left; reflexivity|].
  vm_compute in Hb, Hs, Ha.
  injection Hb as <-. injection Hs as <-. injection Ha as <-. exact Hd.
Defined.

(** ** Loading the day's data *)

Lemma load_analysis_data_result_always (self : Analyzer) (quiet_flag : bool) :
  always any_answer (_load_analysis_data self quiet_flag)
    (fun tr r =>
       exists loaded, r = Ret loaded /\
         match loaded with
         | Some d =>
             clean tr = true /\
             history_answers tr =
               [Ret (all_results d, data_id_to_name d, data_title_info d)] /\
             all_results d <> []
         | None =>
             clean tr = false \/
             exists a, history_answers tr = [a] /\ unreadable a = true
         end).
Proof.
  unfold _load_analysis_data, when. cbv zeta.
  destruct quiet_flag; run;
    repeat match goal with
           | |- context [let '(_, _) := ?x in _] => destruct x
           end;
    run;
    eexists; (split; [reflexivity|]); simpl;
    try solve [left; reflexivity];
    try solve [right; eexists; split; [reflexivity|]; simpl;
               match goal with H : negb _ = true |- _ => exact H end];
    try solve [repeat split; try reflexivity;
               match goal with
               | H : negb (Dict.truthy ?d) = false |- ?d <> [] =>
                   intros ->; discriminate H
               end].
Qed.

(** X9. [_load_analysis_data] never raises. It returns the day's data
    only when the history, the new titles and the frequency words were
    all read without an exception and the history is not empty; the data
    it returns then is the history as read. It returns [None] when one of
    the three reads raised or the history came back empty. *)
Theorem load_analysis_data_result
    (W : Type) (h : Handler CtxOp W) (w : W) (self : Analyzer) (quiet_flag : bool) :
  let tr := trace_of h (_load_analysis_data self quiet_flag) w in
  exists loaded,
    result_of h (_load_analysis_data self quiet_flag) w = Ret loaded /\
    match loaded with
    | Some d =>
        clean tr = true /\
        history_answers tr =
          [Ret (all_results d, data_id_to_name d, data_title_info d)] /\
        all_results d <> []
    | None =>
        clean tr = false \/ exists a, history_answers tr = [a] /\ unreadable a = true
    end.
Proof.
  exact (run_covered h w (load_analysis_data_result_always self quiet_flag)).
Qed.
(** ** The browser *)

Lemma opened_app (t1 t2 : Trace CtxOp) :
  opened (t1 ++ t2)%list = (opened t1 ++ opened t2)%list.
Proof. apply flat_map_app. Qed.

Lemma unopened_app (t1 t2 : Trace CtxOp) :
  opened t1 = [] -> opened t2 = [] -> opened (t1 ++ t2)%list = [].
Proof. intros H1 H2. rewrite opened_app, H1, H2. reflexivity. Qed.

Local Ltac unopened_step :=
  match goal with
  | |- always _ (let _ := _ in _) _ => cbv zeta
  | |- always _ (bind _ _) _ =>
      apply (always_seq _ (fun tr => opened tr = []) (fun tr => opened tr = [])
                        (fun tr => opened tr = []));
      [auto | exact unopened_app | | intros ?]
  | |- always _ (try_except _ _) _ =>
      apply (always_try_seq _ (fun tr => opened tr = []) (fun tr => opened tr = [])
                            (fun tr => opened tr = []));
      [auto | exact unopened_app | | intros ?]
  | |- always _ (call _) _ =>
      apply (always_call _ (fun tr => opened tr = [])); intros; reflexivity
  | |- always _ (say _) _ =>
      apply (always_say _ (fun tr => opened tr = [])); reflexivity
  | |- always _ (ret _) _ =>
      apply (always_done _ (fun tr => opened tr = [])); reflexivity
  | |- always _ (raise _) _ =>
      apply (always_done _ (fun tr => opened tr = [])); reflexivity
  | |- always _ (Done _) _ =>
      apply (always_done _ (fun tr => opened tr = [])); reflexivity
  | |- always _ (when ?b _) _ => unfold when; destruct b
  | |- always _ (if ?b then _ else _) _ => destruct b
  | |- always _ (match ?x with _ => _ end) _ => destruct x
  end.

Lemma load_analysis_data_unopened C (self : Analyzer) (quiet_flag : bool) :
  always C (_load_analysis_data self quiet_flag) (fun tr _ => opened tr = []).
Proof. unfold _load_analysis_data. repeat unopened_step. Qed.

Lemma run_analysis_pipeline_unopened C self data_source mode title_info new_titles
      word_groups filter_words id_to_name failed_ids is_daily_summary global_filters q :
  always C (_run_analysis_pipeline self data_source mode title_info new_titles
              word_groups filter_words id_to_name failed_ids is_daily_summary
              global_filters q)
         (fun tr _ => opened tr = []).
Proof. unfold _run_analysis_pipeline. repeat unopened_step. Qed.

Lemma send_notification_unopened C self stats report_type mode failed_ids new_titles
      id_to_name html_file_path :
  always C (_send_notification_if_needed self stats report_type mode failed_ids
              new_titles id_to_name html_file_path)
         (fun tr _ => opened tr = []).
Proof.
  unfold _send_notification_if_needed, push_window_allows, _add_extended_data_to_report,
    _add_ai_analysis_to_report, _get_mode_strategy.
  repeat unopened_step.
Qed.

Local Ltac all_unopened :=
  repeat first [ apply load_analysis_data_unopened
               | apply run_analysis_pipeline_unopened
               | apply send_notification_unopened
               | unopened_step ].

Lemma realtime_phase_unopened C self strategy results id_to_name failed_ids :
  always C (realtime_phase self strategy results id_to_name failed_ids)
         (fun tr _ => opened tr = []).
Proof. unfold realtime_phase. all_unopened. Qed.

Lemma summary_phase_unopened C self strategy :
  always C (summary_phase self strategy) (fun tr _ => opened tr = []).
Proof.
  unfold summary_phase, _generate_summary_html, _generate_summary_report. all_unopened.
Qed.

Lemma show_report_opened C self html_file summary_html :
  always C (show_report self html_file summary_html)
    (fun tr _ =>
       (List.length (opened tr) <= 1)%nat /\
       (is_github_actions self = true \/ is_docker_container self = true \/
        truthy_path html_file = false -> opened tr = [])).
Proof.
  unfold show_report, _should_open_browser. cbv zeta.
  destruct (is_github_actions self), (is_docker_container self),
           (truthy_path html_file), (truthy_path summary_html); simpl;
    repeat match goal with
           | |- forall x, _ -> _ => intros [?|?] _; simpl
           end;
    (split; [auto|]); try reflexivity;
    intros [H|[H|H]]; discriminate.
Qed.

(** X10. A cycle opens the browser at most once, and never when it runs
    in GitHub Actions or in a Docker container. *)
Theorem browser_only_on_a_desktop
    (W : Type) (h : Handler CtxOp W) (w : W) (self : Analyzer) (results : Results)
    (id_to_name : Dict.t string) (failed_ids : list string) :
  let tr := trace_of h (cycle self results id_to_name failed_ids) w in
  (List.length (opened tr) <= 1)%nat /\
  (is_github_actions self = true \/ is_docker_container self = true -> opened tr = []).
Proof.
  apply (@run_covered _ (cycle self results id_to_name failed_ids)
           (fun tr _ =>
              (List.length (opened tr) <= 1)%nat /\
              (is_github_actions self = true \/ is_docker_container self = true ->
               opened tr = [])) W h w).
  unfold cycle, _get_mode_strategy. simpl bind.
  unfold _execute_mode_strategy.
  apply always_bind. eapply always_weaken; [|apply realtime_phase_unopened].
  intros tr1 [html_file|e] H1; simpl in H1;
    [|rewrite H1; split; [simpl; auto|reflexivity]].
  apply always_bind. eapply always_weaken; [|apply summary_phase_unopened].
  intros tr2 [summary_html|e] H2; simpl in H2;
    [|rewrite opened_app, H1, H2; split; [simpl; auto|reflexivity]].
  apply always_bind. eapply always_weaken; [|apply show_report_opened].
  intros tr3 [[]|e] [Hlen Hnone]; simpl;
    rewrite ?app_nil_r, !opened_app, H1, H2; simpl;
    (split; [exact Hlen|]); intros [H|H]; apply Hnone; auto.
Qed.

Lemma browser_only_on_a_desktop_witness :
  opened
    (trace_of scripted_ctx
       (cycle (sample_analyzer "daily" quiet_window) sample_titles
              [("s1", "Source One")] [])
       (sample_world (fun _ => one_match) [] (Ret [("feishu", true)])))
  = [].
Proof.
  destruct (browser_only_on_a_desktop World scripted_ctx
              (sample_world (fun _ => one_match) [] (Ret [("feishu", true)]))
              (sample_analyzer "daily" quiet_window) sample_titles
              [("s1", "Source One")] []) as [_ H].
  apply H. left. reflexivity.
Defined.

(** ** Tweets *)

Section TwitterLemmas.

Variable clean_summary : string -> string.
Variable prefix : nat -> string -> string.

Local Abbreviation tweet_of_entry := (TwitterFetcher.tweet_of_entry clean_summary prefix).
Local Abbreviation append_entries := (TwitterFetcher.append_entries clean_summary prefix).
Local Abbreviation try_instance := (TwitterFetcher.try_instance clean_summary prefix).
Local Abbreviation try_instances := (TwitterFetcher.try_instances clean_summary prefix).
Local Abbreviation fetch_user_tweets := (TwitterFetcher.fetch_user_tweets clean_summary prefix).










End TwitterLemmas.



(** The bound needs the hypothesis on the entries: the tweets taken from
    a feed before one of its entries fails stay in the list, and the next
    instance adds its own. *)
Example tweets_of_a_broken_feed_are_kept :
  let good := TwitterFetcher.mkFeedEntry (Some "t") (Some "s") (Some "https://x/1") None in
  let broken := TwitterFetcher.mkFeedEntry (Some "t") (Some "s") None None in
  option_map (@List.length _)
    (match result_of (TwitterFetcher.scripted_feeds
                        (fun body => if String.eqb body "first" then [good; broken]
                                     else [good; good]))
                     (TwitterFetcher.fetch_user_tweets (fun s => s) (fun _ s => s)
                        None "chuanwang" 2)
                     [Some (mkResponse 200 "first" None);
                      Some (mkResponse 200 "second" None)]
     with Ret tweets => Some tweets | Raise _ => None end)
  = Some 3%nat.
Proof. vm_compute. reflexivity. Qed.

(** *** Tweets as news *)

Lemma of_Z_inj (a b : Z) : PyStr.of_Z a = PyStr.of_Z b -> a = b.
Proof.
  intros H. pose proof (int_of_Z a) as Ha. rewrite H, int_of_Z in Ha. congruence.
Qed.

Lemma version_chars_then_bracket (a b x y : string) :
  all_chars version_char a = true -> all_chars version_char b = true ->
  a ++ String "]" x = b ++ String "]" y -> a = b.
Proof.
  revert b. induction a as [|c a IH]; intros [|d b]; simpl; intros Ha Hb Heq.
  - reflexivity.
  - injection Heq as <- _. apply andb_true_iff in Hb. destruct Hb as [Hb _].
    discriminate Hb.
  - injection Heq as -> _. apply andb_true_iff in Ha. destruct Ha as [Ha _].
    discriminate Ha.
  - injection Heq as <- Heq. apply andb_true_iff in Ha, Hb.
    f_equal. apply IH; tauto.
Qed.

Lemma dict_set_fresh {V} (k : string) (v : V) (d : Dict.t V) :
  ~ In k (Dict.keys d) -> Dict.set k v d = (d ++ [(k, v)])%list.
Proof.
  induction d as [|[k' v'] d IH]; simpl; intros Hfresh; [reflexivity|].
  destruct (String.eqb k k') eqn:E.
  - apply String.eqb_eq in E. subst. tauto.
  - rewrite IH; tauto.
Qed.

Lemma tweet_title_index (i j : Z) (c c' : string) :
  "[" ++ PyStr.of_Z i ++ "] " ++ c = "[" ++ PyStr.of_Z j ++ "] " ++ c' -> i = j.
Proof.
  intros H. injection H as H. apply of_Z_inj.
  eapply version_chars_then_bracket; [apply of_Z_chars..|exact H].
Qed.

Lemma enumerate_from {A} (l : list A) (a b : Z) (x : A) :
  In (b, x) (enumerate a l) -> a <= b.
Proof.
  revert a. induction l as [|y l IH]; simpl; intros a H; [tauto|].
  destruct H as [H|H]; [injection H as <- _; lia|].
  apply IH in H. lia.
Qed.

Lemma twitter_fold (tweets : list TwitterFetcher.Tweet) (start : Z)
      (titles : Dict.t TitleData) :
  (forall k, In k (Dict.keys titles) ->
     exists i c, i < start /\ k = "[" ++ PyStr.of_Z i ++ "] " ++ c) ->
  fold_left TwitterFetcher.convert_item (enumerate start tweets) titles =
  app titles (map TwitterFetcher.title_entry (enumerate start tweets)) /\
  NoDup (map (fun item => fst (TwitterFetcher.title_entry item)) (enumerate start tweets)).
Proof.
  revert start titles. induction tweets as [|tweet rest IH]; intros start titles Hold.
  - simpl. rewrite app_nil_r. split; [reflexivity|constructor].
  - cbn [enumerate fold_left map]. unfold TwitterFetcher.convert_item at 2.
    rewrite dict_set_fresh.
    + destruct (IH (start + 1)
                   (app titles [TwitterFetcher.title_entry (start, tweet)]))
        as [Hfold Hnodup].
      * intros k Hk. unfold Dict.keys in Hk. rewrite map_app in Hk.
        apply in_app_or in Hk. destruct Hk as [Hk|[<-|[]]].
        -- destruct (Hold k Hk) as (i & c & Hi & ->). exists i, c. split; [lia|reflexivity].
        -- exists start, (TwitterFetcher.content tweet). split; [lia|reflexivity].
      * unfold TwitterFetcher.title_entry at 1 in Hfold. cbn [fst snd] in Hfold.
        rewrite Hfold, <- app_assoc. split; [reflexivity|].
        constructor; [|exact Hnodup].
        intros Hin. apply in_map_iff in Hin. destruct Hin as [[j t] [Heq Hin]].
        unfold TwitterFetcher.title_entry in Heq. cbn [fst snd] in Heq.
        apply tweet_title_index in Heq. subst j.
        apply enumerate_from in Hin. lia.
    + intros Hin. destruct (Hold _ Hin) as (i & c & Hi & Heq).
      apply tweet_title_index in Heq. lia.
Qed.

(** X12. The news format of a user's tweets has one source,
    ["twitter_"] followed by the user name in lower case ([py_lower]
    stands for [str.lower]), named ["Twitter @"] and the user name.
    Without tweets the source is listed as failed and [results] is empty.
    With tweets nothing is listed as failed, and the source holds one
    title per tweet, in order: the k-th is ["[k] "] followed by the
    tweet's content, with rank [k] and the tweet's link. No tweet is
    lost, also when two tweets have the same content. *)
Theorem twitter_news_format (py_lower : string -> string)
    (tweets : list TwitterFetcher.Tweet)
    (username crawl_time crawl_date : string) :
  let source_id := "twitter_" ++ py_lower username in
  let titles := map TwitterFetcher.title_entry (enumerate 1 tweets) in
  TwitterFetcher.convert_to_news_format py_lower tweets username crawl_time crawl_date =
  (match tweets with [] => [] | _ => [(source_id, titles)] end,
   [(source_id, "Twitter @" ++ username)],
   match tweets with [] => [source_id] | _ => [] end) /\
  Dict.wf titles /\
  List.length titles = List.length tweets.
Proof.
  cbv zeta. unfold TwitterFetcher.convert_to_news_format.
  destruct (twitter_fold tweets 1 Dict.empty) as [Hfold Hnodup].
  { intros k []. }
  split; [|split].
  - destruct tweets as [|tweet rest]; [reflexivity|].
    rewrite Hfold. reflexivity.
  - unfold Dict.wf, Dict.keys. rewrite map_map. exact Hnodup.
  - rewrite length_map. clear. generalize 1. induction tweets as [|t l IH]; intros s.
    + reflexivity.
    + simpl. rewrite IH. reflexivity.
Qed.

(** ** Crypto prices from CoinGecko *)

Lemma all_failed_get {V} (symbols : list string) (d : Dict.t (option V)) (s : string) :
  In s symbols \/ Dict.get s d = Some None ->
  Dict.get s (CoinGecko.all_failed symbols d) = Some None.
Proof.
  unfold CoinGecko.all_failed. revert d.
  induction symbols as [|x rest IH]; simpl; intros d H.
  - destruct H as [[]|H]. exact H.
  - apply IH. destruct (String.eqb_spec s x) as [->|Hne].
    + right. apply dict_get_set_same.
    + destruct H as [[Heq|Hin]|Hget].
      * congruence.
      * left. exact Hin.
      * right. rewrite dict_get_set_other by exact Hne. exact Hget.
Qed.

Lemma fill_missing_keeps {V} (symbols : list string) (d : Dict.t (option V))
      (s : string) (v : option V) :
  Dict.get s d = Some v -> Dict.get s (CoinGecko.fill_missing symbols d) = Some v.
Proof.
  unfold CoinGecko.fill_missing. revert d.
  induction symbols as [|x rest IH]; simpl; intros d H; [exact H|].
  apply IH. unfold Dict.mem. destruct (Dict.get x d) eqn:Hx; [exact H|].
  rewrite dict_get_set_other; [exact H|]. intros ->. congruence.
Qed.

Lemma fill_missing_fills {V} (symbols : list string) (d : Dict.t (option V)) (s : string) :
  In s symbols -> Dict.get s d = None ->
  Dict.get s (CoinGecko.fill_missing symbols d) = Some None.
Proof.
  revert d. induction symbols as [|x rest IH]; intros d Hin Hnone; [destruct Hin|].
  change (CoinGecko.fill_missing (x :: rest) d)
    with (CoinGecko.fill_missing rest
            (if Dict.mem x d then d else Dict.set x None d)).
  destruct (String.eqb_spec s x) as [->|Hne].
  - apply fill_missing_keeps. unfold Dict.mem. rewrite Hnone. apply dict_get_set_same.
  - destruct Hin as [Heq|Hin]; [congruence|]. apply IH; [exact Hin|].
    destruct (Dict.mem x d); [exact Hnone|].
    rewrite dict_get_set_other by exact Hne. exact Hnone.
Qed.

Lemma fill_missing_keys {V} (symbols : list string) (d : Dict.t (option V)) (s : string) :
  In s (Dict.keys (CoinGecko.fill_missing symbols d)) <->
  In s (Dict.keys d) \/ In s symbols.
Proof.
  revert d. induction symbols as [|x rest IH]; intros d.
  - simpl. tauto.
  - change (CoinGecko.fill_missing (x :: rest) d)
      with (CoinGecko.fill_missing rest
              (if Dict.mem x d then d else Dict.set x None d)).
    rewrite IH. destruct (Dict.mem x d) eqn:Hmem.
    + apply dict_mem_keys in Hmem. simpl. split; [tauto|].
      intros [H|[<-|H]]; auto.
    + rewrite dict_keys_set. simpl. split; [intros [[->|H]|H]; auto|].
      intros [H|[<-|H]]; auto.
Qed.

Lemma dict_get_none_keys {V} (k : string) (d : Dict.t V) :
  ~ In k (Dict.keys d) -> Dict.get k d = None.
Proof.
  intros Hnot. destruct (Dict.get k d) eqn:E; [|reflexivity].
  apply dict_get_keys in E. contradiction.
Qed.

Lemma requested_ids_app (t1 t2 : Trace CoinGecko.GeckoOp) :
  CoinGecko.requested_ids (t1 ++ t2)%list =
  (CoinGecko.requested_ids t1 ++ CoinGecko.requested_ids t2)%list.
Proof. apply flat_map_app. Qed.

Lemma gecko_answers_app (t1 t2 : Trace CoinGecko.GeckoOp) :
  CoinGecko.gecko_answers (t1 ++ t2)%list =
  (CoinGecko.gecko_answers t1 ++ CoinGecko.gecko_answers t2)%list.
Proof. apply flat_map_app. Qed.

Lemma known_symbols_always C (symbols coin_ids : list string) (symbol_to_id : Dict.t string) :
  always C (CoinGecko.known_symbols symbols coin_ids symbol_to_id)
    (fun tr r =>
       CoinGecko.requested_ids tr = [] /\ CoinGecko.gecko_answers tr = [] /\
       exists symbol_to_id',
         r = Ret ((coin_ids ++ CoinGecko.known_ids symbols)%list, symbol_to_id') /\
         forall coin_id symbol, Dict.get coin_id symbol_to_id' = Some symbol ->
           Dict.get coin_id symbol_to_id = Some symbol \/
           (In symbol symbols /\ Dict.mem symbol CoinGecko.SYMBOL_MAP = true)).
Proof.
  revert coin_ids symbol_to_id.
  induction symbols as [|symbol rest IH]; intros coin_ids symbol_to_id.
  - simpl. split; [reflexivity|]. split; [reflexivity|]. exists symbol_to_id.
    rewrite app_nil_r. auto.
  - cbn [CoinGecko.known_symbols CoinGecko.known_ids flat_map].
    destruct (Dict.get symbol CoinGecko.SYMBOL_MAP) as [coin_id|] eqn:Hknown.
    + eapply always_weaken; [|apply IH].
      intros tr r (Hreq & Hans & s2i' & Hr & Hmap).
      split; [exact Hreq|]. split; [exact Hans|]. exists s2i'.
      rewrite <- app_assoc in Hr. split; [exact Hr|].
      intros cid sym Hget. destruct (Hmap cid sym Hget) as [Hold|[Hin Hmem]].
      * destruct (String.eqb_spec cid coin_id) as [->|Hne].
        -- rewrite dict_get_set_same in Hold. injection Hold as <-.
           right. split; [left; reflexivity|]. unfold Dict.mem. rewrite Hknown. reflexivity.
        -- rewrite dict_get_set_other in Hold by exact Hne. left. exact Hold.
      * right. split; [right; exact Hin|exact Hmem].
    + simpl. eapply always_weaken; [|apply IH].
      intros tr r (Hreq & Hans & s2i' & Hr & Hmap).
      split; [exact Hreq|]. split; [exact Hans|]. exists s2i'. split; [exact Hr|].
      intros cid sym Hget. destruct (Hmap cid sym Hget) as [Hold|[Hin Hmem]]; auto.
Qed.

Section GeckoLemmas.

Variable F : Type.
Variable py_float : string -> option F.
Variable float_of_int : Z -> option F.
Variable int_zero : F.
Variables fmt_money fmt_signed : F -> string.

Local Abbreviation process_coin :=
  (CoinGecko.process_coin F py_float float_of_int int_zero fmt_money fmt_signed).
Local Abbreviation process_coins :=
  (CoinGecko.process_coins F py_float float_of_int int_zero fmt_money fmt_signed).
Local Abbreviation fetch_ticker_24h :=
  (CoinGecko.fetch_ticker_24h F py_float float_of_int int_zero fmt_money fmt_signed).

Lemma process_coin_always C symbol_to_id coin_id coin_data results :
  always C (process_coin symbol_to_id coin_id coin_data results)
         (CoinGecko.coin_post symbol_to_id results).
Proof.
  unfold CoinGecko.process_coin, CoinGecko.coin_post, CoinGecko.subscript,
    CoinGecko.get_or_zero, CoinGecko.to_float.
  destruct (Dict.get coin_id symbol_to_id) as [symbol|] eqn:Hsym;
    [|simpl; repeat split; auto].
  destruct (PyStr.truthy symbol); cbn [negb]; [|simpl; repeat split; auto].
  run.
  all: repeat split; try reflexivity.
  all: intros k Hk; apply dict_keys_set in Hk; destruct Hk as [->|Hk];
    [right; exists coin_id; exact Hsym|left; exact Hk].
Qed.

Lemma process_coins_always C symbol_to_id items results :
  always C (process_coins symbol_to_id items results)
         (CoinGecko.coin_post symbol_to_id results).
Proof.
  revert results. induction items as [|[coin_id coin_data] rest IH]; intros results.
  - simpl. unfold CoinGecko.coin_post. repeat split; auto.
  - cbn [CoinGecko.process_coins]. apply always_bind.
    eapply always_weaken; [|apply process_coin_always].
    intros tr1 [results1|e] (Hreq1 & Hans1 & H1).
    + eapply always_weaken; [|apply IH].
      intros tr2 r2 (Hreq2 & Hans2 & H2).
      unfold CoinGecko.coin_post.
      rewrite requested_ids_app, gecko_answers_app, Hreq1, Hreq2, Hans1, Hans2.
      split; [reflexivity|]. split; [reflexivity|].
      destruct r2 as [results2|e2]; [|exact H2].
      intros k Hk. destruct (H2 k Hk) as [Hin|Hex]; auto.
    + unfold CoinGecko.coin_post. auto.
Qed.

End GeckoLemmas.
Lemma all_failed_keys {V} (symbols : list string) (d : Dict.t (option V)) (s : string) :
  In s (Dict.keys (CoinGecko.all_failed symbols d)) <->
  In s (Dict.keys d) \/ In s symbols.
Proof.
  unfold CoinGecko.all_failed. revert d.
  induction symbols as [|x rest IH]; intros d; simpl; [tauto|].
  rewrite IH, dict_keys_set. split; [intros [[->|H]|H]; auto|].
  intros [H|[<-|H]]; auto.
Qed.

Section GeckoFetch.

Variable F : Type.
Variable py_float : string -> option F.
Variable float_of_int : Z -> option F.
Variable int_zero : F.
Variables fmt_money fmt_signed : F -> string.

Local Abbreviation process_coins :=
  (CoinGecko.process_coins F py_float float_of_int int_zero fmt_money fmt_signed).
Local Abbreviation request_prices :=
  (CoinGecko.request_prices F py_float float_of_int int_zero fmt_money fmt_signed).
Local Abbreviation fetch_ticker_24h :=
  (CoinGecko.fetch_ticker_24h F py_float float_of_int int_zero fmt_money fmt_signed).

(** The end of the fetch: the results of the request, completed. *)
Lemma fetch_end (symbols : list string) (symbol_to_id : Dict.t string)
      (results0 : Dict.t (option (Ticker F))) :
  (forall coin_id symbol, Dict.get coin_id symbol_to_id = Some symbol ->
     In symbol symbols /\ Dict.mem symbol CoinGecko.SYMBOL_MAP = true) ->
  (forall k, In k (Dict.keys results0) ->
     In k symbols \/ exists coin_id, Dict.get coin_id symbol_to_id = Some k) ->
  (forall s, In s (Dict.keys (CoinGecko.fill_missing symbols results0)) <-> In s symbols) /\
  (forall s, In s symbols -> Dict.mem s CoinGecko.SYMBOL_MAP = false ->
     (Dict.get s results0 = None \/ Dict.get s results0 = Some None) ->
     Dict.get s (CoinGecko.fill_missing symbols results0) = Some None).
Proof.
  intros Hmap Hkeys. split.
  - intros s. rewrite fill_missing_keys. split; [|auto].
    intros [Hin|Hin]; [|exact Hin].
    destruct (Hkeys s Hin) as [H|[coin_id Hget]]; [exact H|].
    apply (Hmap coin_id s Hget).
  - intros s Hin Hunknown [Hnone|Hsome].
    + apply fill_missing_fills; assumption.
    + apply fill_missing_keeps. exact Hsome.
Qed.

Lemma request_prices_always (proxies : option string) (symbols coin_ids : list string)
      (symbol_to_id : Dict.t string) :
  always any_answer (request_prices proxies symbols coin_ids symbol_to_id)
    (fun tr r =>
       CoinGecko.requested_ids tr = [Some (String.concat "," coin_ids)] /\
       exists a,
         CoinGecko.gecko_answers tr = [a] /\
         match r with
         | Ret results =>
             (CoinGecko.request_failed a = false /\
              forall k, In k (Dict.keys results) ->
                        exists coin_id, Dict.get coin_id symbol_to_id = Some k) \/
             results = CoinGecko.all_failed symbols Dict.empty
         | Raise e =>
             CoinGecko.request_failed a = false /\
             (CoinGecko.uncaught e = true \/ a = Raise e)
         end).
Proof.
  unfold CoinGecko.request_prices. cbv zeta.
  apply always_try_except. apply always_bind.
  cbn [call always]. intros [response|e] _.
  - unfold CoinGecko.raise_for_status, CoinGecko.response_json, CoinGecko.items_of.
    unfold CoinGecko.request_failed.
    destruct ((400 <=? CoinGecko.json_status response)
              && (CoinGecko.json_status response <? 600)) eqn:Hstatus.
    + simpl. split; [reflexivity|]. eexists. split; [reflexivity|]. right. reflexivity.
    + destruct (CoinGecko.json_body response) as [data|] eqn:Hbody.
      * destruct data;
          try (simpl; split; [reflexivity|];
               eexists; split; [reflexivity|]; simpl; rewrite Hstatus, Hbody;
               split; [reflexivity|left; reflexivity]).
        cbn [bind ret raise].
        eapply always_weaken; [|apply process_coins_always].
        intros tr2 r2 (Hreq2 & Hans2 & H2).
        destruct r2 as [results|e2].
        -- simpl. rewrite Hreq2, Hans2.
           split; [reflexivity|]. eexists. split; [reflexivity|].
           simpl. rewrite Hstatus, Hbody. left. split; [reflexivity|].
           intros k Hk. destruct (H2 k Hk) as [[]|Hex]. exact Hex.
        -- destruct e2; simpl in H2; try discriminate H2;
             simpl; rewrite app_nil_r, Hreq2, Hans2;
             (split; [reflexivity|]); eexists; (split; [reflexivity|]);
             simpl; rewrite Hstatus, Hbody; (split; [reflexivity|left; reflexivity]).
      * simpl. split; [reflexivity|]. eexists. split; [reflexivity|]. right. reflexivity.
  - destruct e; simpl;
      (split; [reflexivity|]); eexists; (split; [reflexivity|]);
      first [ right; reflexivity
            | split; [reflexivity|right; reflexivity] ].
Qed.

Lemma fetch_ticker_24h_always (proxies : option string) (symbols : option (list string)) :
  always any_answer (fetch_ticker_24h proxies symbols)
    (CoinGecko.fetch_post
       (match symbols with None => ["BTCUSDT"; "ETHUSDT"] | Some l => l end)).
Proof.
  unfold CoinGecko.fetch_ticker_24h. cbv zeta.
  set (syms := match symbols with None => ["BTCUSDT"; "ETHUSDT"] | Some l => l end).
  apply always_bind. eapply always_weaken; [|apply known_symbols_always].
  intros tr1 r1 (Hreq1 & Hans1 & symbol_to_id & -> & Hmap).
  cbn [app].
  assert (Hmap' : forall coin_id symbol, Dict.get coin_id symbol_to_id = Some symbol ->
                    In symbol syms /\ Dict.mem symbol CoinGecko.SYMBOL_MAP = true).
  { intros cid sym Hget. destruct (Hmap cid sym Hget) as [Hold|H]; [discriminate Hold|exact H]. }
  clear Hmap. unfold CoinGecko.fetch_post. cbv zeta.
  destruct (CoinGecko.known_ids syms) as [|coin_id coin_ids] eqn:Hknown.
  - simpl. rewrite app_nil_r, Hreq1, Hans1.
    split; [auto|]. split; [intros H; contradiction H; reflexivity|].
    split; [intros ? _ H; contradiction H; reflexivity|].
    split; [intros a Ha; discriminate Ha|intros e He; discriminate He].
  - cbv beta iota.
    assert (Hne : coin_id :: coin_ids <> []) by discriminate.
    generalize dependent (coin_id :: coin_ids). intros known Hknown Hne.
    apply always_bind. eapply always_weaken; [|apply request_prices_always].
    intros tr2 r2 (Hreq2 & a & Hans2 & H2).
    destruct r2 as [results0|e]; cbn [always ret];
      rewrite ?app_nil_r, requested_ids_app, gecko_answers_app, Hreq1, Hreq2, Hans1, Hans2;
      cbn [app].
    + split; [intros H; contradiction|]. split; [reflexivity|].
      assert (Hkeys : forall k, In k (Dict.keys results0) ->
                 In k syms \/ exists coin_id, Dict.get coin_id symbol_to_id = Some k).
      { destruct H2 as [[_ H2]| ->]; intros k Hk.
        - right. apply H2. exact Hk.
        - left. apply all_failed_keys in Hk. destruct Hk as [[]|Hk]. exact Hk. }
      destruct (fetch_end syms symbol_to_id results0 Hmap' Hkeys) as [Hall Hunknown].
      split; [|split].
      * intros results Hr _. injection Hr as <-. split; [exact Hall|].
        intros s Hin Hs. apply Hunknown; [exact Hin|exact Hs|].
        destruct H2 as [[_ H2]| ->].
        -- left. apply dict_get_none_keys. intros Hk. destruct (H2 s Hk) as [cid Hget].
           destruct (Hmap' cid s Hget) as [_ Hmem]. congruence.
        -- right. apply all_failed_get. left. exact Hin.
      * intros a' Ha' Hfailed. injection Ha' as <-.
        destruct H2 as [[Hok _]| ->]; [congruence|].
        eexists. split; [reflexivity|].
        intros s Hin. apply fill_missing_keeps. apply all_failed_get. left. exact Hin.
      * intros e He. discriminate He.
    + split; [intros H; contradiction|]. split; [reflexivity|].
      split; [intros results Hr; discriminate Hr|].
      destruct H2 as [Hok H2]. split.
      * intros a' Ha' Hfailed. injection Ha' as <-. congruence.
      * intros e' He'. injection He' as <-. destruct H2 as [H2| ->]; auto.
Qed.

End GeckoFetch.
(** X13. [fetch_ticker_24h] sends one batch request for the symbols the
    map knows, with their coin ids joined by commas in the order of the
    symbols, and no other request. When the map knows none of the symbols
    it sends nothing and returns the empty dictionary, without a key for
    the symbols that were asked. *)
Theorem coingecko_one_batch_request
    (F : Type) (py_float : string -> option F) (float_of_int : Z -> option F)
    (int_zero : F) (fmt_money fmt_signed : F -> string)
    (W : Type) (h : Handler CoinGecko.GeckoOp W) (w : W)
    (proxies : option string) (symbols : option (list string)) :
  let fetch := CoinGecko.fetch_ticker_24h F py_float float_of_int int_zero
                 fmt_money fmt_signed proxies symbols in
  let known := CoinGecko.known_ids
                 (match symbols with None => ["BTCUSDT"; "ETHUSDT"] | Some l => l end) in
  CoinGecko.requested_ids (trace_of h fetch w) =
    match known with [] => [] | _ => [Some (String.concat "," known)] end /\
  (known = [] -> result_of h fetch w = Ret Dict.empty).
Proof.
  intros fetch known.
  destruct (exec_always any_answer h fetch w _ (respects_any h)
              (fetch_ticker_24h_always F py_float float_of_int int_zero
                 fmt_money fmt_signed proxies symbols))
    as (Hnone & Hsome & _).
  fold known in Hnone, Hsome. split.
  - destruct known as [|coin_id coin_ids] eqn:Hknown.
    + apply Hnone. reflexivity.
    + apply Hsome. discriminate.
  - intros Hknown. apply Hnone. exact Hknown.
Qed.

Lemma coingecko_one_batch_request_witness :
  result_of CoinGecko.scripted_gecko
    (CoinGecko.fetch_ticker_24h Z (fun _ => None) Some 0 PyStr.of_Z PyStr.of_Z
       None (Some ["XRPUSDT"; "LTCUSDT"]))
    (Raise (RequestException "unreachable"))
  = Ret Dict.empty.
Proof.
  apply (coingecko_one_batch_request Z (fun _ => None) Some 0 PyStr.of_Z PyStr.of_Z
           (Outcome CoinGecko.JsonResponse) CoinGecko.scripted_gecko
           (Raise (RequestException "unreachable")) None (Some ["XRPUSDT"; "LTCUSDT"])).
  reflexivity.
Defined.

(** X14. When the map knows one of the symbols and [fetch_ticker_24h]
    returns, the result has exactly the symbols that were asked as keys,
    and [None] for every symbol the map does not know. When the request
    fails (it raises a [RequestException], or answers with an error
    status or a body that is not JSON) the fetcher returns, with [None]
    for every symbol. An exception leaves the fetcher only when no clause
    of it catches that class, or when the request itself raised it. *)
Theorem coingecko_result_covers_symbols
    (F : Type) (py_float : string -> option F) (float_of_int : Z -> option F)
    (int_zero : F) (fmt_money fmt_signed : F -> string)
    (W : Type) (h : Handler CoinGecko.GeckoOp W) (w : W)
    (proxies : option string) (symbols : option (list string)) :
  let fetch := CoinGecko.fetch_ticker_24h F py_float float_of_int int_zero
                 fmt_money fmt_signed proxies symbols in
  let asked := match symbols with None => ["BTCUSDT"; "ETHUSDT"] | Some l => l end in
  CoinGecko.known_ids asked <> [] ->
  (forall results, result_of h fetch w = Ret results ->
     (forall s, In s (Dict.keys results) <-> In s asked) /\
     (forall s, In s asked -> Dict.mem s CoinGecko.SYMBOL_MAP = false ->
        Dict.get s results = Some None)) /\
  (forall a, CoinGecko.gecko_answers (trace_of h fetch w) = [a] ->
     CoinGecko.request_failed a = true ->
     exists results,
       result_of h fetch w = Ret results /\
       forall s, In s asked -> Dict.get s results = Some None) /\
  (forall e, result_of h fetch w = Raise e ->
     CoinGecko.uncaught e = true \/
     CoinGecko.gecko_answers (trace_of h fetch w) = [Raise e]).
Proof.
  intros fetch asked Hknown.
  destruct (exec_always any_answer h fetch w _ (respects_any h)
              (fetch_ticker_24h_always F py_float float_of_int int_zero
                 fmt_money fmt_signed proxies symbols))
    as (_ & _ & Hret & Hfailed & Hraise).
  split; [|split].
  - intros results Hr. apply Hret; assumption.
  - exact Hfailed.
  - exact Hraise.
Qed.

Lemma coingecko_result_covers_symbols_witness :
  exists results,
    result_of CoinGecko.scripted_gecko
      (CoinGecko.fetch_ticker_24h Z (fun _ => None) Some 0 PyStr.of_Z PyStr.of_Z
         None (Some ["BTCUSDT"; "XRPUSDT"]))
      (Ret (CoinGecko.mkJsonResponse 503 None))
    = Ret results /\
    forall s, In s ["BTCUSDT"; "XRPUSDT"] -> Dict.get s results = Some None.
Proof.
  destruct (coingecko_result_covers_symbols Z (fun _ => None) Some 0 PyStr.of_Z PyStr.of_Z
              (Outcome CoinGecko.JsonResponse) CoinGecko.scripted_gecko
              (Ret (CoinGecko.mkJsonResponse 503 None)) None
              (Some ["BTCUSDT"; "XRPUSDT"]))
    as (_ & Hfailed & _).
  - vm_compute. discriminate.
  - apply (Hfailed (Ret (CoinGecko.mkJsonResponse 503 None))); reflexivity.
Defined.

(** A price that is [null] in the answer is not one of the failures the
    fetcher catches: the [TypeError] of [float(None)] leaves it. *)
Example coingecko_null_price_raises :
  result_of CoinGecko.scripted_gecko
    (CoinGecko.fetch_ticker_24h Z (fun _ => None) Some 0 PyStr.of_Z PyStr.of_Z
       None (Some ["BTCUSDT"]))
    (Ret (CoinGecko.mkJsonResponse 200
            (Some (CoinGecko.JObject
                     [("bitcoin", CoinGecko.JObject [("usd", CoinGecko.JNull)])]))))
  = Raise (CoinGecko.type_error "float() argument must be a string or a real number").
Proof. reflexivity. Qed.
(** *** Prices as news *)

Lemma dict_set_map_values {V U} (g : V -> U) (k : string) (v : V) (d : Dict.t V) :
  map (fun item => (fst item, g (snd item))) (Dict.set k v d) =
  Dict.set k (g v) (map (fun item => (fst item, g (snd item))) d).
Proof.
  induction d as [|[k' v'] d IH]; simpl; [reflexivity|].
  destruct (String.eqb k k'); simpl; [reflexivity|]. rewrite IH. reflexivity.
Qed.

Lemma dict_in_set {V} (k k' : string) (v v' : V) (d : Dict.t V) :
  In (k', v') (Dict.set k v d) -> (k' = k /\ v' = v) \/ In (k', v') d.
Proof.
  induction d as [|[k0 v0] d IH]; simpl.
  - intros [H|[]]. injection H as <- <-. auto.
  - destruct (String.eqb k k0) eqn:E; simpl.
    + apply String.eqb_eq in E. subst k0.
      intros [H|H]; [injection H as <- <-; auto|auto].
    + intros [H|H]; [auto|]. destruct (IH H); auto.
Qed.

Section GeckoFormat.

Variable F : Type.
Variable float_sign : F -> comparison.
Variables fmt_money fmt_signed fmt_whole : F -> string.

(** The two converters, turn by turn. *)
Lemma gecko_fold_convert_item (seen items : list (string * option (Ticker F)))
      (acc acc' : NewsFormat) :
  snd (fst acc) = snd (fst acc') -> snd acc = snd acc' ->
  titles_and_ranks (fst (fst acc)) = titles_and_ranks (fst (fst acc')) ->
  (forall source_id titles, In (source_id, titles) (fst (fst acc)) ->
     exists symbol data,
       In (symbol, Some data) seen /\ source_id_of symbol = source_id /\
       let link := "https://www.coingecko.com/zh/数字货币/"
                   ++ dict_get_default CoinGecko.SYMBOL_MAP symbol "" in
       titles = [(crypto_title float_sign fmt_money fmt_signed fmt_whole
                    (snd (source_of symbol)) data,
                  mkTitleData [1] link link)]) ->
  let out := fold_left (CoinGecko.convert_item F float_sign fmt_money fmt_signed fmt_whole)
                       items acc in
  let out' := fold_left (convert_item float_sign fmt_money fmt_signed fmt_whole)
                        items acc' in
  snd (fst out) = snd (fst out') /\ snd out = snd out' /\
  titles_and_ranks (fst (fst out)) = titles_and_ranks (fst (fst out')) /\
  (forall source_id titles, In (source_id, titles) (fst (fst out)) ->
     exists symbol data,
       In (symbol, Some data) (seen ++ items)%list /\ source_id_of symbol = source_id /\
       let link := "https://www.coingecko.com/zh/数字货币/"
                   ++ dict_get_default CoinGecko.SYMBOL_MAP symbol "" in
       titles = [(crypto_title float_sign fmt_money fmt_signed fmt_whole
                    (snd (source_of symbol)) data,
                  mkTitleData [1] link link)]).
Proof.
  revert seen acc acc'.
  induction items as [|[symbol data] items IH]; intros seen acc acc' Hnames Hfailed Hsame Hlinks.
  - simpl. rewrite app_nil_r. auto.
  - cbn [fold_left].
    replace (seen ++ (symbol, data) :: items)%list
      with ((seen ++ [(symbol, data)]) ++ items)%list
      by (rewrite <- app_assoc; reflexivity).
    destruct acc as [[results id_to_name] failed_ids].
    destruct acc' as [[results' id_to_name'] failed_ids'].
    cbn [fst snd] in Hnames, Hfailed, Hsame, Hlinks. subst id_to_name' failed_ids'.
    apply IH; unfold CoinGecko.convert_item, convert_item;
      destruct data as [data|]; try reflexivity;
      try (destruct (source_of symbol) as [[source_id source_name] short_name] eqn:Hsource);
      cbn [fst snd]; try reflexivity.
    + unfold titles_and_ranks in *. rewrite !dict_set_map_values, Hsame. reflexivity.
    + exact Hsame.
    + intros sid titles Hin. apply dict_in_set in Hin.
      destruct Hin as [[-> ->]|Hin].
      * exists symbol, data. split; [apply in_or_app; right; left; reflexivity|].
        unfold source_id_of. rewrite Hsource. split; reflexivity.
      * destruct (Hlinks sid titles Hin) as (s & d & Hseen & Hrest).
        exists s, d. split; [apply in_or_app; left; exact Hseen|exact Hrest].
    + intros sid titles Hin.
      destruct (Hlinks sid titles Hin) as (s & d & Hseen & Hrest).
      exists s, d. split; [apply in_or_app; left; exact Hseen|exact Hrest].
Qed.

End GeckoFormat.

(** X15. The CoinGecko converter gives what the Binance converter gives
    on the same prices, the links apart: the same source names, the same
    failed symbols, and the same sources with the same titles and ranks,
    in the same order. Every source it fills holds one title, with rank 1,
    linked to the page of the coin of one of the priced symbols of that
    source (the address ends after the last slash when the map does not
    know the symbol). *)
Theorem coingecko_news_format_as_binance
    (F : Type) (float_sign : F -> comparison)
    (fmt_money fmt_signed fmt_whole : F -> string)
    (price_data : Dict.t (option (Ticker F))) (crawl_time crawl_date : string) :
  let out := CoinGecko.convert_to_news_format F float_sign fmt_money fmt_signed
               fmt_whole price_data crawl_time crawl_date in
  let out' := convert_to_news_format float_sign fmt_money fmt_signed fmt_whole
                price_data crawl_time crawl_date in
  snd (fst out) = snd (fst out') /\ snd out = snd out' /\
  titles_and_ranks (fst (fst out)) = titles_and_ranks (fst (fst out')) /\
  (forall source_id titles, Dict.get source_id (fst (fst out)) = Some titles ->
     exists symbol data,
       In (symbol, Some data) (Dict.items price_data) /\
       source_id_of symbol = source_id /\
       let link := "https://www.coingecko.com/zh/数字货币/"
                   ++ match Dict.get symbol CoinGecko.SYMBOL_MAP with
                      | Some coin_id => coin_id
                      | None => ""
                      end in
       titles = [(crypto_title float_sign fmt_money fmt_signed fmt_whole
                    (snd (source_of symbol)) data,
                  mkTitleData [1] link link)]).
Proof.
  intros out out'.
  destruct (gecko_fold_convert_item F float_sign fmt_money fmt_signed fmt_whole
              [] (Dict.items price_data)
              (Dict.empty, Dict.empty, []) (Dict.empty, Dict.empty, []))
    as (Hnames & Hfailed & Hsame & Hlinks); try reflexivity.
  { intros sid titles []. }
  split; [exact Hnames|]. split; [exact Hfailed|]. split; [exact Hsame|].
  intros sid titles Hget. apply dict_get_in in Hget.
  exact (Hlinks sid titles Hget).
Qed.
